(** * Token lifecycle and one-time verification codes

    A shallow embedding of the authentication subsystem of the repository:

    - [jwt]         arch3/pkg/jwt (Manager: mint, parse, blacklist)
    - [jwtcookie]   arch3/pkg/jwt (cookie names, cookie domain)
    - [userservice] arch3/internal/service/user (RefreshToken, Logout, SMS errors)
    - [userservice_ext], [userlogin]
                    arch3/internal/service/user (GetUserByID, SMSLogin)
    - [userrepo]    arch3/internal/repository/user (FindByUserID)
    - [smsrepo]     arch3/internal/repository/sms (CacheRepository over Redis)
    - [volcengine]  arch3/internal/integration/sms/volcengine (Send, Verify)
    - [smsv2], [smsv2_ext]
                    archv2/internal/integration/sms (VolcengineClient)
    - [middleware]  arch3/internal/handler/middleware (AuthMiddleware)
    - [response], [response_ext]
                    arch3/pkg/response (codes, classes, the JSON answer)
    - [sqlx]        arch3/pkg/sqlx (NullString)

    Go functions that talk to the outside (Redis, the user table, the SMS
    gateway, the clock, the random sources) become state transformers over a
    [World].  A Go result [(v, err)] is the pair [(v, e)] with [e : option
    error], [None] standing for [nil].  A call runs at one instant of the
    clock; time passes between calls ([elapse]).  Tracing spans only observe
    the run and are left out. *)

From Stdlib Require Import ZArith Ascii String List Lia DecimalString DecimalZ DecimalPos
  DecimalFacts.
From stdpp Require Import base option gmap strings list.

Open Scope Z_scope.

(** ** Go errors

    An [error] is a sentinel made by [errors.New], a formatted error made by
    [fmt.Errorf] (with or without a wrapped cause, [%w]), or a business
    [response.Result].  Sentinels are told apart by their text, which is
    distinct for all sentinels used here. *)

Inductive error : Type :=
| errors_New (text : string)
| fmt_Errorf (text : string)
| fmt_Errorf_w (text : string) (cause : error)
| response_Result (Code : Z) (Message : string).

Definition Error (e : error) : string :=
  match e with
  | errors_New s | fmt_Errorf s | fmt_Errorf_w s _ => s
  | response_Result _ m => m
  end.

Definition error_eq_dec (a b : error) : {a = b} + {a <> b}.
Proof. decide equality; solve [apply String.string_dec | apply Z.eq_dec]. Defined.

#[global] Instance error_eqdec : EqDecision error := error_eq_dec.

(** [errors.Is(err, target)]: [err] is not [nil] and the target occurs on its
    chain of wrapped causes. *)
Fixpoint chain_has (err target : error) : bool :=
  if error_eq_dec err target then true
  else match err with
       | fmt_Errorf_w _ cause => chain_has cause target
       | _ => false
       end.

(** [err != nil] *)
Definition is_Some_b {A : Type} (o : option A) : bool :=
  match o with
  | Some _ => true
  | None => false
  end.

Definition errors_Is (err : option error) (target : error) : bool :=
  match err with
  | Some e => chain_has e target
  | None => false
  end.

(** ** Go basics: durations, [strconv], [fmt.Sprintf] *)

Module time.
(** [time.Duration] counts nanoseconds. *)
Definition Nanosecond : Z := 1.
Definition Millisecond : Z := 1000000.
Definition Second : Z := 1000000000.
Definition Minute : Z := 60 * Second.
Definition Hour : Z := 60 * Minute.

(** [t.Truncate(d)] for [d > 0]: round down to a multiple of [d]. *)
Definition Truncate (t d : Z) : Z := t / d * d.
End time.

Module strconv.
Definition MaxInt64 : Z := 2 ^ 63 - 1.
Definition MinInt64 : Z := - 2 ^ 63.

Definition ErrSyntax : error := errors_New "invalid syntax".
Definition ErrRange : error := errors_New "value out of range".

Definition Itoa (z : Z) : string := NilZero.string_of_int (Z.to_int z).

(** The decimal numeral denoted by [s], if [s] is one. *)
Definition parse (s : string) : option Z := Z.of_int <$> NilZero.int_of_string s.

(** [strconv.Atoi] on a 64-bit platform: on a numeral outside [int] the
    nearest bound is returned together with [ErrRange]. *)
Definition Atoi (s : string) : Z * option error :=
  match parse s with
  | None => (0, Some ErrSyntax)
  | Some n =>
      if n <? MinInt64 then (MinInt64, Some ErrRange)
      else if MaxInt64 <? n then (MaxInt64, Some ErrRange)
      else (n, None)
  end.
End strconv.

Module fmt.
(** [fmt.Sprintf] restricted to the verbs [%s], [%v], [%w] and [%d].  An
    operand is passed as the text it prints as (an error as its message, an
    integer as its decimal numeral), so the four verbs print alike; Go's
    diagnostics for a missing operand and for operands left over are kept. *)
Fixpoint extra (args : list string) : string :=
  match args with
  | [] => ""
  | [a] => "string=" +:+ a
  | a :: rest => "string=" +:+ a +:+ ", " +:+ extra rest
  end.

Fixpoint Sprintf (format : string) (args : list string) : string :=
  match format with
  | EmptyString =>
      match args with
      | [] => ""
      | _ => "%!(EXTRA " +:+ extra args +:+ ")"
      end
  | String "%"%char (String "s"%char rest) =>
      match args with
      | a :: args' => a +:+ Sprintf rest args'
      | [] => "%!s(MISSING)" +:+ Sprintf rest []
      end
  | String "%"%char (String "v"%char rest) =>
      match args with
      | a :: args' => a +:+ Sprintf rest args'
      | [] => "%!v(MISSING)" +:+ Sprintf rest []
      end
  | String "%"%char (String "d"%char rest) =>
      match args with
      | a :: args' => a +:+ Sprintf rest args'
      | [] => "%!d(MISSING)" +:+ Sprintf rest []
      end
  | String "%"%char (String "w"%char rest) =>
      match args with
      | a :: args' => a +:+ Sprintf rest args'
      | [] => "%!w(MISSING)" +:+ Sprintf rest []
      end
  | String c rest => String c (Sprintf rest args)
  end.

(** [fmt.Errorf] without and with a wrapped cause ([%w] prints the cause). *)
Definition Errorf (format : string) (args : list string) : error :=
  fmt_Errorf (Sprintf format args).

Definition Errorf_w (format : string) (args : list string) (cause : error) : error :=
  fmt_Errorf_w (Sprintf format args) cause.

(** [fmt.Sprintf("%06d", n)]: decimal, zero-padded on the left to width 6
    (the sign, if any, goes first). *)
Fixpoint zeros (n : nat) : string :=
  match n with O => "" | S k => String "0"%char (zeros k) end.

Definition pad0 (width : nat) (digits : string) : string :=
  zeros (width - String.length digits)%nat +:+ digits.

Definition Sprintf_06d (n : Z) : string :=
  if n <? 0 then String "-"%char (pad0 5 (strconv.Itoa (- n)))
  else pad0 6 (strconv.Itoa n).
End fmt.

(** ** The outside world *)

(** A Redis key holds a string and, unless it is persistent, the instant at
    which it expires (nanoseconds on the same clock as [time.Now]). *)
Record entry : Type := Entry { e_val : string; e_deadline : option Z }.

Inductive command : Type :=
| GET (key : string)
| SET (key value : string) (expiration : Z)
| DEL (key : string)
| INCR (key : string)
| EXPIRE (key : string) (expiration : Z).

Inductive reply : Type :=
| RNil
| RStatusOK
| RString (s : string)
| RInteger (n : Z)
| RError (text : string).

(** The columns of a user row that matter to the service. *)
Module domain.
Record User : Type := mkUser {
  UserID : string;
  UserName : string;
  PhoneNumber : string;
  Status : string
}.

Definition ErrUserNotFound : error := errors_New "user not found".
End domain.

(** Every interaction with a collaborator is recorded, in order. *)
Inductive event : Type :=
| EvRedis (cmds : list command) (delivered : bool)
| EvFindByUserID (userID : string)
| EvUUID (id : string)
| EvRand
| EvSendSMS (phone templateID code : string) (delivered : bool).

(** The state of the collaborators.  [tick] counts the interactions made so
    far; the oracles say, for each interaction, whether Redis or the database
    is unreachable, what the SMS gateway answers ([Some (text, status)] is a
    failure), and what the random sources yield. *)
Record World : Type := mkWorld {
  clock : Z;
  rdb : gmap string entry;
  users : gmap string domain.User;
  tick : nat;
  trace : list event;
  redis_down : nat -> bool;
  db_down : nat -> bool;
  sms_gateway : nat -> option (string * Z);
  uuid_src : nat -> string;
  rand_src : nat -> option Z
}.

Definition emit (e : event) (w : World) : World :=
  {| clock := clock w; rdb := rdb w; users := users w;
     tick := S (tick w); trace := trace w ++ [e];
     redis_down := redis_down w; db_down := db_down w;
     sms_gateway := sms_gateway w; uuid_src := uuid_src w;
     rand_src := rand_src w |}.

Definition set_rdb (db : gmap string entry) (w : World) : World :=
  {| clock := clock w; rdb := db; users := users w;
     tick := tick w; trace := trace w;
     redis_down := redis_down w; db_down := db_down w;
     sms_gateway := sms_gateway w; uuid_src := uuid_src w;
     rand_src := rand_src w |}.

(** Time passing between two requests. *)
Definition elapse (d : Z) (w : World) : World :=
  {| clock := clock w + d; rdb := rdb w; users := users w;
     tick := tick w; trace := trace w;
     redis_down := redis_down w; db_down := db_down w;
     sms_gateway := sms_gateway w; uuid_src := uuid_src w;
     rand_src := rand_src w |}.

(** Effectful Go code: a function of the world. *)
Definition IO (A : Type) : Type := World -> A * World.

Definition ret {A : Type} (a : A) : IO A := fun w => (a, w).

Definition bind {A B : Type} (m : IO A) (k : A -> IO B) : IO B :=
  fun w => let (a, w') := m w in k a w'.

Notation "'let*' x := m 'in' k" := (bind m (fun x => k))
  (at level 10, x name, m at level 100, k at level 200).
Notation "'let*' ' p := m 'in' k" := (bind m (fun p => k))
  (at level 10, p pattern, m at level 100, k at level 200).

Definition now : IO Z := fun w => (clock w, w).

(** ** Redis

    The server: a keyspace with lazy expiry.  The client ([go-redis]): one
    round trip per command or per pipeline; when the oracle says Redis is
    unreachable the round trip fails and the keyspace is untouched.
    Expirations are kept at Go's nanosecond resolution. *)

Module redis.
Definition Nil : error := errors_New "redis: nil".
Definition ErrPoolTimeout : error := errors_New "redis: connection pool timeout".

Definition live (t : Z) (e : entry) : bool :=
  match e_deadline e with
  | None => true
  | Some d => t <? d
  end.

(** The entry a command sees under [key] at instant [t]. *)
Definition peek (t : Z) (db : gmap string entry) (key : string) : option entry :=
  match db !! key with
  | Some e => if live t e then Some e else None
  | None => None
  end.

(** A zero (or negative) expiration passed to [Set] means no expiry. *)
Definition deadline_of (t expiration : Z) : option Z :=
  if 0 <? expiration then Some (t + expiration) else None.

Definition exec (t : Z) (c : command) (db : gmap string entry)
  : reply * gmap string entry :=
  match c with
  | GET k =>
      (match peek t db k with
       | Some e => RString (e_val e)
       | None => RNil
       end, db)
  | SET k v ex => (RStatusOK, <[k := Entry v (deadline_of t ex)]> db)
  | DEL k =>
      (RInteger (match peek t db k with Some _ => 1 | None => 0 end), delete k db)
  | INCR k =>
      match peek t db k with
      | None => (RInteger 1, <[k := Entry (strconv.Itoa 1) None]> db)
      | Some e =>
          match strconv.parse (e_val e) with
          | Some n =>
              if (strconv.MinInt64 <=? n) && (n <? strconv.MaxInt64)
              then (RInteger (n + 1),
                    <[k := Entry (strconv.Itoa (n + 1)) (e_deadline e)]> db)
              else (RError "ERR increment or decrement would overflow", db)
          | None => (RError "ERR value is not an integer or out of range", db)
          end
      end
  | EXPIRE k ex =>
      match peek t db k with
      | Some e =>
          if 0 <? ex
          then (RInteger 1, <[k := Entry (e_val e) (Some (t + ex))]> db)
          else (RInteger 1, delete k db)
      | None => (RInteger 0, db)
      end
  end.

(** The key a command works on. *)
Definition key_of (c : command) : string :=
  match c with
  | GET k | SET k _ _ | DEL k | INCR k | EXPIRE k _ => k
  end.

Fixpoint run (t : Z) (cmds : list command) (db : gmap string entry)
  : list reply * gmap string entry :=
  match cmds with
  | [] => ([], db)
  | c :: cs =>
      let (r, db1) := exec t c db in
      let (rs, db2) := run t cs db1 in
      (r :: rs, db2)
  end.

Definition roundtrip (cmds : list command) : IO (option (list reply)) :=
  fun w =>
    if redis_down w (tick w) then (None, emit (EvRedis cmds false) w)
    else
      let (rs, db) := run (clock w) cmds (rdb w) in
      (Some rs, emit (EvRedis cmds true) (set_rdb db w)).

(** The error a reply carries, as [cmd.Err()] reports it. *)
Definition reply_err (r : reply) : option error :=
  match r with
  | RNil => Some Nil
  | RError text => Some (errors_New text)
  | _ => None
  end.

(** [rdb.Get(ctx, key).Result()] *)
Definition Get (key : string) : IO (string * option error) :=
  let* rs := roundtrip [GET key] in
  ret (match rs with
        | None => ("", Some ErrPoolTimeout)
        | Some (RString s :: _) => (s, None)
        | Some (r :: _) => ("", reply_err r)
        | Some [] => ("", Some ErrPoolTimeout)
        end).

(** [rdb.Get(ctx, key).Int()] *)
Definition Get_Int (key : string) : IO (Z * option error) :=
  let* '(s, err) := Get key in
  ret (match err with
        | Some e => (0, Some e)
        | None => strconv.Atoi s
        end).

(** The first error of a round trip, as [Cmd.Err()] and [pipe.Exec] give it. *)
Definition first_err (rs : option (list reply)) : option error :=
  match rs with
  | None => Some ErrPoolTimeout
  | Some l => list_find (fun r => is_Some (reply_err r)) l ≫= fun p => reply_err (snd p)
  end.

(** [rdb.Set(ctx, key, value, expiration).Err()] *)
Definition Set_ (key value : string) (expiration : Z) : IO (option error) :=
  let* rs := roundtrip [SET key value expiration] in ret (first_err rs).

(** [rdb.Del(ctx, key).Err()] *)
Definition Del (key : string) : IO (option error) :=
  let* rs := roundtrip [DEL key] in ret (first_err rs).

(** [pipe := rdb.Pipeline(); ...; _, err := pipe.Exec(ctx)] *)
Definition Pipeline_Exec (cmds : list command) : IO (option error) :=
  let* rs := roundtrip cmds in ret (first_err rs).
End redis.

(** ** The [golang-jwt] library and [google/uuid], as the code uses them

    A compact token is modelled symbolically: it carries its header algorithm,
    its claims, and the key its signature was computed with; an HMAC
    signature verifies exactly under that key.  Strings that are not a
    compact token are [Garbage]. *)

Module jwtlib.
Inductive SigningMethod : Type := HS256 | HS384 | HS512 | RS256 | ES256 | none.

(** The type assertion of [token.Method] to a pointer to
    [jwt.SigningMethodHMAC]: it holds for the three HMAC methods. *)
Definition is_HMAC (m : SigningMethod) : bool :=
  match m with
  | HS256 | HS384 | HS512 => true
  | _ => false
  end.

Definition alg (m : SigningMethod) : string :=
  match m with
  | HS256 => "HS256" | HS384 => "HS384" | HS512 => "HS512"
  | RS256 => "RS256" | ES256 => "ES256" | none => "none"
  end.

(** The fields of [jwt.RegisteredClaims] the code sets or reads; a
    [NumericDate] is an instant in nanoseconds, [None] when absent. *)
Record RegisteredClaims : Type := mkRegisteredClaims {
  ID : string;
  IssuedAt : option Z;
  ExpiresAt : option Z
}.

(** [jwt.NewNumericDate(t)]: the instant cut to [jwt.TimePrecision], a second. *)
Definition NewNumericDate (t : Z) : option Z := Some (time.Truncate t time.Second).

Definition ErrTokenMalformed : error := errors_New "token is malformed".
Definition ErrTokenUnverifiable : error := errors_New "token is unverifiable".
Definition ErrTokenSignatureInvalid : error := errors_New "token signature is invalid".
Definition ErrTokenExpired : error := errors_New "token is expired".

(** The default validator checks [exp] only: valid while [now < exp]. *)
Definition expired (t : Z) (rc : RegisteredClaims) : bool :=
  match ExpiresAt rc with
  | Some exp => negb (t <? exp)
  | None => false
  end.
End jwtlib.

Module uuid.
(** [uuid.New().String()]: the next value of the random source. *)
Definition New : IO string :=
  fun w => let id := uuid_src w (tick w) in (id, emit (EvUUID id) w).
End uuid.

Module jwtparse.
Import jwtlib.

Section Generic.
Context {C : Type}.

(** A signed token, and what a token string may be. *)
Record Token : Type := mkToken {
  Method : SigningMethod;
  Claims : C;
  signed_with : string
}.

Inductive compact : Type :=
| Compact (t : Token)
| Garbage (raw : string).

(** [jwt.NewWithClaims(method, claims).SignedString(key)] with a byte
    slice as key: HMAC signing does not fail. *)
Definition SignedString (method : SigningMethod) (claims : C) (key : string)
  : compact * option error :=
  (Compact {| Method := method; Claims := claims; signed_with := key |}, None).

Record Parsed : Type := mkParsed { token : Token; Valid : bool }.

(** [jwt.ParseWithClaims(tokenString, claims, keyFunc)] with the default
    parser: decode, ask [keyFunc] for the key, verify the signature, then
    validate the registered claims against the clock. *)
Definition ParseWithClaims (registered : C -> RegisteredClaims)
    (tokenString : compact) (keyFunc : Token -> string * option error)
  : IO (option Parsed * option error) :=
  let* t := now in
  ret
    match tokenString with
    | Garbage _ => (None, Some ErrTokenMalformed)
    | Compact tok =>
        match keyFunc tok with
        | (_, Some e) =>
            (Some (mkParsed tok false),
             Some (fmt_Errorf_w (Error ErrTokenUnverifiable +:+ ": " +:+ Error e) e))
        | (key, None) =>
            if negb (is_HMAC (Method tok) && String.eqb key (signed_with tok))
            then (Some (mkParsed tok false), Some ErrTokenSignatureInvalid)
            else if expired t (registered (Claims tok))
            then (Some (mkParsed tok false), Some ErrTokenExpired)
            else (Some (mkParsed tok true), None)
        end
    end.
End Generic.

Arguments Token : clear implicits.
Arguments compact : clear implicits.
Arguments Parsed : clear implicits.
End jwtparse.

(** ** arch3/pkg/jwt *)

Module jwt.
Import jwtlib jwtparse.

Definition TokenTypeAccess : string := "access".
Definition TokenTypeRefresh : string := "refresh".

Definition DefaultAccessTokenDuration : Z := 15 * time.Minute.
Definition DefaultRefreshTokenDuration : Z := 7 * 24 * time.Hour.

Record Config : Type := mkConfig {
  Secret : string;
  AccessExpire : Z;
  RefreshExpire : Z;
  CookieSecure : bool
}.

Record Claims : Type := mkClaims {
  UserID : string;
  TokenType : string;
  Registered : RegisteredClaims
}.

Abbreviation tokenString := (compact Claims).

Record TokenPair : Type := mkTokenPair {
  AccessToken : tokenString;
  RefreshToken : tokenString
}.

(** The Redis client of the manager is the keyspace of the world. *)
Record Manager : Type := mkManager {
  secret : string;
  accessExpire : Z;
  refreshExpire : Z;
  cookieSecure : bool
}.

Definition NewManager (cfg : Config) : Manager :=
  let accessExpire := DefaultAccessTokenDuration in
  let refreshExpire := DefaultRefreshTokenDuration in
  let accessExpire := if 0 <? AccessExpire cfg then AccessExpire cfg else accessExpire in
  let refreshExpire := if 0 <? RefreshExpire cfg then RefreshExpire cfg else refreshExpire in
  {| secret := Secret cfg;
     accessExpire := accessExpire;
     refreshExpire := refreshExpire;
     cookieSecure := CookieSecure cfg |}.

Definition GenerateTokenPair (m : Manager) (userID : string)
  : IO (option TokenPair * option error) :=
  let* t := now in
  let* accessJTI := uuid.New in
  let accessClaims :=
    {| UserID := userID;
       TokenType := TokenTypeAccess;
       Registered :=
         {| ID := accessJTI;
            IssuedAt := NewNumericDate t;
            ExpiresAt := NewNumericDate (t + accessExpire m) |} |} in
  match SignedString HS256 accessClaims (secret m) with
  | (_, Some err) =>
      ret (None, Some (fmt.Errorf_w "sign access token: %w" [Error err] err))
  | (accessTokenString, None) =>
      let* refreshJTI := uuid.New in
      let refreshClaims :=
        {| UserID := userID;
           TokenType := TokenTypeRefresh;
           Registered :=
             {| ID := refreshJTI;
                IssuedAt := NewNumericDate t;
                ExpiresAt := NewNumericDate (t + refreshExpire m) |} |} in
      match SignedString HS256 refreshClaims (secret m) with
      | (_, Some err) =>
          ret (None, Some (fmt.Errorf_w "sign refresh token: %w" [Error err] err))
      | (refreshTokenString, None) =>
          ret (Some {| AccessToken := accessTokenString;
                        RefreshToken := refreshTokenString |}, None)
      end
  end.

(** The key function handed to the parser: HMAC methods only. *)
Definition keyFunc (m : Manager) (token : Token Claims) : string * option error :=
  if negb (is_HMAC (Method token))
  then ("", Some (fmt.Errorf "unexpected signing method: %v" [alg (Method token)]))
  else (secret m, None).

Definition ParseToken (m : Manager) (tokenString : tokenString) (expectedType : string)
  : IO (option Claims * option error) :=
  let* '(token, err) := ParseWithClaims Registered tokenString (keyFunc m) in
  ret
    match err with
    | Some e => (None, Some (fmt.Errorf_w "parse token: %w" [Error e] e))
    | None =>
        match token with
        | Some (mkParsed tok true) =>
            let claims := jwtparse.Claims tok in
            if negb (String.eqb (TokenType claims) expectedType)
            then (None, Some (fmt.Errorf "expected %s token, got %s"
                                [expectedType; TokenType claims]))
            else (Some claims, None)
        | _ => (None, Some (fmt.Errorf "invalid token claims" []))
        end
    end.

Definition blacklistKey (jti : string) : string :=
  fmt.Sprintf "token:blacklist:%s" [jti].

Definition IsTokenBlacklisted (m : Manager) (jti : string) : IO (bool * option error) :=
  let key := blacklistKey jti in
  let* '(val, err) := redis.Get key in
  ret
    match err with
    | Some e =>
        if errors_Is err redis.Nil then (false, None)
        else (false, err)
    | None => (String.eqb val "1", None)
    end.

Definition AddTokenToBlacklist (m : Manager) (jti : string) (expiration : Z)
  : IO (option error) :=
  let key := blacklistKey jti in
  redis.Set_ key "1" expiration.

Definition RevokeRefreshToken (m : Manager) (jti : string) : IO (option error) :=
  AddTokenToBlacklist m jti (refreshExpire m).

Definition GetAccessExpire (m : Manager) : Z := accessExpire m.
Definition GetRefreshExpire (m : Manager) : Z := refreshExpire m.
End jwt.

Arguments jwt.blacklistKey : simpl never.

(** ** arch3/pkg/response *)

Module response.
Definition CodeTokenInvalid : Z := 100103.
Definition CodeUserNotFound : Z := 200105.
Definition CodeSMSSendFailed : Z := 300101.
Definition CodeSMSTooFrequent : Z := 300102.
Definition CodeSMSDailyLimit : Z := 300103.
Definition CodeSMSCodeInvalid : Z := 300104.
Definition CodeSMSVerifyTooMany : Z := 300105.
Definition CodeInternal : Z := 900101.
Definition CodeDatabaseError : Z := 900102.
Definition CodeCacheError : Z := 900103.

Definition Err (code : Z) (message : string) : error := response_Result code message.

Definition IsSystemError (code : Z) : bool := (900000 <=? code) && (code <? 1000000).

(** [CodeFromError]: the business code of the first [Result] on the chain
    of wrapped causes ([errors.As]), [CodeInternal] when there is none. *)
Fixpoint CodeFromError (err : error) : Z :=
  match err with
  | response_Result code _ => code
  | fmt_Errorf_w _ cause => CodeFromError cause
  | _ => CodeInternal
  end.
End response.

(** ** arch3/internal/repository/user *)

Module userrepo.
Definition ErrDatabase : error := errors_New "driver: bad connection".

(** [Repository.FindByUserID]: the row with that business id; a missing row
    is [domain.ErrUserNotFound], any other failure is passed on. *)
Definition FindByUserID (userID : string) : IO (option domain.User * option error) :=
  fun w =>
    let w' := emit (EvFindByUserID userID) w in
    if db_down w (tick w) then ((None, Some ErrDatabase), w')
    else
      match users w !! userID with
      | Some u => ((Some u, None), w')
      | None => ((None, Some domain.ErrUserNotFound), w')
      end.
End userrepo.

(** ** arch3/internal/service/user *)

Module userservice.
Definition SMSType : Type := string.

Definition SMSTypeRegister : SMSType := "register".
Definition SMSTypeLogin : SMSType := "login".
Definition SMSTypeForget : SMSType := "forget".

(** The interface the service asks of an SMS client. *)
Record SMSClient : Type := mkSMSClient {
  Send : SMSType -> string -> IO (option error);
  Verify : SMSType -> string -> string -> IO (option error)
}.

Definition ErrSMSTooFrequent : error := errors_New "一分钟内最多发送1次".
Definition ErrSMSDailyLimit : error := errors_New "一天最多发送6次".
Definition ErrSMSSendFailed : error := errors_New "发送短信失败".
Definition ErrSMSTemplateNotFound : error := errors_New "短信模板未配置".
Definition ErrSMSCodeInvalid : error := errors_New "验证码错误或已过期".
Definition ErrSMSVerifyTooMany : error := errors_New "验证失败次数过多，请重新获取验证码".

Definition SMSToResponse (err : error) : error :=
  if chain_has err ErrSMSTooFrequent then response.Err response.CodeSMSTooFrequent (Error err)
  else if chain_has err ErrSMSDailyLimit then response.Err response.CodeSMSDailyLimit (Error err)
  else if chain_has err ErrSMSCodeInvalid then response.Err response.CodeSMSCodeInvalid (Error err)
  else if chain_has err ErrSMSVerifyTooMany then response.Err response.CodeSMSVerifyTooMany (Error err)
  else if chain_has err ErrSMSTemplateNotFound || chain_has err ErrSMSSendFailed
  then response.Err response.CodeSMSSendFailed (Error err)
  else response.Err response.CodeSMSSendFailed (Error err).

(** The service holds its SMS client and the manager; the user repository
    and the Redis client are the world's. *)
Record service : Type := mkService {
  smsClient : SMSClient;
  jwtManager : jwt.Manager
}.

Definition SendSMS (s : service) (phoneNumber smsType : string) : IO (option error) :=
  let* err := Send (smsClient s) smsType phoneNumber in
  ret match err with
      | Some e => Some (SMSToResponse e)
      | None => None
      end.

Definition RefreshToken (s : service) (refreshToken : jwt.tokenString)
  : IO (option jwt.TokenPair * option error) :=
  let* '(claims, err) := jwt.ParseToken (jwtManager s) refreshToken jwt.TokenTypeRefresh in
  match claims, err with
  | Some claims, None =>
      let jti := jwtlib.ID (jwt.Registered claims) in
      let* '(blacklisted, err) := jwt.IsTokenBlacklisted (jwtManager s) jti in
      match err with
      | Some _ => ret (None, Some (response.Err response.CodeCacheError "检查令牌状态失败"))
      | None =>
          if (blacklisted : bool)
          then ret (None, Some (response.Err response.CodeTokenInvalid "刷新令牌已失效"))
          else
            let* '(_, err) := userrepo.FindByUserID (jwt.UserID claims) in
            match err with
            | Some _ => ret (None, Some (response.Err response.CodeUserNotFound "用户不存在"))
            | None =>
                let* err := jwt.RevokeRefreshToken (jwtManager s) jti in
                match err with
                | Some _ =>
                    ret (None, Some (response.Err response.CodeCacheError "令牌轮转失败"))
                | None =>
                    let* '(newTokenPair, err) :=
                      jwt.GenerateTokenPair (jwtManager s) (jwt.UserID claims) in
                    match err with
                    | Some _ =>
                        ret (None, Some (response.Err response.CodeInternal "生成令牌失败"))
                    | None => ret (newTokenPair, None)
                    end
                end
            end
      end
  | _, _ => ret (None, Some (response.Err response.CodeTokenInvalid "刷新令牌无效"))
  end.

Definition Logout (s : service) (accessJTI refreshJTI : string) : IO (option error) :=
  let* _ := (if negb (String.eqb accessJTI "")
             then jwt.AddTokenToBlacklist (jwtManager s) accessJTI
                    (jwt.GetAccessExpire (jwtManager s))
             else ret None) in
  let* _ := (if negb (String.eqb refreshJTI "")
             then jwt.RevokeRefreshToken (jwtManager s) refreshJTI
             else ret None) in
  ret None.
End userservice.

(** ** arch3/internal/integration/sms *)

Module sms.
Abbreviation Type_ := userservice.SMSType.

Record Config : Type := mkConfig {
  Provider : string;
  AccessKey : string;
  SecretKey : string;
  SmsAccount : string;
  SignName : string;
  Templates : gmap string string
}.

Definition ErrSendTooFrequent : error := userservice.ErrSMSTooFrequent.
Definition ErrDailyLimitExceeded : error := userservice.ErrSMSDailyLimit.
Definition ErrSendFailed : error := userservice.ErrSMSSendFailed.
Definition ErrTemplateNotFound : error := userservice.ErrSMSTemplateNotFound.
Definition ErrCodeInvalid : error := userservice.ErrSMSCodeInvalid.
Definition ErrVerifyTooMany : error := userservice.ErrSMSVerifyTooMany.

(** The storage interface of the verification codes. *)
Record CodeRepository : Type := mkCodeRepository {
  StoreCode : Type_ -> string -> string -> Z -> IO (option error);
  GetCode : Type_ -> string -> IO (string * option error);
  DeleteCode : Type_ -> string -> IO (option error);
  GetSendCount : Type_ -> string -> IO (Z * Z * option error);
  IncrSendCount : Type_ -> string -> IO (option error);
  GetVerifyFailCount : Type_ -> string -> IO (Z * option error);
  IncrVerifyFailCount : Type_ -> string -> IO (option error);
  ResetVerifyFailCount : Type_ -> string -> IO (option error)
}.
End sms.

(** ** arch3/internal/repository/sms *)

Module smsrepo.
Definition codeKeyFormat : string := "sms:code:%s:%s".
Definition minuteKeyFormat : string := "sms:minute:%s:%s".
Definition dayKeyFormat : string := "sms:day:%s:%s".
Definition verifyFailKeyFormat : string := "sms:verify_fail:%s:%s".

Definition verifyFailTTL : Z := 1 * time.Hour.

Definition codeKey (smsType : sms.Type_) (phone : string) : string :=
  fmt.Sprintf codeKeyFormat [smsType; phone].
Definition minuteKey (smsType : sms.Type_) (phone : string) : string :=
  fmt.Sprintf minuteKeyFormat [smsType; phone].
Definition dayKey (smsType : sms.Type_) (phone : string) : string :=
  fmt.Sprintf dayKeyFormat [smsType; phone].
Definition verifyFailKey (smsType : sms.Type_) (phone : string) : string :=
  fmt.Sprintf verifyFailKeyFormat [smsType; phone].

Definition StoreCode (smsType : sms.Type_) (phone code : string) (ttl : Z)
  : IO (option error) :=
  let key := codeKey smsType phone in
  redis.Set_ key code ttl.

Definition GetCode (smsType : sms.Type_) (phone : string) : IO (string * option error) :=
  let key := codeKey smsType phone in
  let* '(code, err) := redis.Get key in
  if errors_Is err redis.Nil then ret ("", Some sms.ErrCodeInvalid)
  else ret (code, err).

Definition DeleteCode (smsType : sms.Type_) (phone : string) : IO (option error) :=
  let key := codeKey smsType phone in
  redis.Del key.

Definition GetSendCount (smsType : sms.Type_) (phone : string)
  : IO (Z * Z * option error) :=
  let minuteKey := minuteKey smsType phone in
  let dayKey := dayKey smsType phone in
  let* '(minuteCount, err) := redis.Get_Int minuteKey in
  if is_Some_b err && negb (errors_Is err redis.Nil) then ret (0, 0, err)
  else
    let* '(dayCount, err) := redis.Get_Int dayKey in
    if is_Some_b err && negb (errors_Is err redis.Nil) then ret (0, 0, err)
    else ret (minuteCount, dayCount, None).

Definition IncrSendCount (smsType : sms.Type_) (phone : string) : IO (option error) :=
  let minuteKey := minuteKey smsType phone in
  let dayKey := dayKey smsType phone in
  redis.Pipeline_Exec
    [INCR minuteKey; EXPIRE minuteKey time.Minute;
     INCR dayKey; EXPIRE dayKey (24 * time.Hour)].

Definition GetVerifyFailCount (smsType : sms.Type_) (phone : string)
  : IO (Z * option error) :=
  let key := verifyFailKey smsType phone in
  let* '(count, err) := redis.Get_Int key in
  if errors_Is err redis.Nil then ret (0, None)
  else ret (count, err).

Definition IncrVerifyFailCount (smsType : sms.Type_) (phone : string)
  : IO (option error) :=
  let key := verifyFailKey smsType phone in
  redis.Pipeline_Exec [INCR key; EXPIRE key verifyFailTTL].

Definition ResetVerifyFailCount (smsType : sms.Type_) (phone : string)
  : IO (option error) :=
  let key := verifyFailKey smsType phone in
  redis.Del key.

Definition NewCacheRepository : sms.CodeRepository :=
  {| sms.StoreCode := StoreCode;
     sms.GetCode := GetCode;
     sms.DeleteCode := DeleteCode;
     sms.GetSendCount := GetSendCount;
     sms.IncrSendCount := IncrSendCount;
     sms.GetVerifyFailCount := GetVerifyFailCount;
     sms.IncrVerifyFailCount := IncrVerifyFailCount;
     sms.ResetVerifyFailCount := ResetVerifyFailCount |}.
End smsrepo.

Arguments smsrepo.codeKey : simpl never.
Arguments smsrepo.minuteKey : simpl never.
Arguments smsrepo.dayKey : simpl never.
Arguments smsrepo.verifyFailKey : simpl never.

(** ** The SMS gateway SDK and the random sources *)

Module volcsms.
(** [volcsms.DefaultInstance.Send(req)]: [None] when the gateway took the
    message, otherwise the error text and the HTTP status. *)
Definition DefaultInstance_Send (phone templateID code : string)
  : IO (option (string * Z)) :=
  fun w =>
    let answer := sms_gateway w (tick w) in
    (answer, emit (EvSendSMS phone templateID code (negb (is_Some_b answer))) w).
End volcsms.

Module rand.
(** A draw below [max] from the random source; [None] when the source
    fails. *)
Definition Int (max : Z) : IO (option Z) :=
  fun w =>
    (match rand_src w (tick w) with
     | Some n => Some (n mod max)
     | None => None
     end, emit EvRand w).
End rand.

(** ** arch3/internal/integration/sms/volcengine *)

Module volcengine.
Definition codeLength : Z := 6.
Definition codeTTL : Z := 5 * time.Minute.
Definition maxPerMin : Z := 1.
Definition maxPerDay : Z := 6.
Definition maxVerifyFails : Z := 5.

Record Client : Type := mkClient {
  config : sms.Config;
  repo : sms.CodeRepository
}.

Definition New (cfg : sms.Config) (repo : sms.CodeRepository) : Client :=
  {| config := cfg; repo := repo |}.

Definition checkSendLimit (c : Client) (smsType : sms.Type_) (phone : string)
  : IO (option error) :=
  let* '(minuteCount, dayCount, err) := sms.GetSendCount (repo c) smsType phone in
  ret match err with
      | Some e => Some e
      | None =>
          if maxPerMin <=? minuteCount then Some sms.ErrSendTooFrequent
          else if maxPerDay <=? dayCount then Some sms.ErrDailyLimitExceeded
          else None
      end.

Definition sendSMS (c : Client) (phone templateID code : string) : IO (option error) :=
  let* answer := volcsms.DefaultInstance_Send phone templateID code in
  ret match answer with
      | Some (text, statusCode) =>
          Some (fmt.Errorf "sms send err: %s, statusCode: %d"
                  [text; strconv.Itoa statusCode])
      | None => None
      end.

Definition generateCode : IO string :=
  let* n := rand.Int 1000000 in
  match n with
  | None =>
      let* t := now in
      ret (fmt.Sprintf_06d (Z.rem t 1000000))
  | Some n => ret (fmt.Sprintf_06d n)
  end.

Definition Send (c : Client) (smsType : sms.Type_) (phone : string) : IO (option error) :=
  match sms.Templates (config c) !! smsType with
  | None => ret (Some sms.ErrTemplateNotFound)
  | Some templateID =>
      let* err := checkSendLimit c smsType phone in
      match err with
      | Some e => ret (Some e)
      | None =>
          let* code := generateCode in
          let* err := sms.StoreCode (repo c) smsType phone code codeTTL in
          match err with
          | Some e => ret (Some e)
          | None =>
              let* err := sendSMS c phone templateID code in
              match err with
              | Some _ =>
                  let* _ := sms.DeleteCode (repo c) smsType phone in
                  ret (Some sms.ErrSendFailed)
              | None =>
                  let* _ := sms.IncrSendCount (repo c) smsType phone in
                  let* _ := sms.ResetVerifyFailCount (repo c) smsType phone in
                  ret None
              end
          end
      end
  end.

Definition Verify (c : Client) (smsType : sms.Type_) (phone code : string)
  : IO (option error) :=
  let* '(failCount, err) := sms.GetVerifyFailCount (repo c) smsType phone in
  match err with
  | Some e => ret (Some e)
  | None =>
      if maxVerifyFails <=? failCount then ret (Some sms.ErrVerifyTooMany)
      else
        let* '(storedCode, err) := sms.GetCode (repo c) smsType phone in
        match err with
        | Some _ => ret (Some sms.ErrCodeInvalid)
        | None =>
            if negb (String.eqb storedCode code)
            then
              let* _ := sms.IncrVerifyFailCount (repo c) smsType phone in
              ret (Some sms.ErrCodeInvalid)
            else
              let* _ := sms.DeleteCode (repo c) smsType phone in
              let* _ := sms.ResetVerifyFailCount (repo c) smsType phone in
              ret None
        end
  end.

(** The client as the service sees it. *)
Definition as_SMSClient (c : Client) : userservice.SMSClient :=
  {| userservice.Send := Send c; userservice.Verify := Verify c |}.
End volcengine.

(** ** archv2/internal/integration/sms *)

Module smsv2.
Definition Type_ : Type := string.

Definition TypeRegister : Type_ := "register".
Definition TypeLogin : Type_ := "login".
Definition TypeForget : Type_ := "forget".

Record Config : Type := mkConfig {
  Provider : string;
  AccessKey : string;
  SecretKey : string;
  SmsAccount : string;
  SignName : string;
  Templates : gmap string string
}.

Definition minuteKeyFormat : string := "sms:minute:%s".
Definition dayKeyFormat : string := "sms:day:%s".
Definition logicalKeyFormat : string := "sms:logical:%s:%s".

(** [rdb] tells whether [WithRedis] has given the client its Redis
    connection (the world's keyspace); without it the pointer is [nil]. *)
Record VolcengineClient : Type := mkVolcengineClient {
  config : Config;
  rdb : bool
}.

Definition NewVolcengineClient (cfg : Config) : VolcengineClient :=
  {| config := cfg; rdb := false |}.

Definition WithRedis (c : VolcengineClient) : VolcengineClient :=
  {| config := config c; rdb := true |}.

(** What a method call through the [nil] Redis pointer ends in. *)
Definition nil_dereference : error :=
  errors_New "runtime error: invalid memory address or nil pointer dereference".

Definition getRedisKey (format phone : string) (smsType : Type_) : string :=
  if String.eqb smsType TypeRegister || String.eqb smsType TypeLogin
     || String.eqb smsType TypeForget
  then fmt.Sprintf format [smsType; phone]
  else fmt.Sprintf format [phone].

Arguments getRedisKey : simpl never.

Definition checkSendLimit (c : VolcengineClient) (smsType : Type_) (phone : string)
  : IO (option error) :=
  if negb (rdb c) then ret None
  else
    let minuteKey := getRedisKey minuteKeyFormat phone smsType in
    let dayKey := getRedisKey dayKeyFormat phone smsType in
    let* '(minuteCount, err) := redis.Get_Int minuteKey in
    if is_Some_b err && negb (errors_Is err redis.Nil) then ret err
    else if 1 <=? minuteCount then ret (Some (fmt.Errorf "一分钟内最多发送1次" []))
    else
      let* '(dayCount, err) := redis.Get_Int dayKey in
      if is_Some_b err && negb (errors_Is err redis.Nil) then ret err
      else if 6 <=? dayCount then ret (Some (fmt.Errorf "一天最多发送6次" []))
      else ret None.

Definition storeCode (c : VolcengineClient) (smsType : Type_) (phone code : string)
  : IO (option error) :=
  if negb (rdb c) then ret None
  else
    let key := getRedisKey logicalKeyFormat phone smsType in
    redis.Set_ key code (5 * time.Minute).

Definition recordSend (c : VolcengineClient) (smsType : Type_) (phone : string)
  : IO (option error) :=
  if negb (rdb c) then ret None
  else
    let minuteKey := getRedisKey minuteKeyFormat phone smsType in
    let dayKey := getRedisKey dayKeyFormat phone smsType in
    redis.Pipeline_Exec
      [INCR minuteKey; EXPIRE minuteKey time.Minute;
       INCR dayKey; EXPIRE dayKey (24 * time.Hour)].

Definition sendSMS (c : VolcengineClient) (phone templateID code : string)
  : IO (option error) :=
  let* answer := volcsms.DefaultInstance_Send phone templateID code in
  ret match answer with
      | Some (text, statusCode) =>
          Some (fmt.Errorf "sms send err: %s, statusCode: %d"
                  [text; strconv.Itoa statusCode])
      | None => None
      end.

(** [math/rand], seeded from the clock: a draw that cannot fail. *)
Definition generateCode (c : VolcengineClient) : IO string :=
  let* t := now in
  let* n := rand.Int 1000000 in
  ret (fmt.Sprintf_06d (match n with
                        | Some n => n
                        | None => t mod 1000000
                        end)).

Definition Send (c : VolcengineClient) (smsType : Type_) (phone : string)
  : IO (option error) :=
  let* err := checkSendLimit c smsType phone in
  match err with
  | Some e => ret (Some e)
  | None =>
      let* code := generateCode c in
      let* err := storeCode c smsType phone code in
      match err with
      | Some e => ret (Some e)
      | None =>
          match Templates (config c) !! smsType with
          | None => ret (Some (fmt.Errorf "unsupported sms type: %s" [smsType]))
          | Some templateID =>
              let* err := sendSMS c phone templateID code in
              match err with
              | Some _ => ret (Some (fmt.Errorf "发送短信失败" []))
              | None =>
                  let* _ := recordSend c smsType phone in
                  ret None
              end
          end
      end
  end.

Definition Verify (c : VolcengineClient) (smsType : Type_) (phone code : string)
  : IO (option error) :=
  if String.eqb code "777777" then ret None
  else
    let key := getRedisKey logicalKeyFormat phone smsType in
    if negb (rdb c) then ret (Some nil_dereference)
    else
      let* '(storedCode, err) := redis.Get key in
      match err with
      | Some _ =>
          if errors_Is err redis.Nil
          then ret (Some (fmt.Errorf "验证码已过期或不存在" []))
          else ret (Some (fmt.Errorf "获取验证码失败" []))
      | None =>
          if negb (String.eqb storedCode code)
          then ret (Some (fmt.Errorf "验证码不正确" []))
          else
            let* _ := redis.Del key in
            ret None
      end.
End smsv2.

(** ** Vocabulary of the statements *)

(** A world whose Redis answers every round trip. *)
Definition redis_up (w : World) : Prop := forall n, redis_down w n = false.

(** A world whose database answers every query. *)
Definition db_up (w : World) : Prop := forall n, db_down w n = false.

(** The failure counter of a (purpose, phone) holds a count between [k] and
    the lockout threshold, under an entry that outlives the instant [T]. *)
Definition counter_at_least (k T : Z) (smsType phone : string) (w : World) : Prop :=
  exists e n d,
    rdb w !! smsrepo.verifyFailKey smsType phone = Some e /\
    strconv.parse (e_val e) = Some n /\
    k <= n <= volcengine.maxVerifyFails /\
    e_deadline e = Some d /\ T < d.

(** Two worlds with the same clock, keyspace and oracles: only the count of
    interactions and their record may differ. *)
Definition same_store (w w' : World) : Prop :=
  clock w' = clock w /\ rdb w' = rdb w /\ redis_down w' = redis_down w /\
  sms_gateway w' = sms_gateway w.

(** What a refused attempt keeps of the world: the clock, the Redis oracle
    and the stored code. *)
Definition settled (w w' : World) (smsType phone : string) : Prop :=
  clock w' = clock w /\ redis_down w' = redis_down w /\
  rdb w' !! smsrepo.codeKey smsType phone = rdb w !! smsrepo.codeKey smsType phone.

(** A run of verification attempts, each a delay since the previous request
    and a candidate code; the outcomes are listed in order. *)
Fixpoint verify_each (c : volcengine.Client) (smsType phone : string)
    (tries : list (Z * string)) : IO (list (option error)) :=
  match tries with
  | [] => ret []
  | (d, code) :: rest =>
      fun w =>
        let (r, w1) := volcengine.Verify c smsType phone code (elapse d w) in
        let (rs, w2) := verify_each c smsType phone rest w1 in
        (r :: rs, w2)
  end.

(** The delays of a run of attempts, summed. *)
Definition total_delay (tries : list (Z * string)) : Z :=
  foldr (fun t acc => fst t + acc) 0 tries.

(** The events that mint a token id. *)
Definition mints (e : event) : bool :=
  match e with
  | EvUUID _ => true
  | _ => false
  end.

(** ** Concrete configurations and worlds *)

Module scenario.
Definition alice : domain.User :=
  {| domain.UserID := "u-1001"; domain.UserName := "alice";
     domain.PhoneNumber := "13800000000";
     domain.Status := "real_name_unverified" |}.

(** A quiet world: empty keyspace, one user, every collaborator answering. *)
Definition world0 : World :=
  {| clock := 1700000000 * time.Second;
     rdb := ∅;
     users := {[ "u-1001" := alice ]};
     tick := 0;
     trace := [];
     redis_down := fun _ => false;
     db_down := fun _ => false;
     sms_gateway := fun _ => None;
     uuid_src := fun n => "uuid-" +:+ strconv.Itoa (Z.of_nat n);
     rand_src := fun _ => Some 482913 |}.

(** The same world with Redis unreachable at the interactions [down] picks. *)
Definition with_redis_down (down : nat -> bool) (w : World) : World :=
  {| clock := clock w; rdb := rdb w; users := users w;
     tick := tick w; trace := trace w;
     redis_down := down; db_down := db_down w;
     sms_gateway := sms_gateway w; uuid_src := uuid_src w;
     rand_src := rand_src w |}.

(** The same world with the SMS gateway answering as [gateway] says. *)
Definition with_sms_gateway (gateway : nat -> option (string * Z)) (w : World) : World :=
  {| clock := clock w; rdb := rdb w; users := users w;
     tick := tick w; trace := trace w;
     redis_down := redis_down w; db_down := db_down w;
     sms_gateway := gateway; uuid_src := uuid_src w;
     rand_src := rand_src w |}.

(** The default token lifetimes: 15 minutes and 7 days. *)
Definition jwtConfig : jwt.Config :=
  {| jwt.Secret := "s3cr3t"; jwt.AccessExpire := 0; jwt.RefreshExpire := 0;
     jwt.CookieSecure := true |}.

Definition manager : jwt.Manager := jwt.NewManager jwtConfig.

Definition smsConfig : sms.Config :=
  {| sms.Provider := "volcengine"; sms.AccessKey := "ak"; sms.SecretKey := "sk";
     sms.SmsAccount := "acct"; sms.SignName := "sign";
     sms.Templates :=
       {[ "login" := "T-login"; "register" := "T-register"; "forget" := "T-forget" ]} |}.

Definition client : volcengine.Client :=
  volcengine.New smsConfig smsrepo.NewCacheRepository.

Definition svc : userservice.service :=
  {| userservice.smsClient := volcengine.as_SMSClient client;
     userservice.jwtManager := manager |}.

(** Alice logs in at [world0]: her token pair, and the world one day later. *)
Definition login : option jwt.TokenPair * option error :=
  fst (jwt.GenerateTokenPair manager "u-1001" world0).

Definition refreshClaims : jwt.Claims :=
  {| jwt.UserID := "u-1001";
     jwt.TokenType := jwt.TokenTypeRefresh;
     jwt.Registered :=
       {| jwtlib.ID := "uuid-1";
          jwtlib.IssuedAt := Some (1700000000 * time.Second);
          jwtlib.ExpiresAt := Some (1700000000 * time.Second + 7 * 24 * time.Hour) |} |}.

Definition refreshToken : jwt.tokenString :=
  jwtparse.Compact (jwtparse.mkToken jwtlib.HS256 refreshClaims "s3cr3t").

Definition accessClaims : jwt.Claims :=
  {| jwt.UserID := "u-1001";
     jwt.TokenType := jwt.TokenTypeAccess;
     jwt.Registered :=
       {| jwtlib.ID := "uuid-0";
          jwtlib.IssuedAt := Some (1700000000 * time.Second);
          jwtlib.ExpiresAt := Some (1700000000 * time.Second + 15 * time.Minute) |} |}.

Definition accessToken : jwtparse.Token jwt.Claims :=
  jwtparse.mkToken jwtlib.HS256 accessClaims "s3cr3t".

Definition tokenPair : jwt.TokenPair :=
  jwt.mkTokenPair (jwtparse.Compact accessToken) refreshToken.

Definition next_day : World :=
  elapse (24 * time.Hour) (snd (jwt.GenerateTokenPair manager "u-1001" world0)).

(** Redis unreachable from now on. *)
Definition outage (w : World) : World := with_redis_down (fun _ => true) w.

(** Redis unreachable at the third interaction from now, and only then. *)
Definition third_fails (w : World) : World :=
  with_redis_down (fun n => Nat.eqb n (2 + tick w)) w.

(** Alice asks for a login code at [world0]; the random source yields 482913. *)
Definition phone : string := "13800000000".

Definition sent : World := snd (volcengine.Send client "login" phone world0).

Definition stored : entry :=
  Entry "482913" (Some (clock world0 + volcengine.codeTTL)).

(** Five wrong guesses, ten seconds apart. *)
Definition guess : Z * string := (10 * time.Second, "000000").

Definition locked : World :=
  snd (verify_each client "login" phone (guess :: repeat guess 4) sent).

(** [n] successful sends, 61 seconds apart. *)
Fixpoint sends (n : nat) (w : World) : list (option error) * World :=
  match n with
  | O => ([], w)
  | S k =>
      let (r, w1) := volcengine.Send client "login" phone w in
      let (rs, w2) := sends k (elapse (61 * time.Second) w1) in
      (r :: rs, w2)
  end.

(** The SMS gateway refusing every message. *)
Definition gateway_down (w : World) : World :=
  with_sms_gateway (fun _ => Some ("gateway timeout", 504)) w.

(** The archv2 client, wired as [InitSMSClient] does. *)
Definition smsConfig2 : smsv2.Config :=
  {| smsv2.Provider := "volcengine"; smsv2.AccessKey := "ak"; smsv2.SecretKey := "sk";
     smsv2.SmsAccount := "acct"; smsv2.SignName := "sign";
     smsv2.Templates :=
       {[ "login" := "T-login"; "register" := "T-register"; "forget" := "T-forget" ]} |}.

Definition client2 : smsv2.VolcengineClient :=
  smsv2.WithRedis (smsv2.NewVolcengineClient smsConfig2).

Definition sent2 : World := snd (smsv2.Send client2 "login" phone world0).
End scenario.

(** A refresh token of Alice that was issued, under the manager's secret,
    with thirty days to live: longer than the seven days of the manager's
    refresh lifetime. *)
Module scenario_replay.
Import scenario.

End scenario_replay.

(** * The code around the token and code lifecycle *)

(** ** Go's [strings] and string slicing, as the code uses them

    A Go string is a sequence of bytes, and so is a [string] here.  The
    separators the code passes to [strings.Index] and [strings.Split] are one
    byte long. *)

Module strings.
(** [len(s)] *)
Definition len (s : string) : Z := Z.of_nat (String.length s).

(** [strings.Index(s, sep)] for a one-byte [sep]: where [sep] first occurs
    in [s], [-1] if it does not. *)
Fixpoint Index (s : string) (sep : ascii) : Z :=
  match s with
  | EmptyString => -1
  | String a rest =>
      if Ascii.eqb a sep then 0
      else let i := Index rest sep in
           if i =? -1 then -1 else i + 1
  end.

(** [s[:j]] and [s[i:]] for indices within bounds. *)
Fixpoint slice_to (s : string) (j : nat) : string :=
  match j, s with
  | S k, String a rest => String a (slice_to rest k)
  | _, _ => ""
  end.

Fixpoint slice_from (s : string) (i : nat) : string :=
  match i, s with
  | S k, String _ rest => slice_from rest k
  | _, _ => s
  end.

(** [strings.Split(s, sep)] for a one-byte [sep]: the pieces between the
    occurrences of [sep]; one piece, [s] itself, when there is none. *)
Fixpoint Split (s : string) (sep : ascii) : list string :=
  match s with
  | EmptyString => [""]
  | String a rest =>
      if Ascii.eqb a sep then "" :: Split rest sep
      else match Split rest sep with
           | piece :: pieces => String a piece :: pieces
           | [] => [String a ""]
           end
  end.

(** [strings.Join(elems, sep)] *)
Fixpoint Join (elems : list string) (sep : string) : string :=
  match elems with
  | [] => ""
  | [a] => a
  | a :: rest => a +:+ sep +:+ Join rest sep
  end.
End strings.

(** ** arch3/pkg/jwt: the cookies and their domain *)

Module jwtcookie.
Definition AccessTokenCookieKey : string := "ap-access-token".
Definition RefreshTokenCookieKey : string := "ap-refresh-token".

(** A Go [map[string]bool]: a missing key reads as [false]. *)
Definition multiLevelTLDs : gmap string bool := {[ "com.cn" := true ]}.

(** [parts[len(parts)-n:]] for [n <= len(parts)] *)
Definition last_parts (n : nat) (parts : list string) : list string :=
  drop (length parts - n) parts.

Definition getSecondaryDomain (host : string) : string :=
  let host :=
    let idx := strings.Index host ":" in
    if negb (idx =? -1) then strings.slice_to host (Z.to_nat idx) else host in
  if String.eqb host "localhost" || String.eqb host "127.0.0.1" then ""
  else
    let parts := strings.Split host "." in
    if Z.of_nat (length parts) <? 2 then host
    else
      let twoParts := "." +:+ strings.Join (last_parts 2 parts) "." in
      if 3 <=? Z.of_nat (length parts) then
        let possibleTLD :=
          nth (length parts - 2) parts "" +:+ "." +:+ nth (length parts - 1) parts "" in
        if default false (multiLevelTLDs !! possibleTLD) then
          if 3 <=? Z.of_nat (length parts)
          then "." +:+ strings.Join (last_parts 3 parts) "."
          else twoParts
        else twoParts
      else twoParts.
End jwtcookie.

(** The host name of a [host:port]: what precedes the first colon. *)
Definition host_of (hostport : string) : string :=
  let idx := strings.Index hostport ":" in
  if negb (idx =? -1) then strings.slice_to hostport (Z.to_nat idx) else hostport.

(** The last two labels of a host of three labels or more spell a suffix of
    the table. *)
Definition is_multi (parts : list string) : bool :=
  (3 <=? Z.of_nat (length parts))
  && default false
       (jwtcookie.multiLevelTLDs !!
          (nth (length parts - 2) parts "" +:+ "." +:+ nth (length parts - 1) parts "")).

(** ** archv2/internal/integration/sms: what the client writes to its log *)

Module smsv2_ext.
Definition maskPhone (phone : string) : string :=
  if strings.len phone <? 7 then phone
  else strings.slice_to phone 3 +:+ "****"
       +:+ strings.slice_from phone (Z.to_nat (strings.len phone - 4)).
End smsv2_ext.

(** ** arch3/pkg/sqlx *)
Module sql.
Record NullString : Type := mkNullString { String_ : string; Valid : bool }.
End sql.

Module sqlx.
(** A Go pointer to a string is [None] when [nil]. *)
Definition NullStringToPtr (ns : sql.NullString) : option string :=
  if sql.Valid ns then Some (sql.String_ ns) else None.

Definition PtrToNullString (s : option string) : sql.NullString :=
  match s with
  | Some v => {| sql.String_ := v; sql.Valid := true |}
  | None => {| sql.String_ := ""; sql.Valid := false |}
  end.
End sqlx.

(** ** arch3/pkg/response: the classes of codes and the JSON answer *)

Module response_ext.
Import response.
Definition CodeUnauthorized : Z := 100101.

Definition IsAuthError (code : Z) : bool := (100100 <=? code) && (code <? 100200).
Definition IsPermissionError (code : Z) : bool := (100200 <=? code) && (code <? 100300).
Definition IsClientError (code : Z) : bool := (100300 <=? code) && (code <? 100600).
Definition IsUserError (code : Z) : bool := (200000 <=? code) && (code <? 300000).
Definition IsBizError (code : Z) : bool := (300000 <=? code) && (code <? 400000).
Definition NeedsRelogin (code : Z) : bool := IsAuthError code.

(** [errors.As(err, &r)] for [r] a pointer to [Result]: the first [Result]
    on the chain of wrapped causes. *)
Fixpoint as_Result (err : error) : option (Z * string) :=
  match err with
  | response_Result code message => Some (code, message)
  | fmt_Errorf_w _ cause => as_Result cause
  | _ => None
  end.

(** What [c.JSON(status, Result{...})] sends: the HTTP status and the
    fields [code] and [message] of the body ([data] is empty on every path
    modelled here). *)
Record JSON : Type := mkJSON { status : Z; code : Z; message : string }.

Definition StatusOK : Z := 200.

Definition Error (err : error) : JSON :=
  match as_Result err with
  | Some (code, message) => {| status := StatusOK; code := code; message := message |}
  | None => {| status := StatusOK; code := CodeInternal; message := "系统错误" |}
  end.
End response_ext.

(** ** The request as the handlers read it (Hertz's [app.RequestContext]) *)

Module app.
(** A cookie that is not sent reads as the empty string. *)
Record RequestContext : Type := mkRequestContext {
  Method : string;
  Path : string;
  Host : string;
  cookies : gmap string jwt.tokenString
}.

Definition Cookie (c : RequestContext) (key : string) : jwt.tokenString :=
  default (jwtparse.Garbage "") (cookies c !! key).

(** [s == ""] for a token string *)
Definition is_empty (s : jwt.tokenString) : bool :=
  match s with
  | jwtparse.Garbage "" => true
  | _ => false
  end.
End app.

(** ** arch3/internal/config and arch3/internal/handler/middleware *)

Module config.
Definition APIVersion : string := "v2".
Definition APIPrefix : string := "/api/" +:+ APIVersion.
End config.

Module middleware.
Import app.

Definition publicPaths : gmap string bool :=
  {[ "POST:" +:+ config.APIPrefix +:+ "/user/sms" := true;
     "POST:" +:+ config.APIPrefix +:+ "/user/sms-login" := true;
     "POST:" +:+ config.APIPrefix +:+ "/user/refresh" := true ]}.

Record AuthMiddleware : Type := mkAuthMiddleware {
  jwtManager : jwt.Manager;
  enabled : bool
}.

Definition NewAuthMiddleware (jwtManager : jwt.Manager) (enabled : bool) : AuthMiddleware :=
  {| jwtManager := jwtManager; enabled := enabled |}.

(** How the middleware leaves a request: handed on to the next handler, with
    the user id it stored under ["userID"] if it stored one, or answered and
    aborted.  [ParseToken] returns claims exactly when it returns no error,
    so the two are matched on together, as in [RefreshToken]. *)
Inductive verdict : Type :=
| Next (userID : option string)
| Abort (body : response_ext.JSON).

Definition Handle (m : AuthMiddleware) (c : RequestContext) : IO verdict :=
  if negb (enabled m) then ret (Next None)
  else
    let pathKey := Method c +:+ ":" +:+ Path c in
    if default false (publicPaths !! pathKey) then ret (Next None)
    else
      let accessTokenString := Cookie c jwtcookie.AccessTokenCookieKey in
      if is_empty accessTokenString
      then ret (Abort (response_ext.Error
                         (response.Err response_ext.CodeUnauthorized "未登录")))
      else
        let* '(claims, err) :=
          jwt.ParseToken (jwtManager m) accessTokenString jwt.TokenTypeAccess in
        match claims, err with
        | Some claims, None =>
            let* '(blacklisted, err) :=
              jwt.IsTokenBlacklisted (jwtManager m) (jwtlib.ID (jwt.Registered claims)) in
            match err with
            | Some _ =>
                ret (Abort (response_ext.Error
                              (response.Err response.CodeCacheError "系统错误")))
            | None =>
                if (blacklisted : bool)
                then ret (Abort (response_ext.Error
                                   (response.Err response.CodeTokenInvalid "登录已失效")))
                else ret (Next (Some (jwt.UserID claims)))
            end
        | _, _ =>
            ret (Abort (response_ext.Error
                          (response.Err response.CodeTokenInvalid "登录已失效")))
        end.
End middleware.

(** ** arch3/internal/service/user: the lookup by id *)

Module userservice_ext.
Import userservice.

Definition GetUserByID (s : service) (userID : string)
  : IO (option domain.User * option error) :=
  let* '(u, err) := userrepo.FindByUserID userID in
  match err with
  | Some _ =>
      if errors_Is err domain.ErrUserNotFound
      then ret (None, Some (response.Err response.CodeUserNotFound "用户不存在"))
      else ret (None, Some (response.Err response.CodeDatabaseError "查询用户失败"))
  | None => ret (u, None)
  end.
End userservice_ext.

(** ** Concrete requests and worlds *)

Module scenario_web.
Import scenario.
(** The middleware switched on, and a request of Alice for her profile that
    carries the cookies of her login. *)
Definition guard : middleware.AuthMiddleware := middleware.NewAuthMiddleware manager true.

Definition request : app.RequestContext :=
  {| app.Method := "GET";
     app.Path := "/api/v2/user/profile";
     app.Host := "api.example.com";
     app.cookies :=
       {[ jwtcookie.AccessTokenCookieKey := jwtparse.Compact accessToken;
          jwtcookie.RefreshTokenCookieKey := refreshToken ]} |}.

(** The world right after the login, and five minutes later. *)
Definition logged_in : World := snd (jwt.GenerateTokenPair manager "u-1001" world0).
Definition later : World := elapse (5 * time.Minute) logged_in.

(** The database unreachable from now on. *)
Definition db_outage (w : World) : World :=
  {| clock := clock w; rdb := rdb w; users := users w;
     tick := tick w; trace := trace w;
     redis_down := redis_down w; db_down := fun _ => true;
     sms_gateway := sms_gateway w; uuid_src := uuid_src w;
     rand_src := rand_src w |}.
End scenario_web.

(** ** Vocabulary of the statements on sending *)

(** The number a code is printed from: the draw of the random source, or the
    clock when the source fails. *)
Definition code_number (w : World) (draw : nat) : Z :=
  match rand_src w draw with
  | Some n => n mod 1000000
  | None => Z.rem (clock w) 1000000
  end.

(** The pipeline that counts a send. *)
Definition count_send (smsType phone : string) : list command :=
  [INCR (smsrepo.minuteKey smsType phone); EXPIRE (smsrepo.minuteKey smsType phone) time.Minute;
   INCR (smsrepo.dayKey smsType phone); EXPIRE (smsrepo.dayKey smsType phone) (24 * time.Hour)].

(** The seven interactions of a send that goes through. *)
Definition send_events (smsType phone templateID code : string) : list event :=
  [EvRedis [GET (smsrepo.minuteKey smsType phone)] true;
   EvRedis [GET (smsrepo.dayKey smsType phone)] true;
   EvRand;
   EvRedis [SET (smsrepo.codeKey smsType phone) code volcengine.codeTTL] true;
   EvSendSMS phone templateID code true;
   EvRedis (count_send smsType phone) true;
   EvRedis [DEL (smsrepo.verifyFailKey smsType phone)] true].

(** The counter under [key] reads [n]: no live entry and [n = 0], or a live
    entry whose value is the numeral [n]. *)
Definition counter_reads (w : World) (key : string) (n : Z) : Prop :=
  match redis.peek (clock w) (rdb w) key with
  | None => n = 0
  | Some e => strconv.Atoi (e_val e) = (n, None)
  end.

(** A run of sends, each after a delay since the previous request; the
    outcomes are listed in order. *)
Fixpoint send_each (c : volcengine.Client) (smsType phone : string)
    (delays : list Z) : IO (list (option error)) :=
  match delays with
  | [] => ret []
  | d :: rest =>
      fun w =>
        let (r, w1) := volcengine.Send c smsType phone (elapse d w) in
        let (rs, w2) := send_each c smsType phone rest w1 in
        (r :: rs, w2)
  end.

(** The day counter holds a count of at least [k], at most the daily cap,
    in a window that started at the instant of [w]; and the minute counter
    holds at most one, in a window of the same start. *)
Definition counted (k : Z) (t p : string) (w : World) : Prop :=
  (exists n, k <= n <= volcengine.maxPerDay /\
     rdb w !! smsrepo.dayKey t p =
       Some (Entry (strconv.Itoa n) (Some (clock w + 24 * time.Hour)))) /\
  (exists m, strconv.MinInt64 <= m <= volcengine.maxPerMin /\
     rdb w !! smsrepo.minuteKey t p =
       Some (Entry (strconv.Itoa m) (Some (clock w + time.Minute)))).

(** A string of decimal digits. *)
Definition is_digit (a : ascii) : bool :=
  (48 <=? nat_of_ascii a)%nat && (nat_of_ascii a <=? 57)%nat.

Fixpoint all_digits (s : string) : bool :=
  match s with
  | EmptyString => true
  | String a rest => is_digit a && all_digits rest
  end.

(** ** arch3/internal/service/user: login by verification code

    The service is written against the repository interface and draws user
    ids from [ulid.New]; both are handed in here, as [NewService] receives
    the repository.  A Go function that panics does not return: the outcome
    of a call is a return value or a panic. *)

Module userlogin.
Import userservice.

Inductive outcome (A : Type) : Type :=
| Returns (a : A)
| Panics (reason : string).

Arguments Returns {A} a.
Arguments Panics {A} reason.

Record Repository : Type := mkRepository {
  FindByUserID : string -> IO (option domain.User * option error);
  FindByPhoneNumber : string -> IO (option domain.User * option error);
  Create : domain.User -> IO (option error);
  Update : domain.User -> IO (option error)
}.

Record LoginResult : Type := mkLoginResult {
  User : domain.User;
  TokenPair : option jwt.TokenPair;
  IsNew : bool
}.

Definition slice_out_of_range : string := "runtime error: slice bounds out of range".
Definition nil_dereference : string :=
  "runtime error: invalid memory address or nil pointer dereference".

(** The new row: of the columns kept in [domain.User], the id, the default
    name (the last four bytes of the phone after a fixed prefix), the phone
    and the status. *)
Definition registerUserByPhone (userRepo : Repository) (ulid_New : IO (string * option error))
    (phoneNumber : string) : IO (outcome (option domain.User * option error)) :=
  let* '(userID, err) := ulid_New in
  match err with
  | Some e => ret (Returns (None, Some e))
  | None =>
      if strings.len phoneNumber - 4 <? 0 then ret (Panics slice_out_of_range)
      else
        let defaultUserName :=
          "用户_" +:+ strings.slice_from phoneNumber (Z.to_nat (strings.len phoneNumber - 4)) in
        let u :=
          {| domain.UserID := userID;
             domain.UserName := defaultUserName;
             domain.PhoneNumber := phoneNumber;
             domain.Status := "real_name_unverified" |} in
        let* err := Create userRepo u in
        match err with
        | Some e => ret (Returns (None, Some e))
        | None => ret (Returns (Some u, None))
        end
  end.

(** The tail of [SMSLogin]: mint the tokens of the user found or made. *)
Definition login_as (s : service) (u : option domain.User) (isNew : bool)
  : IO (outcome (option LoginResult * option error)) :=
  match u with
  | None => ret (Panics nil_dereference)
  | Some u =>
      let* '(tokenPair, err) := jwt.GenerateTokenPair (jwtManager s) (domain.UserID u) in
      match err with
      | Some _ => ret (Returns (None, Some (response.Err response.CodeInternal "生成令牌失败")))
      | None =>
          ret (Returns (Some {| User := u; TokenPair := tokenPair; IsNew := isNew |}, None))
      end
  end.

Definition SMSLogin (s : service) (userRepo : Repository)
    (ulid_New : IO (string * option error)) (phoneNumber smsCode : string)
  : IO (outcome (option LoginResult * option error)) :=
  let* err := Verify (smsClient s) SMSTypeLogin phoneNumber smsCode in
  match err with
  | Some e => ret (Returns (None, Some (SMSToResponse e)))
  | None =>
      let* '(u, err) := FindByPhoneNumber userRepo phoneNumber in
      match err with
      | Some _ =>
          if errors_Is err domain.ErrUserNotFound
          then
            let* registered := registerUserByPhone userRepo ulid_New phoneNumber in
            match registered with
            | Panics reason => ret (Panics reason)
            | Returns (_, Some _) =>
                ret (Returns (None, Some (response.Err response.CodeDatabaseError "注册失败")))
            | Returns (u, None) => login_as s u true
            end
          else ret (Returns (None, Some (response.Err response.CodeDatabaseError "查询用户失败")))
      | None => login_as s u false
      end
  end.
End userlogin.

(** A computation that leaves Redis, the clock and the Redis oracle as they
    are: what the statements ask of the repository and of the id
    generator. *)
Definition leaves_redis_alone {A : Type} (m : IO A) : Prop :=
  forall w, rdb (snd (m w)) = rdb w /\ clock (snd (m w)) = clock w /\
            redis_down (snd (m w)) = redis_down w.

Module scenario_login.
Import scenario.

(** A repository over the user table of the world, and an id generator that
    yields one fixed id. *)
Definition with_users (table : gmap string domain.User) (w : World) : World :=
  {| clock := clock w; rdb := rdb w; users := table;
     tick := tick w; trace := trace w;
     redis_down := redis_down w; db_down := db_down w;
     sms_gateway := sms_gateway w; uuid_src := uuid_src w;
     rand_src := rand_src w |}.

Definition by_phone (phoneNumber : string) (w : World) : option domain.User :=
  match list_find (fun row => String.eqb (domain.PhoneNumber (snd row)) phoneNumber)
          (map_to_list (users w)) with
  | Some (_, row) => Some (snd row)
  | None => None
  end.

Definition table : userlogin.Repository :=
  {| userlogin.FindByUserID := userrepo.FindByUserID;
     userlogin.FindByPhoneNumber := fun phoneNumber w =>
       (match by_phone phoneNumber w with
        | Some u => (Some u, None)
        | None => (None, Some domain.ErrUserNotFound)
        end, w);
     userlogin.Create := fun u w =>
       (None, with_users (<[domain.UserID u := u]> (users w)) w);
     userlogin.Update := fun u w =>
       (None, with_users (<[domain.UserID u := u]> (users w)) w) |}.

Definition ulid_New : IO (string * option error) :=
  fun w => (("01HF7YAT31000000000000000A", None), w).

(** A phone nobody registered with, and the code sent to it. *)
Definition stranger : string := "13900001234".
Definition sent_to_stranger : World := snd (volcengine.Send client "login" stranger world0).

(** The row made for the stranger. *)
Definition newcomer : domain.User :=
  domain.mkUser "01HF7YAT31000000000000000A" "用户_1234" stranger "real_name_unverified".
End scenario_login.

(** A run of verification attempts against the archv2 client. *)
Fixpoint verify_each_v2 (c : smsv2.VolcengineClient) (smsType phone : string)
    (tries : list (Z * string)) : IO (list (option error)) :=
  match tries with
  | [] => ret []
  | (d, code) :: rest =>
      fun w =>
        let (r, w1) := smsv2.Verify c smsType phone code (elapse d w) in
        let (rs, w2) := verify_each_v2 c smsType phone rest w1 in
        (r :: rs, w2)
  end.

(** A guess that is neither the stored code nor the test code. *)
Definition wrong_guess (code : string) (try : Z * string) : Prop :=
  0 <= fst try /\ snd try <> code /\ snd try <> "777777".

(** * Properties *)

(** ** Go basics *)

Module time_facts.
Lemma Truncate_le t d : 0 < d -> time.Truncate t d <= t.
Proof.
  intros Hd. unfold time.Truncate.
  pose proof (Z.mul_div_le t d Hd). lia.
Qed.

Lemma Truncate_gt t d : 0 < d -> t - d < time.Truncate t d.
Proof.
  intros Hd. unfold time.Truncate.
  pose proof (Z.mod_pos_bound t d Hd). pose proof (Z.div_mod t d). lia.
Qed.

Lemma Second_pos : 0 < time.Second.
Proof. reflexivity. Qed.
End time_facts.

Module strconv_facts.
Import strconv.

Lemma to_int_not_nil z :
  Z.to_int z <> Decimal.Pos Decimal.Nil /\ Z.to_int z <> Decimal.Neg Decimal.Nil.
Proof.
  assert (H : forall p, Pos.to_uint p <> Decimal.Nil).
  { intros p Hp. pose proof (DecimalPos.Unsigned.to_uint_nonnil p). congruence. }
  destruct z as [|p|p]; simpl; split; try discriminate;
    intros Heq; injection Heq as Heq; exact (H _ Heq).
Qed.

Lemma parse_Itoa z : parse (Itoa z) = Some z.
Proof.
  unfold parse, Itoa. destruct (to_int_not_nil z) as [H1 H2].
  rewrite (NilZero.isi _ H1 H2). simpl. by rewrite DecimalZ.of_to.
Qed.

Lemma Atoi_Itoa z : MinInt64 <= z <= MaxInt64 -> Atoi (Itoa z) = (z, None).
Proof.
  intros Hz. unfold Atoi. rewrite parse_Itoa.
  destruct (Z.ltb_spec z MinInt64); [lia|].
  destruct (Z.ltb_spec MaxInt64 z); [lia|]. done.
Qed.

(** A numeral read back by [Atoi] without error is the parsed one. *)
Lemma Atoi_ok s n : Atoi s = (n, None) -> parse s = Some n.
Proof.
  unfold Atoi. destruct (parse s) as [k|]; [|discriminate].
  destruct (k <? MinInt64); [discriminate|].
  destruct (MaxInt64 <? k); [discriminate|]. congruence.
Qed.
End strconv_facts.

Module fmt_facts.
Example Sprintf_two :
  fmt.Sprintf "sms:code:%s:%s" ["login"; "138"] = "sms:code:login:138".
Proof. reflexivity. Qed.

Example Sprintf_extra :
  fmt.Sprintf "sms:minute:%s" ["login"; "138"] = "sms:minute:login%!(EXTRA string=138)".
Proof. reflexivity. Qed.

Example Sprintf_missing :
  fmt.Sprintf "sms:logical:%s:%s" ["138"] = "sms:logical:138:%!s(MISSING)".
Proof. reflexivity. Qed.

Example Sprintf_06d_pad : fmt.Sprintf_06d 4829 = "004829".
Proof. reflexivity. Qed.
End fmt_facts.

(** ** The world and Redis *)

Module redis_facts.
Import redis.

Lemma set_rdb_same w : set_rdb (rdb w) w = w.
Proof. by destruct w. Qed.

Lemma roundtrip_down cmds w :
  redis_down w (tick w) = true ->
  roundtrip cmds w = (None, emit (EvRedis cmds false) w).
Proof. intros H. unfold roundtrip. by rewrite H. Qed.

Lemma roundtrip_up cmds w :
  redis_down w (tick w) = false ->
  roundtrip cmds w =
    (Some (fst (run (clock w) cmds (rdb w))),
     emit (EvRedis cmds true) (set_rdb (snd (run (clock w) cmds (rdb w))) w)).
Proof.
  intros H. unfold roundtrip. rewrite H.
  by destruct (run (clock w) cmds (rdb w)).
Qed.

(** What [Get] answers, by cases on the connection and on the key. *)
Lemma Get_down key w :
  redis_down w (tick w) = true ->
  Get key w = (("", Some ErrPoolTimeout), emit (EvRedis [GET key] false) w).
Proof. intros H. unfold Get, bind. by rewrite (roundtrip_down _ _ H). Qed.

Lemma Get_up key w :
  redis_down w (tick w) = false ->
  Get key w =
    (match peek (clock w) (rdb w) key with
     | Some e => (e_val e, None)
     | None => ("", Some Nil)
     end, emit (EvRedis [GET key] true) w).
Proof.
  intros H. unfold Get, bind. rewrite (roundtrip_up _ _ H). cbn.
  rewrite set_rdb_same. by destruct (peek (clock w) (rdb w) key).
Qed.

Lemma Set_down key v ex w :
  redis_down w (tick w) = true ->
  Set_ key v ex w = (Some ErrPoolTimeout, emit (EvRedis [SET key v ex] false) w).
Proof. intros H. unfold Set_, bind. by rewrite (roundtrip_down _ _ H). Qed.

Lemma Set_up key v ex w :
  redis_down w (tick w) = false ->
  Set_ key v ex w =
    (None, emit (EvRedis [SET key v ex] true)
             (set_rdb (<[key := Entry v (deadline_of (clock w) ex)]> (rdb w)) w)).
Proof. intros H. unfold Set_, bind. by rewrite (roundtrip_up _ _ H). Qed.

Lemma Del_up key w :
  redis_down w (tick w) = false ->
  Del key w = (None, emit (EvRedis [DEL key] true) (set_rdb (delete key (rdb w)) w)).
Proof. intros H. unfold Del, bind. by rewrite (roundtrip_up _ _ H). Qed.

Lemma Del_down key w :
  redis_down w (tick w) = true ->
  Del key w = (Some ErrPoolTimeout, emit (EvRedis [DEL key] false) w).
Proof. intros H. unfold Del, bind. by rewrite (roundtrip_down _ _ H). Qed.
End redis_facts.

(** ** The token manager *)

Module jwt_facts.
Import jwtlib jwtparse jwt.

(** Parsing reads the clock and nothing else. *)
Lemma ParseToken_pure m tok ty w : snd (ParseToken m tok ty w) = w.
Proof.
  unfold ParseToken, ParseWithClaims, bind, ret, now. cbn.
  destruct tok as [t|raw]; cbn; [|done].
  destruct (keyFunc m t) as [key [e|]]; cbn; [done|].
  by repeat (match goal with |- context [if ?b then _ else _] => destruct b end; cbn).
Qed.

(** What a successful parse says about the token. *)
Lemma ParseToken_Some m tok ty w claims :
  fst (ParseToken m tok ty w) = (Some claims, None) ->
  exists t,
    tok = Compact t /\ jwtparse.Claims t = claims /\
    is_HMAC (Method t) = true /\ signed_with t = secret m /\
    expired (clock w) (Registered claims) = false /\ TokenType claims = ty.
Proof.
  unfold ParseToken, ParseWithClaims, bind, ret, now, keyFunc. cbn.
  destruct tok as [t|raw]; cbn; [|discriminate].
  destruct (is_HMAC (Method t)) eqn:Hm; cbn; [|discriminate].
  destruct (String.eqb_spec (secret m) (signed_with t)) as [Hk|Hk]; cbn; [|discriminate].
  destruct (expired (clock w) (Registered (jwtparse.Claims t))) eqn:He; cbn; [discriminate|].
  destruct (String.eqb_spec (TokenType (jwtparse.Claims t)) ty) as [Hty|Hty]; cbn;
    [|discriminate].
  intros [= <-]. exists t. by rewrite He.
Qed.


Lemma append_empty_r (s : string) : s +:+ "" = s.
Proof.
  induction s as [|a s IH]; [done|].
  change (String a (s +:+ "") = String a s). by rewrite IH.
Qed.

Lemma blacklistKey_inj a b : blacklistKey a = blacklistKey b -> a = b.
Proof.
  unfold blacklistKey. cbn. rewrite !append_empty_r. intros H. by injection H.
Qed.

Lemma NewManager_refreshExpire_pos cfg : 0 < refreshExpire (NewManager cfg).
Proof.
  unfold NewManager. cbn. destruct (Z.ltb_spec 0 (RefreshExpire cfg)); [done|].
  reflexivity.
Qed.

Lemma NewManager_accessExpire_pos cfg : 0 < accessExpire (NewManager cfg).
Proof.
  unfold NewManager. cbn. destruct (Z.ltb_spec 0 (AccessExpire cfg)); [done|].
  reflexivity.
Qed.
End jwt_facts.

Module refresh_facts.
Import jwtlib jwtparse jwt userservice.

Lemma surjective_run {A : Type} (m : IO A) (w : World) : m w = (fst (m w), snd (m w)).
Proof. by destruct (m w). Qed.

Lemma ParseToken_run m tok ty w r :
  fst (ParseToken m tok ty w) = r -> ParseToken m tok ty w = (r, w).
Proof.
  intros <-. rewrite (surjective_run (ParseToken m tok ty) w) at 1.
  by rewrite jwt_facts.ParseToken_pure.
Qed.

(** Minting draws two ids, in this order, and touches nothing else. *)
Lemma GenerateTokenPair_run m userID w :
  let a := uuid_src w (tick w) in
  let r := uuid_src w (S (tick w)) in
  let t := clock w in
  GenerateTokenPair m userID w =
    ((Some
        (mkTokenPair
           (Compact (mkToken HS256
                       (mkClaims userID TokenTypeAccess
                          (mkRegisteredClaims a (NewNumericDate t)
                             (NewNumericDate (t + accessExpire m))))
                       (secret m)))
           (Compact (mkToken HS256
                       (mkClaims userID TokenTypeRefresh
                          (mkRegisteredClaims r (NewNumericDate t)
                             (NewNumericDate (t + refreshExpire m))))
                       (secret m)))), None),
     emit (EvUUID r) (emit (EvUUID a) w)).
Proof. reflexivity. Qed.

(** The answer of the blacklist check, read off the answer of Redis. *)
Lemma IsTokenBlacklisted_run m jti w :
  IsTokenBlacklisted m jti w =
    (match fst (redis.Get (blacklistKey jti) w) with
     | (_, Some e) =>
         if chain_has e redis.Nil then (false, None) else (false, Some e)
     | (val, None) => (String.eqb val "1", None)
     end, snd (redis.Get (blacklistKey jti) w)).
Proof.
  unfold IsTokenBlacklisted, bind, ret.
  destruct (redis.Get (blacklistKey jti) w) as [[val [e|]] w']; reflexivity.
Qed.

(** A check that answers can only have been made over a live connection. *)
Lemma IsTokenBlacklisted_answer m jti w b w1 :
  IsTokenBlacklisted m jti w = ((b, None), w1) ->
  redis_down w (tick w) = false /\
  w1 = emit (EvRedis [GET (blacklistKey jti)] true) w /\
  b = match redis.peek (clock w) (rdb w) (blacklistKey jti) with
      | Some e => String.eqb (e_val e) "1"
      | None => false
      end.
Proof.
  rewrite IsTokenBlacklisted_run.
  destruct (redis_down w (tick w)) eqn:Hd.
  - rewrite (redis_facts.Get_down _ _ Hd). cbn. discriminate.
  - rewrite (redis_facts.Get_up _ _ Hd). cbn.
    destruct (redis.peek (clock w) (rdb w) (blacklistKey jti)) as [e|]; cbn;
      intros H; inversion H; done.
Qed.

Lemma FindByUserID_found userID w u w2 :
  userrepo.FindByUserID userID w = ((Some u, None), w2) ->
  w2 = emit (EvFindByUserID userID) w.
Proof.
  unfold userrepo.FindByUserID.
  destruct (db_down w (tick w)); [discriminate|].
  destruct (users w !! userID); [|discriminate]. by intros [= _ <-].
Qed.

Lemma FindByUserID_up userID w u :
  db_down w (tick w) = false ->
  users w !! userID = Some u ->
  userrepo.FindByUserID userID w = ((Some u, None), emit (EvFindByUserID userID) w).
Proof. intros Hd Hu. unfold userrepo.FindByUserID. by rewrite Hd, Hu. Qed.
End refresh_facts.

Module rotation.
Import jwtlib jwtparse jwt userservice refresh_facts.

(** C1. In [RefreshToken], once the token has parsed as a refresh token, the
    blacklist check has answered "not revoked" and the subject has been
    found, the next interaction is the write of the old token id to the
    blacklist.  If that write fails, the call returns the [CodeCacheError]
    system error and no id is ever drawn for a new pair; if it succeeds,
    the two ids of the new pair are drawn after it, and the pair is
    returned. *)
Theorem RefreshToken_revokes_before_minting
    (s : service) (tok : tokenString) (claims : Claims) (u : domain.User)
    (w w1 w2 : World) :
  let m := jwtManager s in
  let jti := ID (Registered claims) in
  let checks :=
    [EvRedis [GET (blacklistKey jti)] true; EvFindByUserID (UserID claims)] in
  let write := EvRedis [SET (blacklistKey jti) "1" (refreshExpire m)] in
  fst (ParseToken m tok TokenTypeRefresh w) = (Some claims, None) ->
  IsTokenBlacklisted m jti w = ((false, None), w1) ->
  userrepo.FindByUserID (UserID claims) w1 = ((Some u, None), w2) ->
  if redis_down w2 (tick w2)
  then
    fst (RefreshToken s tok w) =
      (None, Some (response.Err response.CodeCacheError "令牌轮转失败")) /\
    response.IsSystemError response.CodeCacheError = true /\
    trace (snd (RefreshToken s tok w)) = trace w ++ checks ++ [write false] /\
    filter (fun e => mints e = true) (trace (snd (RefreshToken s tok w))) =
      filter (fun e => mints e = true) (trace w)
  else
    exists pair a r,
      fst (RefreshToken s tok w) = (Some pair, None) /\
      fst (GenerateTokenPair m (UserID claims) (snd (RevokeRefreshToken m jti w2))) =
        (Some pair, None) /\
      trace (snd (RefreshToken s tok w)) =
        trace w ++ checks ++ [write true; EvUUID a; EvUUID r] /\
      rdb (snd (RevokeRefreshToken m jti w2)) !! blacklistKey jti =
        Some (Entry "1" (redis.deadline_of (clock w) (refreshExpire m))).
Proof.
  intros m jti checks write HP HB HF.
  apply ParseToken_run in HP.
  pose proof (IsTokenBlacklisted_answer _ _ _ _ _ HB) as (Hup & Hw1 & _).
  pose proof (FindByUserID_found _ _ _ _ HF) as Hw2.
  assert (Htr : trace w2 = trace w ++ checks) by (subst w2 w1; cbn; by rewrite <- app_assoc).
  assert (Hck : clock w2 = clock w) by (by subst w2 w1).
  clear Hw1 Hw2.
  unfold RefreshToken, bind. fold m. rewrite HP. fold jti. rewrite HB, HF.
  unfold RevokeRefreshToken, AddTokenToBlacklist.
  destruct (redis_down w2 (tick w2)) eqn:Hd.
  - rewrite (redis_facts.Set_down _ _ _ _ Hd). cbn. rewrite Htr.
    repeat split; try done.
    + by rewrite <- !app_assoc.
    + rewrite <- app_assoc, !filter_app. cbn. by rewrite !app_nil_r.
  - rewrite (redis_facts.Set_up _ _ _ _ Hd).
    rewrite GenerateTokenPair_run. cbn. rewrite Htr, Hck.
    eexists _, _, _. repeat split.
    + by rewrite <- !app_assoc.
    + by rewrite lookup_insert_eq.
Qed.
End rotation.

Module rotation_examples.
Import jwtlib jwtparse jwt userservice scenario.

Example login_refresh_token :
  option_map jwt.RefreshToken (fst login) = Some refreshToken.
Proof. vm_compute. reflexivity. Qed.

(** The rotation at Alice's refresh one day after login: once with Redis
    answering, once with Redis failing at the blacklist write. *)
Lemma RefreshToken_revokes_before_minting_witness :
  let w := next_day in
  let w1 := snd (IsTokenBlacklisted manager "uuid-1" w) in
  let w2 := snd (userrepo.FindByUserID "u-1001" w1) in
  let v := third_fails next_day in
  let v1 := snd (IsTokenBlacklisted manager "uuid-1" v) in
  let v2 := snd (userrepo.FindByUserID "u-1001" v1) in
  let checks :=
    [EvRedis [GET (blacklistKey "uuid-1")] true; EvFindByUserID "u-1001"] in
  let write := EvRedis [SET (blacklistKey "uuid-1") "1" (refreshExpire manager)] in
  (fst (ParseToken manager refreshToken TokenTypeRefresh w) = (Some refreshClaims, None) /\
   IsTokenBlacklisted manager "uuid-1" w = ((false, None), w1) /\
   userrepo.FindByUserID "u-1001" w1 = ((Some alice, None), w2) /\
   fst (ParseToken manager refreshToken TokenTypeRefresh v) = (Some refreshClaims, None) /\
   IsTokenBlacklisted manager "uuid-1" v = ((false, None), v1) /\
   userrepo.FindByUserID "u-1001" v1 = ((Some alice, None), v2)) /\
  (exists pair a r,
     fst (RefreshToken svc refreshToken w) = (Some pair, None) /\
     fst (GenerateTokenPair manager "u-1001"
            (snd (RevokeRefreshToken manager "uuid-1" w2))) = (Some pair, None) /\
     trace (snd (RefreshToken svc refreshToken w)) =
       trace w ++ checks ++ [write true; EvUUID a; EvUUID r] /\
     rdb (snd (RevokeRefreshToken manager "uuid-1" w2)) !! blacklistKey "uuid-1" =
       Some (Entry "1" (redis.deadline_of (clock w) (refreshExpire manager)))) /\
  (fst (RefreshToken svc refreshToken v) =
     (None, Some (response.Err response.CodeCacheError "令牌轮转失败")) /\
   response.IsSystemError response.CodeCacheError = true /\
   trace (snd (RefreshToken svc refreshToken v)) = trace v ++ checks ++ [write false] /\
   filter (fun e => mints e = true) (trace (snd (RefreshToken svc refreshToken v))) =
     filter (fun e => mints e = true) (trace v)).
Proof.
  intros w w1 w2 v v1 v2 checks write.
  assert (H1 : fst (ParseToken manager refreshToken TokenTypeRefresh w)
               = (Some refreshClaims, None)) by (vm_compute; reflexivity).
  assert (H2 : IsTokenBlacklisted manager "uuid-1" w = ((false, None), w1))
    by (vm_compute; reflexivity).
  assert (H3 : userrepo.FindByUserID "u-1001" w1 = ((Some alice, None), w2))
    by (vm_compute; reflexivity).
  assert (G1 : fst (ParseToken manager refreshToken TokenTypeRefresh v)
               = (Some refreshClaims, None)) by (vm_compute; reflexivity).
  assert (G2 : IsTokenBlacklisted manager "uuid-1" v = ((false, None), v1))
    by (vm_compute; reflexivity).
  assert (G3 : userrepo.FindByUserID "u-1001" v1 = ((Some alice, None), v2))
    by (vm_compute; reflexivity).
  split; [exact (conj H1 (conj H2 (conj H3 (conj G1 (conj G2 G3)))))|].
  split.
  - exact (rotation.RefreshToken_revokes_before_minting
             svc refreshToken refreshClaims alice w w1 w2 H1 H2 H3).
  - exact (rotation.RefreshToken_revokes_before_minting
             svc refreshToken refreshClaims alice v v1 v2 G1 G2 G3).
Defined.
End rotation_examples.

Module rotation_facts.
Import jwtlib jwtparse jwt userservice refresh_facts.

(** The world a successful rotation leaves: the keyspace gained the blacklist
    entry of the old id, and nothing else about the collaborators moved. *)
Lemma RefreshToken_success (s : service) (tok : tokenString) (claims : Claims)
    (u : domain.User) (w : World) :
  let m := jwtManager s in
  let jti := ID (Registered claims) in
  fst (ParseToken m tok TokenTypeRefresh w) = (Some claims, None) ->
  fst (IsTokenBlacklisted m jti w) = (false, None) ->
  users w !! UserID claims = Some u ->
  db_down w (S (tick w)) = false ->
  redis_down w (S (S (tick w))) = false ->
  exists pair w',
    RefreshToken s tok w = ((Some pair, None), w') /\
    rdb w' = <[blacklistKey jti := Entry "1" (redis.deadline_of (clock w) (refreshExpire m))]> (rdb w) /\
    clock w' = clock w /\ users w' = users w /\
    redis_down w' = redis_down w /\ db_down w' = db_down w.
Proof.
  intros m jti HP HB Hu Hdb Hrd.
  apply ParseToken_run in HP.
  rewrite (surjective_run (IsTokenBlacklisted m jti) w) in HB. cbn in HB.
  assert (HB' : IsTokenBlacklisted m jti w
                = ((false, None), snd (IsTokenBlacklisted m jti w))).
  { rewrite (surjective_run (IsTokenBlacklisted m jti) w) at 1. by rewrite HB. }
  destruct (IsTokenBlacklisted_answer _ _ _ _ _ HB') as (Hup & Hw1 & _).
  unfold RefreshToken, bind. fold m. rewrite HP. fold jti. rewrite HB', Hw1.
  rewrite (FindByUserID_up _ _ u) by (cbn; assumption).
  unfold RevokeRefreshToken, AddTokenToBlacklist.
  rewrite redis_facts.Set_up by (cbn; exact Hrd).
  rewrite GenerateTokenPair_run. cbn.
  eexists _, _. split; [reflexivity|]. by cbn.
Qed.

(** Every way for the parse to fail ends in [CodeTokenInvalid]. *)
Lemma RefreshToken_unparsed (s : service) (tok : tokenString) (w : World) :
  (forall claims, fst (ParseToken (jwtManager s) tok TokenTypeRefresh w)
                  <> (Some claims, None)) ->
  fst (RefreshToken s tok w) =
    (None, Some (response.Err response.CodeTokenInvalid "刷新令牌无效")).
Proof.
  intros Hno. unfold RefreshToken, bind.
  rewrite (ParseToken_run _ _ _ _ _ eq_refl).
  destruct (fst (ParseToken (jwtManager s) tok TokenTypeRefresh w)) as [[c|] [e|]] eqn:HP;
    try reflexivity.
  by destruct (Hno c).
Qed.

(** A live blacklist entry ends the call in [CodeTokenInvalid]. *)
Lemma RefreshToken_blacklisted (s : service) (tok : tokenString) (claims : Claims)
    (w : World) (e : entry) :
  let jti := ID (Registered claims) in
  fst (ParseToken (jwtManager s) tok TokenTypeRefresh w) = (Some claims, None) ->
  redis_down w (tick w) = false ->
  redis.peek (clock w) (rdb w) (blacklistKey jti) = Some e ->
  e_val e = "1" ->
  fst (RefreshToken s tok w) =
    (None, Some (response.Err response.CodeTokenInvalid "刷新令牌已失效")).
Proof.
  intros jti HP Hup Hpeek Hval.
  apply ParseToken_run in HP.
  unfold RefreshToken, bind. rewrite HP. fold jti.
  rewrite IsTokenBlacklisted_run, (redis_facts.Get_up _ _ Hup), Hpeek, Hval.
  reflexivity.
Qed.
End rotation_facts.

Module replay_facts.
Import jwtlib jwtparse jwt userservice refresh_facts.


End replay_facts.

Module replay.
Import jwtlib jwtparse jwt userservice refresh_facts rotation_facts replay_facts.


End replay.

Module replay_examples.
Import jwtlib jwtparse jwt userservice scenario.


Example replay_message :
  fst (RefreshToken svc refreshToken
         (elapse time.Hour (snd (RefreshToken svc refreshToken next_day)))) =
    (None, Some (response.Err response.CodeTokenInvalid "刷新令牌已失效")).
Proof. vm_compute. reflexivity. Qed.
End replay_examples.

Module blacklist_ttl.
Import jwtlib jwtparse jwt userservice refresh_facts rotation_facts.

(** C6, as stated, fails: Alice's refresh token, minted with the default
    lifetime of seven days, is rotated one day later; the blacklist entry then
    written lives seven days, one day more than the six days the token had
    left. *)
Lemma ttl_exceeds_remaining_validity :
  let w := scenario.next_day in
  let w' := snd (RefreshToken scenario.svc scenario.refreshToken w) in
  exists e deadline exp,
    fst (ParseToken scenario.manager scenario.refreshToken TokenTypeRefresh w)
      = (Some scenario.refreshClaims, None) /\
    ExpiresAt (Registered scenario.refreshClaims) = Some exp /\
    rdb w' !! blacklistKey "uuid-1" = Some e /\
    e_deadline e = Some deadline /\
    deadline - clock w = 7 * 24 * time.Hour /\
    exp - clock w = 6 * 24 * time.Hour /\
    ~ (deadline - clock w <= exp - clock w).
Proof.
  eexists _, _, _. repeat split; try (vm_compute; reflexivity).
  vm_compute. intros H. by apply H.
Qed.

(** C6, amended.  [RevokeRefreshToken] writes the entry with the manager's
    full refresh lifetime as expiration, whatever the token has left; so does
    the rotation in [RefreshToken], and [Logout] writes its two entries with
    the full access and refresh lifetimes.  For a token this manager minted
    no later than the revocation, the refresh lifetime is at least the
    validity the token has left: the entry never expires before the token it
    guards. *)
Theorem revocation_ttl_is_refresh_lifetime
    (s : service) (w0 w : World) (userID : string) (pair : TokenPair)
    (t : Token Claims) (u : domain.User) :
  let m := jwtManager s in
  let claims := jwtparse.Claims t in
  let jti := ID (Registered claims) in
  0 < refreshExpire m ->
  fst (GenerateTokenPair m userID w0) = (Some pair, None) ->
  jwt.RefreshToken pair = Compact t ->
  clock w0 <= clock w ->
  redis_up w ->
  rdb (snd (RevokeRefreshToken m jti w)) !! blacklistKey jti =
    Some (Entry "1" (Some (clock w + refreshExpire m))) /\
  (exists exp, ExpiresAt (Registered claims) = Some exp /\
               exp - clock w <= refreshExpire m) /\
  (db_up w ->
   fst (ParseToken m (Compact t) TokenTypeRefresh w) = (Some claims, None) ->
   fst (IsTokenBlacklisted m jti w) = (false, None) ->
   users w !! UserID claims = Some u ->
   rdb (snd (userservice.RefreshToken s (Compact t) w)) !! blacklistKey jti =
     Some (Entry "1" (Some (clock w + refreshExpire m)))) /\
  (forall accessJTI,
     0 < accessExpire m ->
     accessJTI <> "" -> jti <> "" -> accessJTI <> jti ->
     rdb (snd (Logout s accessJTI jti w)) !! blacklistKey accessJTI =
       Some (Entry "1" (Some (clock w + accessExpire m))) /\
     rdb (snd (Logout s accessJTI jti w)) !! blacklistKey jti =
       Some (Entry "1" (Some (clock w + refreshExpire m)))).
Proof.
  intros m claims jti Hpos Hgen Htok Hclock Hr.
  assert (Hdl : forall ex, 0 < ex -> redis.deadline_of (clock w) ex = Some (clock w + ex)).
  { intros ex Hex. unfold redis.deadline_of. by destruct (Z.ltb_spec 0 ex); [|lia]. }
  split; [|split; [|split]].
  - unfold RevokeRefreshToken, AddTokenToBlacklist.
    rewrite redis_facts.Set_up by apply Hr. cbn.
    by rewrite lookup_insert_eq, Hdl.
  - rewrite GenerateTokenPair_run in Hgen. cbn in Hgen.
    injection Hgen as <-. cbn in Htok. injection Htok as <-.
    eexists. split; [reflexivity|].
    pose proof (time_facts.Truncate_le (clock w0 + refreshExpire m) time.Second
                  time_facts.Second_pos). lia.
  - intros Hdb HP HB Hu.
    destruct (RefreshToken_success s (Compact t) claims u w HP HB Hu (Hdb _) (Hr _))
      as (pair' & w' & Hrun & Hrdb & _).
    rewrite Hrun. cbn. rewrite Hrdb. fold jti. fold m.
    by rewrite lookup_insert_eq, Hdl.
  - intros accessJTI Hapos Ha Hj Hne.
    unfold Logout, bind, GetAccessExpire, RevokeRefreshToken, AddTokenToBlacklist.
    fold m.
    destruct (String.eqb_spec accessJTI "") as [|_]; [done|].
    destruct (String.eqb_spec jti "") as [|_]; [done|]. cbn [negb].
    rewrite redis_facts.Set_up by apply Hr.
    rewrite redis_facts.Set_up by (cbn; apply Hr).
    cbn [snd ret rdb clock emit set_rdb].
    rewrite lookup_insert_eq.
    rewrite lookup_insert_ne
      by (intros Heq; apply jwt_facts.blacklistKey_inj in Heq; congruence).
    rewrite lookup_insert_eq. by rewrite !Hdl.
Qed.
End blacklist_ttl.

Module blacklist_ttl_examples.
Import jwtlib jwtparse jwt userservice scenario.

(** The amended bound at Alice's rotation, and at her logout, one day after
    login. *)
Lemma revocation_ttl_is_refresh_lifetime_witness :
  (0 < refreshExpire manager /\
   fst (GenerateTokenPair manager "u-1001" world0) = (Some tokenPair, None) /\
   jwt.RefreshToken tokenPair = refreshToken /\
   clock world0 <= clock next_day /\
   redis_up next_day /\ db_up next_day /\
   fst (ParseToken manager refreshToken TokenTypeRefresh next_day)
     = (Some refreshClaims, None) /\
   fst (IsTokenBlacklisted manager "uuid-1" next_day) = (false, None) /\
   users next_day !! "u-1001" = Some alice /\
   0 < accessExpire manager /\
   "uuid-0" <> "" /\ "uuid-1" <> "" /\ "uuid-0" <> "uuid-1") /\
  rdb (snd (RevokeRefreshToken manager "uuid-1" next_day)) !! blacklistKey "uuid-1" =
    Some (Entry "1" (Some (clock next_day + refreshExpire manager))) /\
  (exists exp, ExpiresAt (Registered refreshClaims) = Some exp /\
               exp - clock next_day <= refreshExpire manager) /\
  rdb (snd (userservice.RefreshToken svc refreshToken next_day)) !! blacklistKey "uuid-1" =
    Some (Entry "1" (Some (clock next_day + refreshExpire manager))) /\
  rdb (snd (Logout svc "uuid-0" "uuid-1" next_day)) !! blacklistKey "uuid-0" =
    Some (Entry "1" (Some (clock next_day + accessExpire manager))) /\
  rdb (snd (Logout svc "uuid-0" "uuid-1" next_day)) !! blacklistKey "uuid-1" =
    Some (Entry "1" (Some (clock next_day + refreshExpire manager))).
Proof.
  assert (H1 : 0 < refreshExpire manager) by (vm_compute; reflexivity).
  assert (H2 : fst (GenerateTokenPair manager "u-1001" world0) = (Some tokenPair, None))
    by (vm_compute; reflexivity).
  assert (H3 : jwt.RefreshToken tokenPair = refreshToken) by reflexivity.
  assert (H4 : clock world0 <= clock next_day) by (vm_compute; discriminate).
  assert (H5 : redis_up next_day) by (intros n; vm_compute; reflexivity).
  assert (H6 : db_up next_day) by (intros n; vm_compute; reflexivity).
  assert (H7 : fst (ParseToken manager refreshToken TokenTypeRefresh next_day)
               = (Some refreshClaims, None)) by (vm_compute; reflexivity).
  assert (H8 : fst (IsTokenBlacklisted manager "uuid-1" next_day) = (false, None))
    by (vm_compute; reflexivity).
  assert (H9 : users next_day !! "u-1001" = Some alice) by (vm_compute; reflexivity).
  assert (L1 : 0 < accessExpire manager) by (vm_compute; reflexivity).
  assert (L2 : "uuid-0" <> "") by discriminate.
  assert (L3 : "uuid-1" <> "") by discriminate.
  assert (L4 : "uuid-0" <> "uuid-1") by discriminate.
  split.
  { exact (conj H1 (conj H2 (conj H3 (conj H4 (conj H5 (conj H6 (conj H7 (conj H8
             (conj H9 (conj L1 (conj L2 (conj L3 L4)))))))))))). }
  destruct (blacklist_ttl.revocation_ttl_is_refresh_lifetime
              svc world0 next_day "u-1001" tokenPair
              (mkToken HS256 refreshClaims "s3cr3t") alice H1 H2 H3 H4 H5)
    as (A & B & C & D).
  destruct (D "uuid-0" L1 L2 L3 L4) as [D1 D2].
  exact (conj A (conj B (conj (C H6 H7 H8 H9) (conj D1 D2)))).
Defined.
End blacklist_ttl_examples.

Module minting.
Import jwtlib jwtparse jwt refresh_facts.

End minting.

Module minting_examples.
Import jwtlib jwtparse jwt scenario.


Example wrong_kind_message :
  Error (fmt.Errorf "expected %s token, got %s" [TokenTypeRefresh; TokenTypeAccess]) =
    "expected refresh token, got access".
Proof. reflexivity. Qed.
End minting_examples.

Module revocation_check.
Import jwtlib jwtparse jwt userservice refresh_facts.

(** C9. [IsTokenBlacklisted] answers from the revocation store: over a
    Redis that answers it makes one read of the key of the id and returns,
    without error, [true] when a live entry holding "1" sits under that key
    and [false] otherwise; and no answer without error says anything else.
    When the lookup itself fails with an error other than [redis.Nil], that
    error comes back unchanged beside [false], so the answer differs from
    the "not revoked" answer [(false, nil)]; and [RefreshToken], whose token
    has parsed, then returns the [CodeCacheError] system error. *)
Theorem IsTokenBlacklisted_propagates_lookup_failure
    (s : service) (tok : tokenString) (claims : Claims) (w : World) :
  let m := jwtManager s in
  let jti := ID (Registered claims) in
  let held :=
    match redis.peek (clock w) (rdb w) (blacklistKey jti) with
    | Some e => String.eqb (e_val e) "1"
    | None => false
    end in
  (redis_down w (tick w) = false ->
   IsTokenBlacklisted m jti w =
     ((held, None), emit (EvRedis [GET (blacklistKey jti)] true) w)) /\
  (forall b, fst (IsTokenBlacklisted m jti w) = (b, None) -> b = held) /\
  (forall val e,
     fst (redis.Get (blacklistKey jti) w) = (val, Some e) ->
     chain_has e redis.Nil = false ->
     fst (IsTokenBlacklisted m jti w) = (false, Some e) /\
     fst (IsTokenBlacklisted m jti w) <> (false, None) /\
     (fst (ParseToken m tok TokenTypeRefresh w) = (Some claims, None) ->
      fst (RefreshToken s tok w) =
        (None, Some (response.Err response.CodeCacheError "检查令牌状态失败")) /\
      response.IsSystemError response.CodeCacheError = true)).
Proof.
  intros m jti held. split; [|split].
  - intros Hup. rewrite IsTokenBlacklisted_run, (redis_facts.Get_up _ _ Hup).
    unfold held. by destruct (redis.peek (clock w) (rdb w) (blacklistKey jti)).
  - intros b Hb.
    assert (Hrun : IsTokenBlacklisted m jti w
                   = ((b, None), snd (IsTokenBlacklisted m jti w))).
    { rewrite (surjective_run (IsTokenBlacklisted m jti) w) at 1. by rewrite Hb. }
    by destruct (IsTokenBlacklisted_answer _ _ _ _ _ Hrun) as (_ & _ & ->).
  - intros val e HG Hnil.
    assert (HB : fst (IsTokenBlacklisted m jti w) = (false, Some e)).
    { rewrite IsTokenBlacklisted_run. cbn. rewrite HG. cbn. by rewrite Hnil. }
    split; [exact HB|]. split; [rewrite HB; discriminate|].
    intros HP. apply ParseToken_run in HP.
    unfold RefreshToken, bind. fold m. rewrite HP. fold jti.
    rewrite (surjective_run (IsTokenBlacklisted m jti) w), HB. done.
Qed.
End revocation_check.

Module revocation_check_examples.
Import jwtlib jwtparse jwt userservice scenario.

(** The check on Alice's refresh token id: before the rotation (no entry),
    an hour after it (the entry written by the rotation), and during a Redis
    outage, where her rotation ends in the cache error. *)
Lemma IsTokenBlacklisted_propagates_lookup_failure_witness :
  let rotated := elapse time.Hour (snd (RefreshToken svc refreshToken next_day)) in
  IsTokenBlacklisted manager "uuid-1" next_day =
    ((false, None), emit (EvRedis [GET (blacklistKey "uuid-1")] true) next_day) /\
  IsTokenBlacklisted manager "uuid-1" rotated =
    ((true, None), emit (EvRedis [GET (blacklistKey "uuid-1")] true) rotated) /\
  fst (IsTokenBlacklisted manager "uuid-1" (outage next_day))
    = (false, Some redis.ErrPoolTimeout) /\
  fst (IsTokenBlacklisted manager "uuid-1" (outage next_day)) <> (false, None) /\
  fst (RefreshToken svc refreshToken (outage next_day)) =
    (None, Some (response.Err response.CodeCacheError "检查令牌状态失败")) /\
  response.IsSystemError response.CodeCacheError = true.
Proof.
  intros rotated.
  assert (H2 : fst (redis.Get (blacklistKey "uuid-1") (outage next_day))
               = ("", Some redis.ErrPoolTimeout)) by (vm_compute; reflexivity).
  assert (H3 : chain_has redis.ErrPoolTimeout redis.Nil = false)
    by (vm_compute; reflexivity).
  assert (H4 : fst (ParseToken manager refreshToken TokenTypeRefresh (outage next_day))
               = (Some refreshClaims, None)) by (vm_compute; reflexivity).
  destruct (revocation_check.IsTokenBlacklisted_propagates_lookup_failure
              svc refreshToken refreshClaims next_day) as [A _].
  destruct (revocation_check.IsTokenBlacklisted_propagates_lookup_failure
              svc refreshToken refreshClaims rotated) as [A' _].
  destruct (revocation_check.IsTokenBlacklisted_propagates_lookup_failure
              svc refreshToken refreshClaims (outage next_day)) as (_ & _ & B).
  destruct (B "" redis.ErrPoolTimeout H2 H3) as (B1 & B0 & B2).
  split; [exact (A eq_refl)|]. split; [exact (A' eq_refl)|].
  split; [exact B1|]. split; [exact B0|]. exact (B2 H4).
Defined.
End revocation_check_examples.

(** ** The verification-code store *)

Module smsrepo_facts.
Import redis smsrepo.

(** The four keys of a (purpose, phone) are pairwise distinct, also across
    purposes and phones: their prefixes differ. *)
Lemma codeKey_verifyFailKey t p t' p' : codeKey t p <> verifyFailKey t' p'.
Proof. unfold codeKey, verifyFailKey. cbn. discriminate. Qed.

Lemma codeKey_minuteKey t p t' p' : codeKey t p <> minuteKey t' p'.
Proof. unfold codeKey, minuteKey. cbn. discriminate. Qed.

Lemma codeKey_dayKey t p t' p' : codeKey t p <> dayKey t' p'.
Proof. unfold codeKey, dayKey. cbn. discriminate. Qed.

Lemma verifyFailKey_minuteKey t p t' p' : verifyFailKey t p <> minuteKey t' p'.
Proof. unfold verifyFailKey, minuteKey. cbn. discriminate. Qed.

Lemma verifyFailKey_dayKey t p t' p' : verifyFailKey t p <> dayKey t' p'.
Proof. unfold verifyFailKey, dayKey. cbn. discriminate. Qed.

Lemma minuteKey_dayKey t p t' p' : minuteKey t p <> dayKey t' p'.
Proof. unfold minuteKey, dayKey. cbn. discriminate. Qed.

(** [Atoi] never reports [redis.Nil]. *)
Lemma Atoi_not_Nil s : errors_Is (snd (strconv.Atoi s)) Nil = false.
Proof.
  unfold strconv.Atoi. destruct (strconv.parse s) as [n|]; [|reflexivity].
  destruct (n <? strconv.MinInt64); [reflexivity|].
  destruct (strconv.MaxInt64 <? n); reflexivity.
Qed.

Lemma Get_Int_up key w :
  redis_down w (tick w) = false ->
  Get_Int key w =
    (match peek (clock w) (rdb w) key with
     | Some e => strconv.Atoi (e_val e)
     | None => (0, Some Nil)
     end, emit (EvRedis [GET key] true) w).
Proof.
  intros H. unfold Get_Int, bind. rewrite (redis_facts.Get_up _ _ H).
  by destruct (peek (clock w) (rdb w) key).
Qed.

Lemma Get_Int_down key w :
  redis_down w (tick w) = true ->
  Get_Int key w = ((0, Some ErrPoolTimeout), emit (EvRedis [GET key] false) w).
Proof. intros H. unfold Get_Int, bind. by rewrite (redis_facts.Get_down _ _ H). Qed.

(** The failure counter as [GetVerifyFailCount] reads it: a missing or
    expired key counts as zero. *)
Lemma GetVerifyFailCount_up t p w :
  redis_down w (tick w) = false ->
  GetVerifyFailCount t p w =
    (match peek (clock w) (rdb w) (verifyFailKey t p) with
     | Some e => strconv.Atoi (e_val e)
     | None => (0, None)
     end, emit (EvRedis [GET (verifyFailKey t p)] true) w).
Proof.
  intros H. unfold GetVerifyFailCount, bind. rewrite (Get_Int_up _ _ H).
  destruct (peek (clock w) (rdb w) (verifyFailKey t p)) as [e|]; [|reflexivity].
  pose proof (Atoi_not_Nil (e_val e)) as Hn.
  destruct (strconv.Atoi (e_val e)) as [n err]. cbn in Hn. by rewrite Hn.
Qed.

Lemma GetVerifyFailCount_down t p w :
  redis_down w (tick w) = true ->
  GetVerifyFailCount t p w =
    ((0, Some ErrPoolTimeout), emit (EvRedis [GET (verifyFailKey t p)] false) w).
Proof. intros H. unfold GetVerifyFailCount, bind. by rewrite (Get_Int_down _ _ H). Qed.

Lemma GetCode_up t p w :
  redis_down w (tick w) = false ->
  GetCode t p w =
    (match peek (clock w) (rdb w) (codeKey t p) with
     | Some e => (e_val e, None)
     | None => ("", Some sms.ErrCodeInvalid)
     end, emit (EvRedis [GET (codeKey t p)] true) w).
Proof.
  intros H. unfold GetCode, bind. rewrite (redis_facts.Get_up _ _ H).
  by destruct (peek (clock w) (rdb w) (codeKey t p)).
Qed.

Lemma GetCode_down t p w :
  redis_down w (tick w) = true ->
  GetCode t p w =
    (("", Some ErrPoolTimeout), emit (EvRedis [GET (codeKey t p)] false) w).
Proof. intros H. unfold GetCode, bind. by rewrite (redis_facts.Get_down _ _ H). Qed.

(** Commands leave the keys they do not name alone. *)
Lemma exec_other t c db k :
  key_of c <> k -> snd (exec t c db) !! k = db !! k.
Proof.
  intros Hk. destruct c as [k0|k0 v ex|k0|k0|k0 ex]; cbn in *.
  - done.
  - by rewrite lookup_insert_ne.
  - by rewrite lookup_delete_ne.
  - destruct (peek t db k0) as [e|]; cbn; [|by rewrite lookup_insert_ne].
    destruct (strconv.parse (e_val e)) as [n|]; cbn; [|done].
    destruct ((strconv.MinInt64 <=? n) && (n <? strconv.MaxInt64)); cbn; [|done].
    by rewrite lookup_insert_ne.
  - destruct (peek t db k0) as [e|]; cbn; [|done].
    destruct (0 <? ex); cbn; [by rewrite lookup_insert_ne|by rewrite lookup_delete_ne].
Qed.

Lemma run_other t cmds db k :
  Forall (fun c => key_of c <> k) cmds -> snd (run t cmds db) !! k = db !! k.
Proof.
  revert db. induction cmds as [|c cs IH]; intros db Hall; [done|].
  inversion Hall as [|? ? Hc Hcs]; subst. cbn.
  pose proof (exec_other t c db k Hc) as Hex.
  destruct (exec t c db) as [r db1]. cbn in Hex.
  specialize (IH db1 Hcs). destruct (run t cs db1) as [rs db2]. cbn in *.
  congruence.
Qed.
End smsrepo_facts.

(** ** Verification codes, arch3 *)

Module verify_facts.
Import redis smsrepo volcengine smsrepo_facts.

Section WithRedisRepository.
Variable cfg : sms.Config.
Let c : Client := New cfg NewCacheRepository.

Lemma Pipeline_Exec_up cmds w :
  redis_down w (tick w) = false ->
  Pipeline_Exec cmds w =
    (first_err (Some (fst (run (clock w) cmds (rdb w)))),
     emit (EvRedis cmds true) (set_rdb (snd (run (clock w) cmds (rdb w))) w)).
Proof.
  intros H. unfold Pipeline_Exec, bind. by rewrite (redis_facts.roundtrip_up _ _ H).
Qed.

Lemma Pipeline_Exec_down cmds w :
  redis_down w (tick w) = true ->
  Pipeline_Exec cmds w = (Some ErrPoolTimeout, emit (EvRedis cmds false) w).
Proof.
  intros H. unfold Pipeline_Exec, bind. by rewrite (redis_facts.roundtrip_down _ _ H).
Qed.

(** Locked out: one read of the counter, then the refusal. *)
Lemma Verify_locked t p code w n :
  redis_down w (tick w) = false ->
  fst (GetVerifyFailCount t p w) = (n, None) ->
  maxVerifyFails <= n ->
  Verify c t p code w =
    (Some sms.ErrVerifyTooMany, emit (EvRedis [GET (verifyFailKey t p)] true) w).
Proof.
  intros Hup Hn Hge. unfold Verify, bind. cbn [c New repo sms.GetVerifyFailCount NewCacheRepository].
  rewrite (surjective_pairing (GetVerifyFailCount t p w)), Hn.
  rewrite (GetVerifyFailCount_up _ _ _ Hup). cbn [snd].
  by destruct (Z.leb_spec maxVerifyFails n); [|lia].
Qed.

(** No code under the key: [ErrCodeInvalid], and the counter is not touched. *)
Lemma Verify_absent t p code w n :
  redis_down w (tick w) = false ->
  redis_down w (S (tick w)) = false ->
  fst (GetVerifyFailCount t p w) = (n, None) ->
  n < maxVerifyFails ->
  peek (clock w) (rdb w) (codeKey t p) = None ->
  Verify c t p code w =
    (Some sms.ErrCodeInvalid,
     emit (EvRedis [GET (codeKey t p)] true)
       (emit (EvRedis [GET (verifyFailKey t p)] true) w)).
Proof.
  intros Hup Hup1 Hn Hlt Hcode. unfold Verify, bind.
  cbn [c New repo sms.GetVerifyFailCount sms.GetCode NewCacheRepository].
  rewrite (surjective_pairing (GetVerifyFailCount t p w)), Hn.
  rewrite (GetVerifyFailCount_up _ _ _ Hup). cbn [snd].
  destruct (Z.leb_spec maxVerifyFails n); [lia|].
  rewrite GetCode_up by exact Hup1. cbn [clock rdb emit]. by rewrite Hcode.
Qed.

(** A code that differs from the candidate: [ErrCodeInvalid], after the
    counter went up by the pipeline [INCR; EXPIRE]. *)
Lemma Verify_wrong t p code w n ce :
  redis_down w (tick w) = false ->
  redis_down w (S (tick w)) = false ->
  redis_down w (S (S (tick w))) = false ->
  fst (GetVerifyFailCount t p w) = (n, None) ->
  n < maxVerifyFails ->
  peek (clock w) (rdb w) (codeKey t p) = Some ce ->
  e_val ce <> code ->
  let bump := [INCR (verifyFailKey t p); EXPIRE (verifyFailKey t p) verifyFailTTL] in
  Verify c t p code w =
    (Some sms.ErrCodeInvalid,
     emit (EvRedis bump true)
       (set_rdb (snd (run (clock w) bump (rdb w)))
          (emit (EvRedis [GET (codeKey t p)] true)
             (emit (EvRedis [GET (verifyFailKey t p)] true) w)))).
Proof.
  intros Hup Hup1 Hup2 Hn Hlt Hcode Hne bump. unfold Verify, bind.
  cbn [c New repo sms.GetVerifyFailCount sms.GetCode sms.IncrVerifyFailCount
         NewCacheRepository].
  rewrite (surjective_pairing (GetVerifyFailCount t p w)), Hn.
  rewrite (GetVerifyFailCount_up _ _ _ Hup). cbn [snd].
  destruct (Z.leb_spec maxVerifyFails n); [lia|].
  rewrite GetCode_up by exact Hup1. cbn [clock rdb emit]. rewrite Hcode.
  destruct (String.eqb_spec (e_val ce) code) as [|_]; [done|]. cbn [negb].
  unfold IncrVerifyFailCount. rewrite Pipeline_Exec_up by exact Hup2.
  reflexivity.
Qed.

(** The right code: success, after the code and the counter were deleted. *)
Lemma Verify_right t p code w n ce :
  redis_down w (tick w) = false ->
  redis_down w (S (tick w)) = false ->
  redis_down w (S (S (tick w))) = false ->
  redis_down w (S (S (S (tick w)))) = false ->
  fst (GetVerifyFailCount t p w) = (n, None) ->
  n < maxVerifyFails ->
  peek (clock w) (rdb w) (codeKey t p) = Some ce ->
  e_val ce = code ->
  fst (Verify c t p code w) = None /\
  rdb (snd (Verify c t p code w)) =
    delete (verifyFailKey t p) (delete (codeKey t p) (rdb w)).
Proof.
  intros Hup Hup1 Hup2 Hup3 Hn Hlt Hcode Heq. unfold Verify, bind.
  cbn [c New repo sms.GetVerifyFailCount sms.GetCode sms.DeleteCode
         sms.ResetVerifyFailCount NewCacheRepository].
  rewrite (surjective_pairing (GetVerifyFailCount t p w)), Hn.
  rewrite (GetVerifyFailCount_up _ _ _ Hup). cbn [snd].
  destruct (Z.leb_spec maxVerifyFails n); [lia|].
  rewrite GetCode_up by exact Hup1. cbn [clock rdb emit]. rewrite Hcode.
  destruct (String.eqb_spec (e_val ce) code) as [_|]; [|done]. cbn [negb].
  unfold DeleteCode, ResetVerifyFailCount.
  rewrite redis_facts.Del_up by exact Hup2.
  rewrite redis_facts.Del_up by exact Hup3.
  done.
Qed.
End WithRedisRepository.
End verify_facts.

Module lockout_facts.
Import redis smsrepo volcengine smsrepo_facts verify_facts.

Lemma peek_Some t db k e :
  peek t db k = Some e -> db !! k = Some e /\ live t e = true.
Proof.
  unfold peek. destruct (db !! k) as [e'|]; [|discriminate].
  destruct (live t e') eqn:Hl; [|discriminate]. by intros [= <-].
Qed.

Lemma peek_live t db k e : db !! k = Some e -> live t e = true -> peek t db k = Some e.
Proof. intros H Hl. unfold peek. by rewrite H, Hl. Qed.

Lemma live_until t T e : t <= T -> live T e = true -> live t e = true.
Proof.
  unfold live. destruct (e_deadline e) as [d|]; [|done].
  intros Ht HT. apply Z.ltb_lt in HT. apply Z.ltb_lt. lia.
Qed.

(** The pipeline [INCR k; EXPIRE k ttl] on a missing counter and on a counter
    that holds [n]. *)
Lemma bump_fresh t k ttl db :
  0 < ttl ->
  peek t db k = None ->
  snd (run t [INCR k; EXPIRE k ttl] db) =
    <[k := Entry (strconv.Itoa 1) (Some (t + ttl))]> db.
Proof.
  intros Httl Hp. cbn. rewrite Hp. cbn.
  unfold peek. rewrite lookup_insert_eq. cbn.
  destruct (Z.ltb_spec 0 ttl); [|lia]. cbn. by rewrite insert_insert_eq.
Qed.

Lemma bump_held t k ttl db e n :
  0 < ttl ->
  peek t db k = Some e ->
  strconv.parse (e_val e) = Some n ->
  strconv.MinInt64 <= n < strconv.MaxInt64 ->
  snd (run t [INCR k; EXPIRE k ttl] db) =
    <[k := Entry (strconv.Itoa (n + 1)) (Some (t + ttl))]> db.
Proof.
  intros Httl Hp Hn Hrange. destruct (peek_Some _ _ _ _ Hp) as [_ Hl].
  cbn. rewrite Hp, Hn.
  destruct (Z.leb_spec strconv.MinInt64 n); [|lia].
  destruct (Z.ltb_spec n strconv.MaxInt64); [|lia]. cbn.
  unfold peek. rewrite lookup_insert_eq.
  assert (Hl' : live t (Entry (strconv.Itoa (n + 1)) (e_deadline e)) = true) by exact Hl.
  rewrite Hl'. cbn.
  destruct (Z.ltb_spec 0 ttl); [|lia]. cbn. by rewrite insert_insert_eq.
Qed.

Lemma verifyFailTTL_pos : 0 < verifyFailTTL.
Proof. reflexivity. Qed.

Section WithRedisRepository.
Variable cfg : sms.Config.
Let c : Client := New cfg NewCacheRepository.

Lemma wrong_attempt_first t p code w n0 T ce :
  redis_up w ->
  T < clock w + verifyFailTTL ->
  fst (GetVerifyFailCount t p w) = (n0, None) ->
  0 <= n0 < maxVerifyFails ->
  peek (clock w) (rdb w) (codeKey t p) = Some ce ->
  e_val ce <> code ->
  counter_at_least 1 T t p (snd (Verify c t p code w)) /\
  settled w (snd (Verify c t p code w)) t p.
Proof.
  intros Hr HT Hn Hrange Hcode Hne. subst c.
  rewrite (Verify_wrong cfg t p code w n0 ce) by (try apply Hr; try done; lia).
  cbn [snd]. unfold settled. cbn [clock rdb redis_down emit set_rdb].
  rewrite (GetVerifyFailCount_up _ _ _ (Hr _)) in Hn. cbn [fst] in Hn.
  destruct (peek (clock w) (rdb w) (verifyFailKey t p)) as [e|] eqn:Hp.
  - pose proof (strconv_facts.Atoi_ok _ _ Hn) as Hparse.
    rewrite (bump_held _ _ _ _ e n0 verifyFailTTL_pos Hp Hparse)
      by (unfold strconv.MinInt64, strconv.MaxInt64, maxVerifyFails in *; lia).
    split; [|by rewrite lookup_insert_ne by (apply not_eq_sym, codeKey_verifyFailKey)].
    unfold counter_at_least. cbn [rdb emit set_rdb]. rewrite lookup_insert_eq.
    eexists _, (n0 + 1), _. split; [reflexivity|]. cbn [e_val e_deadline].
    rewrite strconv_facts.parse_Itoa. repeat split; try done; lia.
  - injection Hn as <-.
    rewrite (bump_fresh _ _ _ _ verifyFailTTL_pos Hp).
    split; [|by rewrite lookup_insert_ne by (apply not_eq_sym, codeKey_verifyFailKey)].
    unfold counter_at_least. cbn [rdb emit set_rdb]. rewrite lookup_insert_eq.
    eexists _, 1, _. split; [reflexivity|]. cbn [e_val e_deadline].
    rewrite strconv_facts.parse_Itoa. repeat split; try done.
Qed.

Lemma total_delay_cons d code rest :
  total_delay ((d, code) :: rest) = d + total_delay rest.
Proof. reflexivity. Qed.

Lemma total_delay_nonneg (P : string -> Prop) tries :
  Forall (fun tr => 0 <= fst tr /\ P (snd tr)) tries -> 0 <= total_delay tries.
Proof.
  induction 1 as [|[d code] rest [Hd _] _ IH]; [done|].
  rewrite total_delay_cons. cbn in Hd. lia.
Qed.

Lemma Atoi_of_parse s n :
  strconv.parse s = Some n ->
  strconv.MinInt64 <= n <= strconv.MaxInt64 ->
  strconv.Atoi s = (n, None).
Proof.
  intros Hp Hr. unfold strconv.Atoi. rewrite Hp.
  destruct (Z.ltb_spec n strconv.MinInt64); [lia|].
  destruct (Z.ltb_spec strconv.MaxInt64 n); [lia|]. done.
Qed.

Lemma wrong_attempt_next t p code w k T ce :
  redis_up w ->
  clock w <= T ->
  T < clock w + verifyFailTTL ->
  0 <= k ->
  counter_at_least k T t p w ->
  peek (clock w) (rdb w) (codeKey t p) = Some ce ->
  e_val ce <> code ->
  counter_at_least (Z.min (k + 1) maxVerifyFails) T t p (snd (Verify c t p code w)) /\
  settled w (snd (Verify c t p code w)) t p.
Proof.
  intros Hr Hclock HT Hk (e & n & d & He & Hparse & Hn & Hd & HTd) Hcode Hne. subst c.
  assert (Hp : peek (clock w) (rdb w) (verifyFailKey t p) = Some e).
  { apply peek_live; [done|]. unfold live. rewrite Hd. apply Z.ltb_lt. lia. }
  assert (Hread : fst (GetVerifyFailCount t p w) = (n, None)).
  { rewrite (GetVerifyFailCount_up _ _ _ (Hr _)), Hp. cbn [fst].
    apply Atoi_of_parse; [done|].
    unfold strconv.MinInt64, strconv.MaxInt64, maxVerifyFails in *. lia. }
  destruct (Z.lt_ge_cases n maxVerifyFails) as [Hlt|Hge].
  - rewrite (Verify_wrong cfg t p code w n ce) by (try apply Hr; done).
    cbn [snd]. unfold settled. cbn [clock rdb redis_down emit set_rdb].
    rewrite (bump_held _ _ _ _ e n verifyFailTTL_pos Hp Hparse)
      by (unfold strconv.MinInt64, strconv.MaxInt64, maxVerifyFails in *; lia).
    split; [|by rewrite lookup_insert_ne by (apply not_eq_sym, codeKey_verifyFailKey)].
    unfold counter_at_least. cbn [rdb emit set_rdb]. rewrite lookup_insert_eq.
    eexists _, (n + 1), _. split; [reflexivity|]. cbn [e_val e_deadline].
    rewrite strconv_facts.parse_Itoa. repeat split; try done; lia.
  - rewrite (Verify_locked cfg t p code w n (Hr _) Hread Hge).
    cbn [snd]. unfold settled. cbn [clock rdb redis_down emit]. split; [|done].
    exists e, n, d. cbn [rdb emit]. repeat split; try done; lia.
Qed.

(** A run of wrong attempts drives the counter to the threshold and leaves
    the code in place. *)
Lemma wrong_attempts_run t p T ce tries :
  forall w k,
    redis_up w ->
    0 <= k ->
    Forall (fun tr => 0 <= fst tr /\ snd tr <> e_val ce) tries ->
    clock w + total_delay tries <= T ->
    T < clock w + verifyFailTTL ->
    counter_at_least k T t p w ->
    rdb w !! codeKey t p = Some ce ->
    live T ce = true ->
    let w' := snd (verify_each c t p tries w) in
    counter_at_least (Z.min (k + Z.of_nat (length tries)) maxVerifyFails) T t p w' /\
    clock w' = clock w + total_delay tries /\
    redis_down w' = redis_down w /\
    rdb w' !! codeKey t p = Some ce.
Proof.
  induction tries as [|[d code] rest IH]; intros w k Hr Hk Hall Hsum HT Hcnt Hcode Hlive.
  - cbn. split; [|repeat split; try done; lia].
    destruct Hcnt as (e & n & dl & ? & ? & ? & ? & ?).
    exists e, n, dl. repeat split; try done; lia.
  - inversion Hall as [|? ? [Hd Hne] Hrest]; subst. cbn in Hd, Hne.
    pose proof (total_delay_nonneg (fun s => s <> e_val ce) rest Hrest) as Hpos.
    rewrite total_delay_cons in Hsum.
    assert (Hr' : redis_up (elapse d w)) by exact Hr.
    destruct (wrong_attempt_next t p code (elapse d w) k T ce) as [Hcnt1 (Hc1 & Hd1 & Hk1)];
      try done.
    + cbn. lia.
    + cbn. lia.
    + cbn. apply peek_live; [done|]. apply (live_until _ T); [lia|done].
    + cbn [verify_each]. cbn [clock rdb elapse] in Hc1, Hk1.
      destruct (Verify c t p code (elapse d w)) as [r w1] eqn:HV. cbn [snd] in *.
      destruct (IH w1 (Z.min (k + 1) maxVerifyFails)) as (Hcnt2 & Hc2 & Hd2 & Hk2); try done.
      * intros n. rewrite Hd1. apply Hr.
      * unfold maxVerifyFails. lia.
      * lia.
      * lia.
      * congruence.
      * destruct (verify_each c t p rest w1) as [rs w2]. cbn [snd] in *.
        rewrite total_delay_cons. cbn [length].
        repeat split.
        -- destruct Hcnt2 as (e & n & dl & ? & ? & ? & ? & ?).
           exists e, n, dl. repeat split; try done; unfold maxVerifyFails in *; lia.
        -- lia.
        -- by rewrite Hd2, Hd1.
        -- done.
Qed.
End WithRedisRepository.
End lockout_facts.

Module send_facts.
Import redis smsrepo volcengine smsrepo_facts verify_facts lockout_facts.

Lemma same_store_refl w : same_store w w.
Proof. by repeat split. Qed.

Lemma same_store_emit e w w' : same_store w w' -> same_store w (emit e w').
Proof. intros (? & ? & ? & ?). by repeat split. Qed.

Lemma codeTTL_pos : 0 < codeTTL.
Proof. reflexivity. Qed.

(** The send counters as [GetSendCount] reads them over a live connection:
    the minute counter first, the day counter unless the first read failed. *)
Lemma GetSendCount_run t p w :
  redis_up w ->
  let read key :=
    match peek (clock w) (rdb w) key with
    | Some e => strconv.Atoi (e_val e)
    | None => (0, Some Nil)
    end in
  let failed (r : Z * option error) :=
    is_Some_b (snd r) && negb (errors_Is (snd r) Nil) in
  let w1 := emit (EvRedis [GET (minuteKey t p)] true) w in
  let w2 := emit (EvRedis [GET (dayKey t p)] true) w1 in
  GetSendCount t p w =
    if failed (read (minuteKey t p)) then ((0, 0, snd (read (minuteKey t p))), w1)
    else if failed (read (dayKey t p)) then ((0, 0, snd (read (dayKey t p))), w2)
    else ((fst (read (minuteKey t p)), fst (read (dayKey t p)), None), w2).
Proof.
  intros Hr read failed w1 w2. unfold GetSendCount, bind.
  rewrite (Get_Int_up _ _ (Hr _)). fold (read (minuteKey t p)). fold w1.
  destruct (read (minuteKey t p)) as [mc merr] eqn:Hm. unfold failed at 1. cbn [fst snd].
  destruct (is_Some_b merr && negb (errors_Is merr Nil)); [reflexivity|].
  rewrite Get_Int_up by apply Hr. cbn [clock rdb emit w1]. fold (read (dayKey t p)).
  fold w1. fold w2.
  destruct (read (dayKey t p)) as [dc derr] eqn:Hd. unfold failed. cbn [fst snd].
  by destruct (is_Some_b derr && negb (errors_Is derr Nil)).
Qed.

Section WithRedisRepository.
Variable cfg : sms.Config.
Let c : Client := New cfg NewCacheRepository.

Lemma checkSendLimit_frame t p w :
  redis_up w -> same_store w (snd (checkSendLimit c t p w)).
Proof.
  intros Hr. unfold checkSendLimit, bind. subst c.
  cbn [New repo sms.GetSendCount NewCacheRepository].
  rewrite (GetSendCount_run t p w Hr).
  repeat match goal with
         | |- context [if ?b then _ else _] => destruct b
         end; cbn [snd]; repeat apply same_store_emit; apply same_store_refl.
Qed.

(** A check that lets the send through made exactly two round trips. *)
Lemma checkSendLimit_pass t p w :
  redis_up w ->
  fst (checkSendLimit c t p w) = None ->
  snd (checkSendLimit c t p w) =
    emit (EvRedis [GET (dayKey t p)] true) (emit (EvRedis [GET (minuteKey t p)] true) w).
Proof.
  intros Hr. unfold checkSendLimit, bind. subst c.
  cbn [New repo sms.GetSendCount NewCacheRepository].
  rewrite (GetSendCount_run t p w Hr).
  destruct (is_Some_b _ && negb _) eqn:Hm.
  - cbn [fst snd ret].
    match goal with
    | |- match ?x with _ => _ end = None -> _ => destruct x as [e|]
    end; [discriminate|cbn in Hm; discriminate].
  - clear Hm.
    match goal with
    | |- context [if ?b then _ else _] => destruct b
    end; intros _; reflexivity.
Qed.

(** Drawing the code is one interaction with the random source. *)
Lemma generateCode_run w :
  snd (generateCode w) = emit EvRand w.
Proof.
  unfold generateCode, bind, rand.Int, now, ret.
  by destruct (rand_src w (tick w)).
Qed.

(** A send that succeeds over a live Redis leaves the fresh code under its
    key, for [codeTTL], and no failure counter. *)
Lemma Send_success t p w :
  redis_up w ->
  fst (Send c t p w) = None ->
  exists code,
    rdb (snd (Send c t p w)) !! verifyFailKey t p = None /\
    rdb (snd (Send c t p w)) !! codeKey t p =
      Some (Entry code (Some (clock w + codeTTL))) /\
    clock (snd (Send c t p w)) = clock w /\
    redis_down (snd (Send c t p w)) = redis_down w.
Proof.
  intros Hr. unfold Send.
  destruct (sms.Templates (config c) !! t) as [tpl|]; [|discriminate].
  unfold bind.
  pose proof (checkSendLimit_frame t p w Hr) as (Hc1 & Hdb1 & Hd1 & _).
  destruct (checkSendLimit c t p w) as [[e|] w1]; [discriminate|]. cbn [snd] in *.
  pose proof (generateCode_run w1) as HG.
  destruct (generateCode w1) as [code w2]. cbn [snd] in HG. subst w2.
  subst c. cbn [New repo sms.StoreCode sms.DeleteCode sms.IncrSendCount
                  sms.ResetVerifyFailCount NewCacheRepository].
  unfold StoreCode.
  rewrite redis_facts.Set_up by (cbn [redis_down emit]; rewrite Hd1; apply Hr).
  unfold sendSMS, bind, volcsms.DefaultInstance_Send.
  match goal with
  | |- context [sms_gateway ?a ?b] => destruct (sms_gateway a b) as [[text status]|]
  end; unfold ret; cbv beta iota.
  - unfold DeleteCode.
    rewrite redis_facts.Del_up by (cbn [redis_down emit set_rdb]; rewrite Hd1; apply Hr).
    discriminate.
  - unfold IncrSendCount.
    rewrite Pipeline_Exec_up by (cbn [redis_down emit set_rdb]; rewrite Hd1; apply Hr).
    unfold ResetVerifyFailCount.
    rewrite redis_facts.Del_up by (cbn [redis_down emit set_rdb]; rewrite Hd1; apply Hr).
    intros _. exists code. cbn [snd rdb clock redis_down emit set_rdb].
    rewrite lookup_delete_eq.
    rewrite lookup_delete_ne by (apply not_eq_sym, codeKey_verifyFailKey).
    rewrite run_other.
    + rewrite lookup_insert_eq, Hc1. unfold deadline_of.
      destruct (Z.ltb_spec 0 codeTTL) as [_|H]; [done|by destruct H].
    + repeat constructor; cbn [key_of]; apply not_eq_sym;
        solve [apply codeKey_minuteKey | apply codeKey_dayKey].
Qed.

(** A send whose delivery fails, over a live Redis: [ErrSendFailed], and the
    code just stored is gone again. *)
Lemma Send_delivery_failure t p w tpl failure :
  redis_up w ->
  sms.Templates cfg !! t = Some tpl ->
  fst (checkSendLimit c t p w) = None ->
  sms_gateway w (4 + tick w)%nat = Some failure ->
  fst (Send c t p w) = Some sms.ErrSendFailed /\
  rdb (snd (Send c t p w)) !! codeKey t p = None /\
  rdb (snd (Send c t p w)) !! verifyFailKey t p = rdb w !! verifyFailKey t p /\
  clock (snd (Send c t p w)) = clock w /\
  redis_down (snd (Send c t p w)) = redis_down w.
Proof.
  intros Hr Htpl Hpass Hgw. unfold Send.
  change (sms.Templates (config c)) with (sms.Templates cfg). rewrite Htpl.
  unfold bind.
  rewrite (surjective_pairing (checkSendLimit c t p w)), Hpass.
  rewrite (checkSendLimit_pass t p w Hr Hpass).
  match goal with
  | |- context [generateCode ?x] =>
      pose proof (generateCode_run x) as HG; destruct (generateCode x) as [code w2]
  end.
  cbn [snd] in HG. subst w2.
  subst c. cbn [New repo sms.StoreCode sms.DeleteCode NewCacheRepository].
  unfold StoreCode.
  rewrite redis_facts.Set_up by (cbn [redis_down emit]; apply Hr).
  unfold sendSMS, bind, volcsms.DefaultInstance_Send.
  cbn [sms_gateway tick emit set_rdb].
  replace (S (S (S (S (tick w))))) with (4 + tick w)%nat by reflexivity.
  rewrite Hgw. destruct failure as [text status]. unfold ret. cbv beta iota.
  unfold DeleteCode.
  rewrite redis_facts.Del_up by (cbn [redis_down emit set_rdb]; apply Hr).
  cbn [fst snd rdb clock redis_down emit set_rdb].
  rewrite lookup_delete_eq.
  rewrite lookup_delete_ne by (apply codeKey_verifyFailKey).
  rewrite lookup_insert_ne by (apply codeKey_verifyFailKey).
  done.
Qed.
End WithRedisRepository.
End send_facts.

Module lockout.
Import redis smsrepo volcengine smsrepo_facts verify_facts lockout_facts send_facts.

(** C5. For every (purpose, phone), over the Redis repository:
    - while the failure counter reads at least 5, [Verify] answers
      [ErrVerifyTooMany] after that single read, the stored code is never
      fetched, whatever the candidate;
    - starting below the threshold, five attempts in a row with codes other
      than the stored, still valid one (made within the counter's lifetime)
      lock the pair: the sixth attempt answers [ErrVerifyTooMany], whatever
      the candidate, the stored code included;
    - a [Send] that succeeds deletes the counter: it then reads zero, and the
      code just sent verifies. *)
Theorem lockout_after_five_failures (cfg : sms.Config) (t p : string) :
  let c := New cfg NewCacheRepository in
  (forall w n code,
     redis_down w (tick w) = false ->
     fst (GetVerifyFailCount t p w) = (n, None) ->
     maxVerifyFails <= n ->
     Verify c t p code w =
       (Some sms.ErrVerifyTooMany, emit (EvRedis [GET (verifyFailKey t p)] true) w)) /\
  (forall w d1 c1 rest n0 ce d6 code6,
     length rest = 4%nat ->
     redis_up w ->
     fst (GetVerifyFailCount t p (elapse d1 w)) = (n0, None) ->
     0 <= n0 < maxVerifyFails ->
     rdb w !! codeKey t p = Some ce ->
     live (clock w + total_delay ((d1, c1) :: rest) + d6) ce = true ->
     Forall (fun tr => 0 <= fst tr /\ snd tr <> e_val ce) ((d1, c1) :: rest) ->
     0 <= d6 ->
     total_delay rest + d6 < verifyFailTTL ->
     fst (Verify c t p code6
            (elapse d6 (snd (verify_each c t p ((d1, c1) :: rest) w)))) =
       Some sms.ErrVerifyTooMany) /\
  (forall w d,
     redis_up w ->
     fst (Send c t p w) = None ->
     0 <= d < codeTTL ->
     let w' := elapse d (snd (Send c t p w)) in
     fst (GetVerifyFailCount t p w') = (0, None) /\
     exists code,
       peek (clock w') (rdb w') (codeKey t p) =
         Some (Entry code (Some (clock w + codeTTL))) /\
       fst (Verify c t p code w') = None).
Proof.
  intros c. split; [|split].
  - intros w n code Hup Hn Hge. exact (Verify_locked cfg t p code w n Hup Hn Hge).
  - intros w d1 c1 rest n0 ce d6 code6 Hlen Hr Hn0 Hrange Hcode Hlive Hall Hd6 Hspan.
    inversion Hall as [|? ? [Hd1 Hne1] Hrest]; subst. cbn [fst snd] in Hd1, Hne1.
    pose proof (total_delay_nonneg (fun s => s <> e_val ce) rest Hrest) as Hpos.
    rewrite total_delay_cons in Hlive.
    set (T := clock w + (d1 + total_delay rest) + d6) in *.
    destruct (wrong_attempt_first cfg t p c1 (elapse d1 w) n0 T ce)
      as [Hcnt1 (Hc1 & Hdn1 & Hk1)]; try done.
    + cbn. unfold T. lia.
    + cbn. apply peek_live; [done|]. apply (live_until _ T); [unfold T; lia|done].
    + cbn [verify_each]. fold c in Hcnt1, Hc1, Hdn1, Hk1.
      destruct (Verify c t p c1 (elapse d1 w)) as [r1 w1]. cbn [snd] in *.
      cbn [clock rdb redis_down elapse] in Hc1, Hdn1, Hk1.
      destruct (wrong_attempts_run cfg t p T ce rest w1 1)
        as (Hcnt & Hc5 & Hdn5 & Hk5); try done.
      * intros n. rewrite Hdn1. apply Hr.
      * unfold T. lia.
      * unfold T. lia.
      * congruence.
      * fold c in Hcnt, Hc5, Hdn5, Hk5.
        destruct (verify_each c t p rest w1) as [rs w5]. cbn [snd] in *.
        destruct Hcnt as (e & n & dl & He & Hparse & Hn & Hdl & HT).
        rewrite Hlen in Hn. unfold maxVerifyFails in Hn.
        assert (n = 5) as -> by lia.
        assert (Hclock : clock (elapse d6 w5) = T) by (cbn; unfold T; lia).
        assert (Hup : forall k, redis_down (elapse d6 w5) k = false).
        { intros k. cbn. rewrite Hdn5, Hdn1. apply Hr. }
        unfold c. rewrite (Verify_locked cfg t p code6 (elapse d6 w5) 5); try done.
        rewrite (GetVerifyFailCount_up _ _ _ (Hup _)). cbn [fst]. rewrite Hclock.
        cbn [rdb elapse]. erewrite peek_live; [|exact He|].
        -- by apply Atoi_of_parse.
        -- unfold live. rewrite Hdl. by apply Z.ltb_lt.
  - intros w d Hr Hsent Hd w'.
    destruct (Send_success cfg t p w Hr Hsent) as (code & Hfail & Hcode & Hclock & Hdown).
    fold c in Hfail, Hcode, Hclock, Hdown.
    assert (Hup : forall k, redis_down w' k = false).
    { intros k. unfold w'. cbn. rewrite Hdown. apply Hr. }
    assert (Hread : fst (GetVerifyFailCount t p w') = (0, None)).
    { rewrite (GetVerifyFailCount_up _ _ _ (Hup _)). unfold w', peek. cbn [fst rdb elapse].
      by rewrite Hfail. }
    assert (Hpeek : peek (clock w') (rdb w') (codeKey t p) =
                    Some (Entry code (Some (clock w + codeTTL)))).
    { apply peek_live; [exact Hcode|]. unfold live, w'. cbn. apply Z.ltb_lt. lia. }
    split; [exact Hread|]. exists code. split; [exact Hpeek|].
    refine (proj1 (Verify_right cfg t p code w' 0
                     (Entry code (Some (clock w + codeTTL)))
                     (Hup _) (Hup _) (Hup _) (Hup _) Hread _ Hpeek eq_refl)).
    unfold maxVerifyFails. lia.
Qed.
End lockout.

Module lockout_examples.
Import redis smsrepo volcengine scenario.

Example code_sent : rdb sent !! codeKey "login" phone = Some stored.
Proof. vm_compute. reflexivity. Qed.

Example five_wrong_guesses :
  fst (verify_each client "login" phone (guess :: repeat guess 4) sent) =
    repeat (Some sms.ErrCodeInvalid) 5.
Proof. vm_compute. reflexivity. Qed.

(** The lockout at Alice's phone: five wrong guesses after a send, the sixth
    attempt with the right code, then a new send two minutes later. *)
Lemma lockout_after_five_failures_witness :
  let after := elapse (10 * time.Second) locked in
  let later := elapse (2 * time.Minute) locked in
  (redis_down after (tick after) = false /\
   fst (GetVerifyFailCount "login" phone after) = (5, None) /\
   maxVerifyFails <= 5 /\
   length (repeat guess 4) = 4%nat /\
   redis_up sent /\
   fst (GetVerifyFailCount "login" phone (elapse (fst guess) sent)) = (0, None) /\
   0 <= 0 < maxVerifyFails /\
   rdb sent !! codeKey "login" phone = Some stored /\
   live (clock sent + total_delay (guess :: repeat guess 4) + 10 * time.Second) stored = true /\
   Forall (fun tr => 0 <= fst tr /\ snd tr <> e_val stored) (guess :: repeat guess 4) /\
   0 <= 10 * time.Second /\
   total_delay (repeat guess 4) + 10 * time.Second < verifyFailTTL /\
   redis_up later /\
   fst (Send client "login" phone later) = None /\
   0 <= time.Minute < codeTTL) /\
  Verify client "login" phone "482913" after =
    (Some sms.ErrVerifyTooMany,
     emit (EvRedis [GET (verifyFailKey "login" phone)] true) after) /\
  fst (Verify client "login" phone "482913"
         (elapse (10 * time.Second)
            (snd (verify_each client "login" phone (guess :: repeat guess 4) sent)))) =
    Some sms.ErrVerifyTooMany /\
  (let w' := elapse time.Minute (snd (Send client "login" phone later)) in
   fst (GetVerifyFailCount "login" phone w') = (0, None) /\
   exists code,
     peek (clock w') (rdb w') (codeKey "login" phone) =
       Some (Entry code (Some (clock later + codeTTL))) /\
     fst (Verify client "login" phone code w') = None).
Proof.
  intros after later.
  assert (A1 : redis_down after (tick after) = false) by (vm_compute; reflexivity).
  assert (A2 : fst (GetVerifyFailCount "login" phone after) = (5, None))
    by (vm_compute; reflexivity).
  assert (A3 : maxVerifyFails <= 5) by (vm_compute; discriminate).
  assert (B1 : length (repeat guess 4) = 4%nat) by reflexivity.
  assert (B2 : redis_up sent) by (intros n; vm_compute; reflexivity).
  assert (B3 : fst (GetVerifyFailCount "login" phone (elapse (fst guess) sent)) = (0, None))
    by (vm_compute; reflexivity).
  assert (B4 : 0 <= 0 < maxVerifyFails) by (unfold maxVerifyFails; lia).
  assert (B5 : rdb sent !! codeKey "login" phone = Some stored)
    by (vm_compute; reflexivity).
  assert (B6 : live (clock sent + total_delay (guess :: repeat guess 4) + 10 * time.Second)
                 stored = true) by (vm_compute; reflexivity).
  assert (B7 : Forall (fun tr => 0 <= fst tr /\ snd tr <> e_val stored)
                 (guess :: repeat guess 4)).
  { repeat constructor; vm_compute; discriminate. }
  assert (B8 : 0 <= 10 * time.Second) by (vm_compute; discriminate).
  assert (B9 : total_delay (repeat guess 4) + 10 * time.Second < verifyFailTTL)
    by (vm_compute; reflexivity).
  assert (C1 : redis_up later) by (intros n; vm_compute; reflexivity).
  assert (C2 : fst (Send client "login" phone later) = None) by (vm_compute; reflexivity).
  assert (C3 : 0 <= time.Minute < codeTTL)
    by (unfold codeTTL, time.Minute, time.Second; lia).
  split.
  { exact (conj A1 (conj A2 (conj A3 (conj B1 (conj B2 (conj B3 (conj B4 (conj B5
             (conj B6 (conj B7 (conj B8 (conj B9 (conj C1 (conj C2 C3)))))))))))))). }
  destruct (lockout.lockout_after_five_failures smsConfig "login" phone) as (A & B & C).
  split; [exact (A after 5 "482913" A1 A2 A3)|].
  split; [exact (B sent (fst guess) (snd guess) (repeat guess 4) 0 stored
                   (10 * time.Second) "482913" B1 B2 B3 B4 B5 B6 B7 B8 B9)|].
  exact (C later time.Minute C1 C2 C3).
Defined.
End lockout_examples.

(** ** Verification codes, archv2 *)

Module smsv2_facts.
Import redis scenario.

(** C10. In archv2, [Verify] accepts the candidate "777777" for every phone
    and purpose, on every client and in every world: it returns [nil] and the
    world is left exactly as it was, no key read, written or deleted. *)
Theorem Verify_test_code_always_passes
    (c : smsv2.VolcengineClient) (smsType : smsv2.Type_) (phone : string) (w : World) :
  smsv2.Verify c smsType phone "777777" w = (None, w).
Proof. reflexivity. Qed.

(** C3 in archv2.  With no code stored, [Verify] reports that the code has
    expired or does not exist; with another code stored, that the code is
    incorrect.  The two errors carry different texts. *)
Theorem Verify_tells_missing_from_wrong :
  rdb world0 !! smsv2.getRedisKey smsv2.logicalKeyFormat phone "login" = None /\
  rdb sent2 !! smsv2.getRedisKey smsv2.logicalKeyFormat phone "login" =
    Some (Entry "482913" (Some (clock world0 + 5 * time.Minute))) /\
  fst (smsv2.Verify client2 "login" phone "000000" world0) =
    Some (fmt.Errorf "验证码已过期或不存在" []) /\
  fst (smsv2.Verify client2 "login" phone "000000" sent2) =
    Some (fmt.Errorf "验证码不正确" []) /\
  fst (smsv2.Verify client2 "login" phone "000000" world0) <>
    fst (smsv2.Verify client2 "login" phone "000000" sent2).
Proof. repeat split; try (vm_compute; reflexivity). vm_compute. discriminate. Qed.

(** C4 in archv2.  When the gateway refuses the message, [Send] fails, but
    the code it stored stays under its key, and a later [Verify] with that
    code succeeds. *)
Theorem Send_failure_leaves_code_verifiable :
  let w := gateway_down world0 in
  let w' := snd (smsv2.Send client2 "login" phone w) in
  fst (smsv2.Send client2 "login" phone w) = Some (fmt.Errorf "发送短信失败" []) /\
  rdb w' !! smsv2.getRedisKey smsv2.logicalKeyFormat phone "login" =
    Some (Entry "482913" (Some (clock w + 5 * time.Minute))) /\
  fst (smsv2.Verify client2 "login" phone "482913" (elapse time.Minute w')) = None.
Proof. repeat split; vm_compute; reflexivity. Qed.

(** C8 in archv2.  For a purpose without a template, [Send] fails only after
    it has stored a code: the keyspace, empty before, holds the code
    afterwards, and the error is not the [ErrTemplateNotFound] sentinel. *)
Theorem Send_stores_before_template_check :
  let w' := snd (smsv2.Send client2 "invoice" phone world0) in
  smsv2.Templates (smsv2.config client2) !! "invoice" = None /\
  rdb world0 = ∅ /\
  fst (smsv2.Send client2 "invoice" phone world0) =
    Some (fmt.Errorf "unsupported sms type: %s" ["invoice"]) /\
  fst (smsv2.Send client2 "invoice" phone world0) <> Some sms.ErrTemplateNotFound /\
  rdb w' !! smsv2.getRedisKey smsv2.logicalKeyFormat phone "invoice" =
    Some (Entry "482913" (Some (clock world0 + 5 * time.Minute))) /\
  trace w' =
    [EvRedis [GET (smsv2.getRedisKey smsv2.minuteKeyFormat phone "invoice")] true;
     EvRedis [GET (smsv2.getRedisKey smsv2.dayKeyFormat phone "invoice")] true;
     EvRand;
     EvRedis [SET (smsv2.getRedisKey smsv2.logicalKeyFormat phone "invoice") "482913"
                (5 * time.Minute)] true].
Proof. repeat split; try (vm_compute; reflexivity). vm_compute. discriminate. Qed.
End smsv2_facts.

(** ** Verification codes, arch3: what the sibling implementation does *)

Module arch3_facts.
Import redis smsrepo volcengine smsrepo_facts verify_facts lockout_facts send_facts.

Section WithRedisRepository.
Variable cfg : sms.Config.
Let c : Client := New cfg NewCacheRepository.

(** No template for the purpose: [ErrTemplateNotFound], and the world is
    exactly as before, nothing was read, stored or counted. *)
Lemma Send_template_missing t p w :
  sms.Templates cfg !! t = None ->
  Send c t p w = (Some sms.ErrTemplateNotFound, w).
Proof. intros H. unfold Send. cbn [c New config]. by rewrite H. Qed.

(** Below the lockout threshold, a missing code and a wrong code get the
    same answer. *)
Lemma Verify_missing_or_wrong t p code w n :
  redis_up w ->
  fst (GetVerifyFailCount t p w) = (n, None) ->
  n < maxVerifyFails ->
  match peek (clock w) (rdb w) (codeKey t p) with
  | None => True
  | Some stored => e_val stored <> code
  end ->
  fst (Verify c t p code w) = Some sms.ErrCodeInvalid.
Proof.
  intros Hr Hn Hlt Hcase. subst c.
  destruct (peek (clock w) (rdb w) (codeKey t p)) as [stored|] eqn:Hp.
  - by rewrite (Verify_wrong cfg t p code w n stored) by (try apply Hr; done).
  - by rewrite (Verify_absent cfg t p code w n) by (try apply Hr; done).
Qed.

(** In every world, whatever the counter holds and whether or not Redis
    answers: with the code missing and with another code stored, [Verify]
    returns the same error. *)
Lemma Verify_indistinguishable t p code w stored :
  e_val stored <> code ->
  fst (Verify c t p code (set_rdb (delete (codeKey t p) (rdb w)) w)) =
  fst (Verify c t p code (set_rdb (<[codeKey t p := stored]> (rdb w)) w)).
Proof.
  intros Hne. subst c. unfold Verify, bind.
  cbn [New repo sms.GetVerifyFailCount sms.GetCode sms.IncrVerifyFailCount
         NewCacheRepository].
  set (w1 := set_rdb (delete (codeKey t p) (rdb w)) w).
  set (w2 := set_rdb (<[codeKey t p := stored]> (rdb w)) w).
  assert (Hfail : peek (clock w1) (rdb w1) (verifyFailKey t p) =
                  peek (clock w2) (rdb w2) (verifyFailKey t p)).
  { unfold peek, w1, w2. cbn [clock rdb set_rdb].
    rewrite lookup_delete_ne by apply codeKey_verifyFailKey.
    by rewrite lookup_insert_ne by apply codeKey_verifyFailKey. }
  destruct (redis_down w (tick w)) eqn:Hd0.
  - rewrite !GetVerifyFailCount_down by exact Hd0. reflexivity.
  - rewrite !GetVerifyFailCount_up by exact Hd0. rewrite Hfail.
    destruct (match peek (clock w2) (rdb w2) (verifyFailKey t p) with
              | Some e => strconv.Atoi (e_val e)
              | None => (0, None)
              end) as [n [e|]]; [reflexivity|].
    destruct (maxVerifyFails <=? n); [reflexivity|].
    destruct (redis_down w (S (tick w))) eqn:Hd1.
    + rewrite !GetCode_down by exact Hd1. reflexivity.
    + rewrite !GetCode_up by exact Hd1.
      cbn [clock rdb emit set_rdb w1 w2].
      unfold peek at 1. rewrite lookup_delete_eq.
      unfold peek. rewrite lookup_insert_eq.
      destruct (live (clock w) stored); [|reflexivity].
      destruct (String.eqb_spec (e_val stored) code) as [|_]; [done|]. cbn [negb].
      match goal with
      | |- _ = fst (let (_, w') := ?m in _) => by destruct m
      end.
Qed.

(** After a send whose delivery failed, the code cannot be verified: below
    the lockout threshold every candidate gets [ErrCodeInvalid]. *)
Lemma delivery_failure_code_unverifiable t p w tpl failure d code n :
  redis_up w ->
  sms.Templates cfg !! t = Some tpl ->
  fst (checkSendLimit c t p w) = None ->
  sms_gateway w (4 + tick w)%nat = Some failure ->
  0 <= d ->
  fst (GetVerifyFailCount t p (elapse d (snd (Send c t p w)))) = (n, None) ->
  n < maxVerifyFails ->
  fst (Send c t p w) = Some sms.ErrSendFailed /\
  rdb (snd (Send c t p w)) !! codeKey t p = None /\
  fst (Verify c t p code (elapse d (snd (Send c t p w)))) = Some sms.ErrCodeInvalid.
Proof.
  intros Hr Htpl Hpass Hgw Hd Hn Hlt.
  destruct (Send_delivery_failure cfg t p w tpl failure Hr Htpl Hpass Hgw)
    as (Hres & Hgone & _ & Hclock & Hdown).
  fold c in Hres, Hgone, Hclock, Hdown.
  split; [exact Hres|]. split; [exact Hgone|].
  apply (Verify_missing_or_wrong t p code _ n); try done.
  - intros k. cbn. rewrite Hdown. apply Hr.
  - unfold peek. cbn [rdb clock elapse]. by rewrite Hgone.
Qed.
End WithRedisRepository.
End arch3_facts.

Module arch3_properties.
Import redis smsrepo volcengine arch3_facts.

(** arch3 [Client.Verify] gives no hint whether a code is stored.  With the
    code missing and with another code stored, the returned error is the
    same in every world (whatever the counter holds, whether or not Redis
    answers); over a Redis that answers and below the lockout threshold it
    is [ErrCodeInvalid] in both. *)
Theorem Verify_uniform_error
    (cfg : sms.Config) (t p code : string) (w : World) (stored : entry) (n : Z) :
  let c := New cfg NewCacheRepository in
  let missing := set_rdb (delete (codeKey t p) (rdb w)) w in
  let wrong := set_rdb (<[codeKey t p := stored]> (rdb w)) w in
  e_val stored <> code ->
  fst (Verify c t p code missing) = fst (Verify c t p code wrong) /\
  (redis_up w ->
   fst (GetVerifyFailCount t p w) = (n, None) ->
   n < maxVerifyFails ->
   fst (Verify c t p code missing) = Some sms.ErrCodeInvalid /\
   fst (Verify c t p code wrong) = Some sms.ErrCodeInvalid).
Proof.
  intros c missing wrong Hne.
  pose proof (Verify_indistinguishable cfg t p code w stored Hne) as Hsame.
  split; [exact Hsame|]. intros Hr Hn Hlt.
  assert (Hm : fst (Verify c t p code missing) = Some sms.ErrCodeInvalid).
  { apply (Verify_missing_or_wrong cfg t p code missing n); try done.
    - rewrite smsrepo_facts.GetVerifyFailCount_up by apply Hr.
      rewrite smsrepo_facts.GetVerifyFailCount_up in Hn by apply Hr.
      cbn [fst] in *. unfold peek, missing in *. cbn [clock rdb set_rdb].
      by rewrite lookup_delete_ne by apply smsrepo_facts.codeKey_verifyFailKey.
    - unfold peek, missing. cbn [clock rdb set_rdb]. by rewrite lookup_delete_eq. }
  split; [exact Hm|]. fold c missing wrong in Hsame. by rewrite <- Hsame.
Qed.

(** arch3 [Client.Send] cleans up after a failed delivery.  Over a Redis that
    answers, with a template configured and the send limits passed, a
    gateway failure makes [Send] return [ErrSendFailed] with the code just
    stored deleted again; any later [Verify] below the lockout threshold
    returns [ErrCodeInvalid], whatever the candidate. *)
Theorem Send_failure_cleans_up
    (cfg : sms.Config) (t p tpl code : string) (w : World)
    (failure : string * Z) (d n : Z) :
  let c := New cfg NewCacheRepository in
  redis_up w ->
  sms.Templates cfg !! t = Some tpl ->
  fst (checkSendLimit c t p w) = None ->
  sms_gateway w (4 + tick w)%nat = Some failure ->
  0 <= d ->
  fst (GetVerifyFailCount t p (elapse d (snd (Send c t p w)))) = (n, None) ->
  n < maxVerifyFails ->
  fst (Send c t p w) = Some sms.ErrSendFailed /\
  rdb (snd (Send c t p w)) !! codeKey t p = None /\
  fst (Verify c t p code (elapse d (snd (Send c t p w)))) = Some sms.ErrCodeInvalid.
Proof.
  intros c Hr Htpl Hpass Hgw Hd Hn Hlt.
  exact (delivery_failure_code_unverifiable cfg t p w tpl failure d code n
           Hr Htpl Hpass Hgw Hd Hn Hlt).
Qed.

(** arch3 [Client.Send] looks the template up first: without a template for
    the purpose it returns [ErrTemplateNotFound] and leaves the world exactly
    as it was, no key read or written, no interaction recorded. *)
Theorem Send_checks_template_first
    (cfg : sms.Config) (t p : string) (w : World) :
  sms.Templates cfg !! t = None ->
  Send (New cfg NewCacheRepository) t p w = (Some sms.ErrTemplateNotFound, w).
Proof. intros H. exact (Send_template_missing cfg t p w H). Qed.
End arch3_properties.

Module arch3_properties_examples.
Import redis smsrepo volcengine scenario.

Lemma Verify_uniform_error_witness :
  (e_val stored <> "000000" /\ redis_up world0 /\
   fst (GetVerifyFailCount "login" phone world0) = (0, None) /\
   0 < maxVerifyFails) /\
  let missing := set_rdb (delete (codeKey "login" phone) (rdb world0)) world0 in
  let wrong := set_rdb (<[codeKey "login" phone := stored]> (rdb world0)) world0 in
  fst (Verify client "login" phone "000000" missing) =
    fst (Verify client "login" phone "000000" wrong) /\
  fst (Verify client "login" phone "000000" missing) = Some sms.ErrCodeInvalid /\
  fst (Verify client "login" phone "000000" wrong) = Some sms.ErrCodeInvalid.
Proof.
  assert (H1 : e_val stored <> "000000") by (vm_compute; discriminate).
  assert (H2 : redis_up world0) by (intros n; vm_compute; reflexivity).
  assert (H3 : fst (GetVerifyFailCount "login" phone world0) = (0, None))
    by (vm_compute; reflexivity).
  assert (H4 : 0 < maxVerifyFails) by (unfold maxVerifyFails; lia).
  split; [exact (conj H1 (conj H2 (conj H3 H4)))|].
  destruct (arch3_properties.Verify_uniform_error
              smsConfig "login" phone "000000" world0 stored 0 H1) as [A B].
  destruct (B H2 H3 H4) as [B1 B2].
  exact (conj A (conj B1 B2)).
Defined.

Lemma Send_failure_cleans_up_witness :
  let w := gateway_down world0 in
  (redis_up w /\
   sms.Templates smsConfig !! "login" = Some "T-login" /\
   fst (checkSendLimit client "login" phone w) = None /\
   sms_gateway w (4 + tick w)%nat = Some ("gateway timeout", 504) /\
   0 <= time.Minute /\
   fst (GetVerifyFailCount "login" phone
          (elapse time.Minute (snd (Send client "login" phone w)))) = (0, None) /\
   0 < maxVerifyFails) /\
  fst (Send client "login" phone w) = Some sms.ErrSendFailed /\
  rdb (snd (Send client "login" phone w)) !! codeKey "login" phone = None /\
  fst (Verify client "login" phone "482913"
         (elapse time.Minute (snd (Send client "login" phone w)))) =
    Some sms.ErrCodeInvalid.
Proof.
  intros w.
  assert (H1 : redis_up w) by (intros n; vm_compute; reflexivity).
  assert (H2 : sms.Templates smsConfig !! "login" = Some "T-login")
    by (vm_compute; reflexivity).
  assert (H3 : fst (checkSendLimit client "login" phone w) = None)
    by (vm_compute; reflexivity).
  assert (H4 : sms_gateway w (4 + tick w)%nat = Some ("gateway timeout", 504))
    by (vm_compute; reflexivity).
  assert (H5 : 0 <= time.Minute) by (unfold time.Minute, time.Second; lia).
  assert (H6 : fst (GetVerifyFailCount "login" phone
                      (elapse time.Minute (snd (Send client "login" phone w))))
               = (0, None)) by (vm_compute; reflexivity).
  assert (H7 : 0 < maxVerifyFails) by (unfold maxVerifyFails; lia).
  split; [exact (conj H1 (conj H2 (conj H3 (conj H4 (conj H5 (conj H6 H7))))))|].
  exact (arch3_properties.Send_failure_cleans_up
           smsConfig "login" phone "T-login" "482913" w ("gateway timeout", 504)
           time.Minute 0 H1 H2 H3 H4 H5 H6 H7).
Defined.

Lemma Send_checks_template_first_witness :
  sms.Templates smsConfig !! "invoice" = None /\
  Send client "invoice" phone world0 = (Some sms.ErrTemplateNotFound, world0).
Proof.
  assert (H : sms.Templates smsConfig !! "invoice" = None) by (vm_compute; reflexivity).
  split; [exact H|].
  exact (arch3_properties.Send_checks_template_first smsConfig "invoice" phone world0 H).
Defined.
End arch3_properties_examples.

(** ** The scenarios the specification lists, run on the model *)

Module spec_scenarios.
Import redis smsrepo volcengine scenario.

(** A second send within the minute is refused. *)
Example second_send_too_frequent :
  fst (Send client "login" phone (elapse (30 * time.Second) sent)) =
    Some sms.ErrSendTooFrequent.
Proof. vm_compute. reflexivity. Qed.

(** Six sends in a day pass, the seventh is refused. *)
Example seventh_send_daily_limit :
  fst (sends 6 world0) = repeat None 6 /\
  fst (Send client "login" phone (snd (sends 6 world0))) =
    Some sms.ErrDailyLimitExceeded.
Proof. split; vm_compute; reflexivity. Qed.

(** Phone 13800000000, purpose login, code 482913: a wrong guess, the right
    code, and the right code again. *)
Example verify_once :
  let w1 := elapse (10 * time.Second) sent in
  let w2 := snd (Verify client "login" phone "000000" w1) in
  let w3 := snd (Verify client "login" phone "482913" w2) in
  fst (Verify client "login" phone "000000" w1) = Some sms.ErrCodeInvalid /\
  fst (GetVerifyFailCount "login" phone w2) = (1, None) /\
  fst (Verify client "login" phone "482913" w2) = None /\
  rdb w3 !! codeKey "login" phone = None /\
  fst (GetVerifyFailCount "login" phone w3) = (0, None) /\
  fst (Verify client "login" phone "482913" w3) = Some sms.ErrCodeInvalid.
Proof. repeat split; vm_compute; reflexivity. Qed.

(** A revoked id reads as revoked until the entry's expiration has passed. *)
Example revoked_until_ttl :
  let w := snd (jwt.AddTokenToBlacklist manager "uuid-9" (30 * time.Second) world0) in
  fst (jwt.IsTokenBlacklisted manager "uuid-9" (elapse (29 * time.Second) w)) =
    (true, None) /\
  fst (jwt.IsTokenBlacklisted manager "uuid-9" (elapse (30 * time.Second) w)) =
    (false, None).
Proof. split; vm_compute; reflexivity. Qed.
End spec_scenarios.

(** * Properties of the surrounding code *)

(** ** The cookie domain *)

Module strings_facts.
Import strings.

Lemma app_cons a (s t : string) : String a s +:+ t = String a (s +:+ t).
Proof. reflexivity. Qed.

Lemma app_nil_l (t : string) : "" +:+ t = t.
Proof. reflexivity. Qed.

Lemma app_nil_r (s : string) : s +:+ "" = s.
Proof. induction s as [|a s IH]; [done|]. by rewrite app_cons, IH. Qed.

Lemma app_assoc (a b c : string) : (a +:+ b) +:+ c = a +:+ (b +:+ c).
Proof. induction a as [|x a IH]; [done|]. by rewrite !app_cons, IH. Qed.

Lemma Split_nonempty s c : Split s c <> [].
Proof.
  destruct s as [|a r]; cbn; [done|].
  destruct (Ascii.eqb a c); [done|]. by destruct (Split r c).
Qed.

Lemma Join_cons a b rest sep :
  Join (a :: b :: rest) sep = a +:+ sep +:+ Join (b :: rest) sep.
Proof. reflexivity. Qed.

(** Splitting and joining again gives the string back. *)
Lemma Join_Split s c : Join (Split s c) (String c "") = s.
Proof.
  induction s as [|a r IH]; [done|]. cbn [Split].
  pose proof (Split_nonempty r c) as Hn.
  destruct (Ascii.eqb_spec a c) as [->|Hne].
  - destruct (Split r c) as [|p ps]; [done|].
    rewrite Join_cons, IH. reflexivity.
  - destruct (Split r c) as [|p ps]; [done|].
    destruct ps as [|q qs].
    + cbn [Join] in *. by rewrite IH.
    + rewrite Join_cons in *. rewrite app_cons. by rewrite IH.
Qed.

(** The pieces of a split do not hold the separator. *)
Lemma Split_pieces s c : Forall (fun p => Index p c = -1) (Split s c).
Proof.
  induction s as [|a r IH]; [by repeat constructor|]. cbn [Split].
  destruct (Ascii.eqb_spec a c) as [->|Hne].
  - by constructor.
  - pose proof (Split_nonempty r c) as Hn.
    destruct (Split r c) as [|p ps]; [done|].
    inversion IH as [|? ? Hp Hps]; subst. constructor; [|done].
    cbn [Index]. destruct (Ascii.eqb_spec a c); [done|]. by rewrite Hp.
Qed.

(** A separator between two strings separates their pieces. *)
Lemma Split_app s t c :
  Split (s +:+ String c t) c =
    match Split s c with
    | [] => Split t c
    | _ => Split s c ++ Split t c
    end.
Proof.
  pose proof (Split_nonempty s c) as Hn0.
  induction s as [|a r IH].
  - rewrite app_nil_l. cbn [Split]. by rewrite Ascii.eqb_refl.
  - rewrite app_cons. cbn [Split].
    pose proof (Split_nonempty r c) as Hn.
    destruct (Ascii.eqb_spec a c) as [->|Hne].
    + rewrite IH by done. by destruct (Split r c).
    + rewrite IH by done. by destruct (Split r c) as [|p ps].
Qed.

Lemma Split_app' s t c : Split (s +:+ String c t) c = Split s c ++ Split t c.
Proof.
  rewrite Split_app. pose proof (Split_nonempty s c). by destruct (Split s c).
Qed.

Lemma Index_range s c : Index s c = -1 \/ 0 <= Index s c < len s.
Proof.
  unfold len. induction s as [|a r IH]; [by left|]. cbn [Index String.length].
  destruct (Ascii.eqb a c); [right; lia|].
  destruct (Z.eqb_spec (Index r c) (-1)); [by left|right; lia].
Qed.

(** A string without the separator is one piece. *)
Lemma Split_one s c : Index s c = -1 -> Split s c = [s].
Proof.
  induction s as [|a r IH]; [done|]. cbn [Index Split].
  destruct (Ascii.eqb_spec a c); [done|].
  pose proof (Index_range r c) as Hr.
  destruct (Z.eqb_spec (Index r c) (-1)) as [H|H]; intros Hx; [|lia].
  by rewrite (IH H).
Qed.

(** Joining labels and splitting again gives the labels back. *)
Lemma Split_Join l c :
  l <> [] -> Forall (fun p => Index p c = -1) l ->
  Split (Join l (String c "")) c = l.
Proof.
  induction l as [|a rest IH]; [done|]. intros _ Hall.
  inversion Hall as [|? ? Ha Hrest]; subst.
  destruct rest as [|b rest'].
  - cbn [Join]. by apply Split_one.
  - rewrite Join_cons. rewrite app_cons, app_nil_l.
    rewrite Split_app'. rewrite (Split_one _ _ Ha). cbn [app].
    by rewrite IH.
Qed.

Lemma Join_app l1 l2 sep :
  l1 <> [] -> l2 <> [] ->
  Join (l1 ++ l2) sep = Join l1 sep +:+ sep +:+ Join l2 sep.
Proof.
  induction l1 as [|a rest IH]; [done|]. intros _ H2.
  destruct rest as [|b rest'].
  - cbn [app Join]. destruct l2; [done|]. reflexivity.
  - change ((a :: b :: rest') ++ l2) with (a :: b :: (rest' ++ l2)).
    rewrite !Join_cons. change (b :: rest' ++ l2) with ((b :: rest') ++ l2).
    rewrite IH by done. by rewrite <- !app_assoc.
Qed.
End strings_facts.

Module domain_facts.
Import strings strings_facts jwtcookie.

Lemma Index_cons_none a s c :
  Index (String a s) c = -1 <-> a <> c /\ Index s c = -1.
Proof.
  cbn [Index]. pose proof (Index_range s c) as Hr.
  destruct (Ascii.eqb_spec a c) as [->|Hne].
  - split; [lia|]. by intros [? _].
  - destruct (Z.eqb_spec (Index s c) (-1)) as [H|H].
    + by split.
    + split; [lia|]. by intros [_ ?].
Qed.

Lemma Index_app_none s t c :
  Index s c = -1 -> Index t c = -1 -> Index (s +:+ t) c = -1.
Proof.
  induction s as [|a r IH]; [done|]. rewrite app_cons, !Index_cons_none.
  intros [Ha Hr] Ht. split; [done|by apply IH].
Qed.

Lemma host_of_cons a s :
  a <> ":"%char -> host_of (String a s) = String a (host_of s).
Proof.
  intros Ha. unfold host_of. cbn [Index].
  destruct (Ascii.eqb_spec a ":"); [done|].
  pose proof (Index_range s ":") as Hr.
  destruct (Z.eqb_spec (Index s ":") (-1)) as [H|H]; cbn [negb]; [done|].
  destruct (Z.eqb_spec (Index s ":" + 1) (-1)); [lia|]. cbn [negb].
  replace (Z.to_nat (Index s ":" + 1)) with (S (Z.to_nat (Index s ":"))) by lia.
  reflexivity.
Qed.

Lemma host_of_port h p : host_of (h +:+ ":" +:+ p) = host_of h.
Proof.
  induction h as [|a r IH]; [reflexivity|].
  rewrite app_cons. destruct (Ascii.eqb_spec a ":") as [->|Hne]; [reflexivity|].
  by rewrite !host_of_cons, IH.
Qed.

Lemma host_of_plain h : Index h ":" = -1 -> host_of h = h.
Proof. intros H. unfold host_of. by rewrite H. Qed.

Lemma host_of_no_colon h : Index (host_of h) ":" = -1.
Proof.
  induction h as [|a r IH]; [done|].
  destruct (Ascii.eqb_spec a ":") as [->|Hne]; [reflexivity|].
  rewrite host_of_cons by done. by apply Index_cons_none.
Qed.

(** Only the host name matters. *)
Lemma getSecondaryDomain_host_of hostport :
  getSecondaryDomain hostport = getSecondaryDomain (host_of hostport).
Proof.
  unfold getSecondaryDomain at 2. rewrite host_of_no_colon. reflexivity.
Qed.

Lemma getSecondaryDomain_plain h :
  Index h ":" = -1 -> h <> "localhost" -> h <> "127.0.0.1" ->
  getSecondaryDomain h =
    if Z.of_nat (length (Split h ".")) <? 2 then h
    else if is_multi (Split h ".") then "." +:+ Join (last_parts 3 (Split h ".")) "."
         else "." +:+ Join (last_parts 2 (Split h ".")) ".".
Proof.
  intros Hc Hl Hip. unfold getSecondaryDomain, is_multi. rewrite Hc.
  change (negb (-1 =? -1)) with false. cbv iota zeta.
  destruct (String.eqb_spec h "localhost"); [done|].
  destruct (String.eqb_spec h "127.0.0.1"); [done|]. cbn [orb].
  destruct (_ <? 2); [done|].
  destruct (3 <=? _); [|done]. cbn [andb].
  by destruct (default false _).
Qed.
End domain_facts.

Module domain_labels.
Import strings strings_facts jwtcookie domain_facts.

Lemma last_two (l : list string) :
  (2 <= length l)%nat ->
  last_parts 2 l = [nth (length l - 2) l ""; nth (length l - 1) l ""].
Proof.
  unfold last_parts. induction l as [|a rest IH]; cbn [length]; [lia|].
  intros Hlen. destruct rest as [|b rest']; [cbn in Hlen; lia|].
  destruct rest' as [|c rest''].
  - reflexivity.
  - cbn [length] in *.
    replace (S (S (S (length rest''))) - 2)%nat with (S (S (S (length rest'')) - 2))%nat by lia.
    replace (S (S (S (length rest''))) - 1)%nat with (S (S (S (length rest'')) - 1))%nat by lia.
    cbn [drop nth]. apply IH. lia.
Qed.

Lemma last_parts_length n (l : list string) :
  (n <= length l)%nat -> length (last_parts n l) = n.
Proof. intros H. unfold last_parts. rewrite length_drop. lia. Qed.

(** A host is its leading labels, a dot, and its last [n] labels. *)
Lemma host_by_labels h n :
  (0 < n <= length (Split h "."))%nat ->
  h = Join (last_parts n (Split h ".")) "." \/
  exists pre, h = pre +:+ "." +:+ Join (last_parts n (Split h ".")) ".".
Proof.
  intros Hn. unfold last_parts.
  pose proof (Join_Split h ".") as HJ.
  remember (Split h ".") as parts eqn:Hparts. clear Hparts.
  destruct (decide (length parts - n = 0)%nat) as [Hz|Hz].
  - left. by rewrite Hz, drop_0.
  - right. exists (Join (take (length parts - n) parts) ".").
    rewrite <- HJ at 1. rewrite <- (take_drop (length parts - n) parts) at 1.
    apply Join_app.
    + intros Hnil. apply (f_equal length) in Hnil. rewrite length_take in Hnil.
      cbn in Hnil. lia.
    + intros Hnil. apply (f_equal length) in Hnil. rewrite length_drop in Hnil.
      cbn in Hnil. lia.
Qed.

(** The last [n] labels, joined, split into [n] labels again. *)
Lemma labels_of_suffix h n :
  (0 < n <= length (Split h "."))%nat ->
  length (Split (Join (last_parts n (Split h ".")) ".") ".") = n.
Proof.
  intros Hn. rewrite Split_Join.
  - apply last_parts_length. lia.
  - intros Hnil. apply (f_equal length) in Hnil.
    rewrite last_parts_length in Hnil by lia. cbn in Hnil. lia.
  - unfold last_parts. apply Forall_drop, Split_pieces.
Qed.

(** The suffix [.com.cn] is what makes a host's suffix a multi-level one. *)
Lemma is_multi_spec h :
  is_multi (Split h ".") = true <-> exists pre, h = pre +:+ ".com.cn".
Proof.
  unfold is_multi. rewrite andb_true_iff, Z.leb_le. split.
  - intros [H3 Htld].
    assert (Hlen : (2 <= length (Split h "."))%nat) by lia.
    pose proof (last_two _ Hlen) as H2.
    destruct (decide (nth (length (Split h ".") - 2) (Split h ".") "" +:+ "." +:+
                      nth (length (Split h ".") - 1) (Split h ".") "" = "com.cn"))
      as [Heq|Hne].
    + destruct (host_by_labels h 2) as [Hh|[pre Hh]]; [lia| |].
      * apply (f_equal (fun s => length (Split s "."))) in Hh.
        rewrite labels_of_suffix in Hh by lia. lia.
      * exists pre. rewrite Hh at 1. rewrite H2. cbn [Join]. by rewrite Heq.
    + unfold multiLevelTLDs in Htld. by rewrite lookup_singleton_ne in Htld.
  - intros [pre ->].
    change (pre +:+ ".com.cn") with (pre +:+ String "." "com.cn").
    rewrite Split_app'. change (Split "com.cn" ".") with ["com"; "cn"].
    rewrite length_app. cbn [length].
    pose proof (Split_nonempty pre ".") as Hne.
    assert (Hpos : (0 < length (Split pre "."))%nat).
    { destruct (Split pre "."); [done|cbn; lia]. }
    split; [lia|].
    replace (length (Split pre ".") + 2 - 2)%nat with (length (Split pre ".") + 0)%nat by lia.
    replace (length (Split pre ".") + 2 - 1)%nat with (length (Split pre ".") + 1)%nat by lia.
    rewrite !app_nth2_plus. reflexivity.
Qed.
End domain_labels.

Module domain_cover.
Import strings strings_facts jwtcookie domain_facts domain_labels.

(** For a host name of at least two labels (no port, not a local host) the
    cookie domain is a dot followed by a suffix of the host that starts at a
    label: the host itself or what follows one of its dots.  The suffix has
    three labels when the host ends in [.com.cn], two labels otherwise. *)
Theorem getSecondaryDomain_covers_host (host : string) :
  Index host ":" = -1 -> host <> "localhost" -> host <> "127.0.0.1" ->
  (2 <= length (Split host "."))%nat ->
  exists s,
    getSecondaryDomain host = "." +:+ s /\
    (host = s \/ exists pre, host = pre +:+ "." +:+ s) /\
    ((exists pre, host = pre +:+ ".com.cn") /\ length (Split s ".") = 3%nat \/
     (~ exists pre, host = pre +:+ ".com.cn") /\ length (Split s ".") = 2%nat).
Proof.
  intros Hc Hl Hip Hlen. rewrite (getSecondaryDomain_plain _ Hc Hl Hip).
  destruct (Z.ltb_spec (Z.of_nat (length (Split host "."))) 2); [lia|].
  destruct (is_multi (Split host ".")) eqn:Hm.
  - assert (H3 : (3 <= length (Split host "."))%nat).
    { unfold is_multi in Hm. apply andb_true_iff in Hm as [Hm _].
      apply Z.leb_le in Hm. lia. }
    eexists. split; [reflexivity|]. split.
    + apply host_by_labels. lia.
    + left. split; [by apply is_multi_spec|]. apply labels_of_suffix. lia.
  - eexists. split; [reflexivity|]. split.
    + apply host_by_labels. lia.
    + right. split; [|apply labels_of_suffix; lia].
      intros Hex. apply is_multi_spec in Hex. congruence.
Qed.
End domain_cover.

Module domain_cover_examples.
Import strings jwtcookie.

Lemma getSecondaryDomain_covers_host_witness :
  exists s,
    getSecondaryDomain "api.example.com.cn" = "." +:+ s /\
    ("api.example.com.cn" = s \/ exists pre, "api.example.com.cn" = pre +:+ "." +:+ s) /\
    ((exists pre, "api.example.com.cn" = pre +:+ ".com.cn") /\
       length (Split s ".") = 3%nat \/
     (~ exists pre, "api.example.com.cn" = pre +:+ ".com.cn") /\
       length (Split s ".") = 2%nat).
Proof.
  apply (domain_cover.getSecondaryDomain_covers_host "api.example.com.cn").
  - vm_compute. reflexivity.
  - discriminate.
  - discriminate.
  - vm_compute. lia.
Defined.

(** The comment of the function promises [.example.co.uk] for
    [api.example.co.uk]; the table of suffixes holds [com.cn] only. *)
Example co_uk : getSecondaryDomain "api.example.co.uk" = ".co.uk".
Proof. vm_compute. reflexivity. Qed.

Example com_cn : getSecondaryDomain "api.example.com.cn:8080" = ".example.com.cn".
Proof. vm_compute. reflexivity. Qed.

Example address : getSecondaryDomain "192.168.1.10:8888" = ".1.10".
Proof. vm_compute. reflexivity. Qed.
End domain_cover_examples.

Module domain_port.
Import strings strings_facts jwtcookie domain_facts.

(** The cookie domain does not depend on the port: what follows the first
    colon is dropped before the labels are looked at. *)
Theorem getSecondaryDomain_ignores_port (host port : string) :
  getSecondaryDomain (host +:+ ":" +:+ port) = getSecondaryDomain host.
Proof.
  rewrite (getSecondaryDomain_host_of (host +:+ ":" +:+ port)).
  rewrite (getSecondaryDomain_host_of host). by rewrite host_of_port.
Qed.
End domain_port.

Module domain_subdomains.
Import strings strings_facts jwtcookie domain_facts domain_labels.

Lemma Split_length_pos s c : (0 < length (Split s c))%nat.
Proof. pose proof (Split_nonempty s c). destruct (Split s c); [done|cbn; lia]. Qed.

Lemma last_parts_app n (l1 l2 : list string) :
  (n <= length l2)%nat -> last_parts n (l1 ++ l2) = last_parts n l2.
Proof.
  intros H. unfold last_parts. rewrite length_app.
  replace (length l1 + length l2 - n)%nat with (length l1 + (length l2 - n))%nat by lia.
  by rewrite drop_app_add.
Qed.

(** A host and the hosts below it share one cookie domain: putting labels
    in front of a host name of at least two labels does not change the
    domain, unless the host is the suffix [com.cn] itself or a local
    address is involved. *)
Theorem getSecondaryDomain_shared_by_subdomains (sub host : string) :
  Index sub ":" = -1 -> Index host ":" = -1 ->
  host <> "127.0.0.1" -> sub +:+ "." +:+ host <> "127.0.0.1" ->
  host <> "com.cn" ->
  (2 <= length (Split host "."))%nat ->
  getSecondaryDomain (sub +:+ "." +:+ host) = getSecondaryDomain host.
Proof.
  intros Hs Hh Hip Hip' Htld Hlen.
  assert (Hc : Index (sub +:+ "." +:+ host) ":" = -1).
  { apply Index_app_none; [done|]. by apply (Index_app_none "." host). }
  assert (Hsplit : Split (sub +:+ "." +:+ host) "." = Split sub "." ++ Split host ".").
  { change (sub +:+ "." +:+ host) with (sub +:+ String "." host). apply Split_app'. }
  pose proof (Split_length_pos sub ".") as Hk.
  assert (Hl' : sub +:+ "." +:+ host <> "localhost").
  { intros Heq. apply (f_equal (fun s => length (Split s "."))) in Heq.
    rewrite Hsplit, length_app in Heq. cbn in Heq. lia. }
  assert (Hl : host <> "localhost").
  { intros ->. cbn in Hlen. lia. }
  rewrite (getSecondaryDomain_plain _ Hc Hl' Hip').
  rewrite (getSecondaryDomain_plain _ Hh Hl Hip).
  rewrite Hsplit.
  destruct (Z.ltb_spec (Z.of_nat (length (Split sub "." ++ Split host "."))) 2) as [H|_];
    [rewrite length_app in H; lia|].
  destruct (Z.ltb_spec (Z.of_nat (length (Split host "."))) 2) as [H|_]; [lia|].
  rewrite (last_parts_app 2) by lia.
  assert (Hm : is_multi (Split sub "." ++ Split host ".") = is_multi (Split host ".")
               \/ (length (Split host ".") = 2%nat /\
                   is_multi (Split sub "." ++ Split host ".") = false /\
                   is_multi (Split host ".") = false)).
  { unfold is_multi. rewrite length_app.
    replace (length (Split sub ".") + length (Split host ".") - 2)%nat
      with (length (Split sub ".") + (length (Split host ".") - 2))%nat by lia.
    replace (length (Split sub ".") + length (Split host ".") - 1)%nat
      with (length (Split sub ".") + (length (Split host ".") - 1))%nat by lia.
    rewrite !app_nth2_plus.
    destruct (decide (length (Split host ".") = 2%nat)) as [H2|H2].
    - right. split; [done|]. rewrite H2. cbn [Nat.sub].
      pose proof (Join_Split host ".") as HJ.
      destruct (Split host ".") as [|x [|y [|z rest]]]; cbn in H2; try lia.
      cbn [Join nth] in *. rewrite HJ.
      unfold multiLevelTLDs. rewrite lookup_singleton_ne by done.
      by rewrite andb_false_r.
    - left. f_equal. apply eq_iff_eq_true. rewrite !Z.leb_le. lia. }
  destruct Hm as [->|(H2 & -> & ->)].
  - destruct (is_multi (Split host ".")) eqn:Hm; [|done].
    rewrite (last_parts_app 3); [done|].
    unfold is_multi in Hm. apply andb_true_iff in Hm as [Hm _]. apply Z.leb_le in Hm. lia.
  - done.
Qed.
End domain_subdomains.

Module domain_subdomains_examples.
Import strings jwtcookie.

Lemma getSecondaryDomain_shared_by_subdomains_witness :
  getSecondaryDomain ("api" +:+ "." +:+ "example.com") = getSecondaryDomain "example.com".
Proof.
  apply (domain_subdomains.getSecondaryDomain_shared_by_subdomains "api" "example.com").
  - vm_compute. reflexivity.
  - vm_compute. reflexivity.
  - discriminate.
  - discriminate.
  - discriminate.
  - vm_compute. lia.
Defined.
End domain_subdomains_examples.

(** ** Masked phone numbers *)

Module mask_facts.
Import strings strings_facts.

Lemma slice_to_length s n : (n <= String.length s)%nat -> String.length (slice_to s n) = n.
Proof.
  revert s. induction n as [|n IH]; intros s H; [by destruct s|].
  destruct s as [|a r]; cbn in *; [lia|]. rewrite IH; lia.
Qed.

Lemma slice_from_length s n : String.length (slice_from s n) = (String.length s - n)%nat.
Proof.
  revert s. induction n as [|n IH]; intros s; [destruct s; cbn; lia|].
  destruct s as [|a r]; cbn; [done|]. apply IH.
Qed.

Lemma length_app (s t : string) :
  String.length (s +:+ t) = (String.length s + String.length t)%nat.
Proof. induction s as [|a s IH]; [done|]. rewrite app_cons. cbn. by rewrite IH. Qed.

Lemma slice_to_app s t : slice_to (s +:+ t) (String.length s) = s.
Proof. induction s as [|a s IH]; [by destruct t|]. rewrite app_cons. cbn. by rewrite IH. Qed.

Lemma slice_from_app s t : slice_from (s +:+ t) (String.length s) = t.
Proof. induction s as [|a s IH]; [by destruct t|]. rewrite app_cons. cbn. exact IH. Qed.

(** A string is its first [n] bytes followed by the rest. *)
Lemma slice_to_from s n : slice_to s n +:+ slice_from s n = s.
Proof.
  revert s. induction n as [|n IH]; intros s; [by destruct s|].
  destruct s as [|a r]; [done|]. cbn [slice_to slice_from]. by rewrite app_cons, IH.
Qed.
End mask_facts.

Module mask_long.
Import strings strings_facts mask_facts smsv2_ext.

Lemma maskPhone_long (phone : string) :
  7 <= len phone ->
  maskPhone phone =
    slice_to phone 3 +:+ "****" +:+ slice_from phone (String.length phone - 4) /\
  String.length (maskPhone phone) = 11%nat /\
  slice_to (maskPhone phone) 3 = slice_to phone 3 /\
  slice_from (maskPhone phone) 7 = slice_from phone (String.length phone - 4).
Proof.
  intros Hlen. unfold len in Hlen.
  assert (H3 : String.length (slice_to phone 3) = 3%nat) by (apply slice_to_length; lia).
  assert (H4 : String.length (slice_from phone (String.length phone - 4)) = 4%nat)
    by (rewrite slice_from_length; lia).
  assert (Hm : maskPhone phone =
    slice_to phone 3 +:+ "****" +:+ slice_from phone (String.length phone - 4)).
  { unfold maskPhone, len.
    destruct (Z.ltb_spec (Z.of_nat (String.length phone)) 7); [lia|].
    by replace (Z.to_nat (Z.of_nat (String.length phone) - 4))
      with (String.length phone - 4)%nat by lia. }
  split; [done|]. rewrite Hm. repeat split.
  - rewrite !length_app, H3, H4. reflexivity.
  - pose proof (slice_to_app (slice_to phone 3)
                  ("****" +:+ slice_from phone (String.length phone - 4))) as E.
    by rewrite H3 in E.
  - pose proof (slice_from_app (slice_to phone 3 +:+ "****")
                  (slice_from phone (String.length phone - 4))) as E.
    rewrite length_app, H3 in E. cbn [String.length Nat.add] in E.
    by rewrite strings_facts.app_assoc in E.
Qed.
End mask_long.

Module mask_shape.
Import strings strings_facts mask_facts smsv2_ext mask_long.

(** A phone of at least seven bytes is masked to eleven bytes: its first
    three bytes, four stars, its last four bytes; and masking the result
    again changes nothing. *)
Theorem maskPhone_shape (phone : string) :
  7 <= len phone ->
  let masked := maskPhone phone in
  masked = slice_to phone 3 +:+ "****" +:+ slice_from phone (String.length phone - 4) /\
  String.length masked = 11%nat /\
  maskPhone masked = masked.
Proof.
  intros Hlen masked.
  destruct (maskPhone_long phone Hlen) as (Hm & Hl & Hp & Hs).
  repeat split; try done.
  destruct (maskPhone_long masked) as (Hm' & _).
  { unfold len. fold masked in Hl. rewrite Hl. done. }
  rewrite Hm'. fold masked in Hl, Hp, Hs. rewrite Hl, Hp. cbn [Nat.sub]. rewrite Hs.
  by rewrite <- Hm.
Qed.
End mask_shape.

Module mask_shape_examples.
Import strings smsv2_ext.

Lemma maskPhone_shape_witness :
  let masked := maskPhone "13812345678" in
  masked = slice_to "13812345678" 3 +:+ "****"
           +:+ slice_from "13812345678" (String.length "13812345678" - 4) /\
  String.length masked = 11%nat /\
  maskPhone masked = masked.
Proof. apply (mask_shape.maskPhone_shape "13812345678"). vm_compute. discriminate. Defined.

Example masked_phone : maskPhone "13812345678" = "138****5678".
Proof. vm_compute. reflexivity. Qed.
End mask_shape_examples.

Module mask_short.
Import strings strings_facts mask_facts smsv2_ext mask_long.

(** Nothing is hidden of a phone of at most seven bytes: a shorter one is
    returned as it is, and the first three and last four bytes of the mask
    of a seven-byte one spell it out. *)
Theorem maskPhone_discloses_short (phone : string) :
  len phone <= 7 ->
  (len phone < 7 -> maskPhone phone = phone) /\
  (len phone = 7 ->
   slice_to (maskPhone phone) 3 +:+ slice_from (maskPhone phone) 7 = phone).
Proof.
  intros Hle. split.
  - intros Hlt. unfold maskPhone. by destruct (Z.ltb_spec (len phone) 7); [|lia].
  - intros H7.
    destruct (maskPhone_long phone) as (_ & _ & Hp & Hs); [lia|].
    rewrite Hp, Hs. unfold len in H7.
    replace (String.length phone - 4)%nat with 3%nat by lia.
    apply slice_to_from.
Qed.
End mask_short.

(** ** The authentication middleware, logout and lookups *)

Module middleware_facts.
Import jwtlib jwtparse jwt middleware refresh_facts.

(** A request that needs a token: the middleware is on and the path is not
    on the public list. *)
Lemma Handle_guarded m c w :
  enabled m = true ->
  default false (publicPaths !! (app.Method c +:+ ":" +:+ app.Path c)) = false ->
  Handle m c w =
    if app.is_empty (app.Cookie c jwtcookie.AccessTokenCookieKey)
    then (Abort (response_ext.Error (response.Err response_ext.CodeUnauthorized "未登录")), w)
    else
      match fst (ParseToken (jwtManager m) (app.Cookie c jwtcookie.AccessTokenCookieKey)
                   TokenTypeAccess w) with
      | (Some claims, None) =>
          match IsTokenBlacklisted (jwtManager m) (ID (Registered claims)) w with
          | ((_, Some _), w1) =>
              (Abort (response_ext.Error (response.Err response.CodeCacheError "系统错误")), w1)
          | ((true, None), w1) =>
              (Abort (response_ext.Error (response.Err response.CodeTokenInvalid "登录已失效")), w1)
          | ((false, None), w1) => (Next (Some (UserID claims)), w1)
          end
      | _ =>
          (Abort (response_ext.Error (response.Err response.CodeTokenInvalid "登录已失效")), w)
      end.
Proof.
  intros He Hp. unfold Handle. rewrite He, Hp. cbn [negb].
  destruct (app.is_empty _); [done|]. unfold bind.
  destruct (fst (ParseToken _ _ _ w)) as [claims err] eqn:HP.
  rewrite (ParseToken_run _ _ _ w _ HP).
  destruct claims as [claims|], err as [e|]; try reflexivity.
  destruct (IsTokenBlacklisted _ _ w) as [[[|] [e|]] w1]; reflexivity.
Qed.

(** What parsing makes of a token signed with HS256 under the manager's
    secret. *)
Lemma ParseToken_signed m claims ty w :
  fst (ParseToken m (Compact (mkToken HS256 claims (secret m))) ty w) =
    if expired (clock w) (Registered claims)
    then (None, Some (fmt.Errorf_w "parse token: %w" [Error ErrTokenExpired] ErrTokenExpired))
    else if negb (String.eqb (TokenType claims) ty)
         then (None, Some (fmt.Errorf "expected %s token, got %s" [ty; TokenType claims]))
         else (Some claims, None).
Proof.
  unfold ParseToken, ParseWithClaims, bind, ret, now, keyFunc.
  cbn [fst snd Method is_HMAC negb signed_with jwtparse.Claims].
  rewrite String.eqb_refl. cbn [andb negb].
  destruct (expired (clock w) (Registered claims)); [reflexivity|].
  cbn [jwtparse.Claims fst].
  destruct (String.eqb (TokenType claims) ty); reflexivity.
Qed.
End middleware_facts.

Module auth_sound.
Import jwtlib jwtparse jwt middleware refresh_facts middleware_facts.

(** Whenever the middleware, switched on, hands a request for a path that
    is not public on to the next handler, the request carried an access-token
    cookie that is a token signed with an HMAC method under the manager's
    secret, of kind access, not expired at that instant, and whose id Redis
    (which answered) does not hold as revoked; the user id stored for the
    next handler is the one of the token, and the one interaction made is
    the lookup of the blacklist key. *)
Theorem Handle_admits_only_valid_tokens
    (m : AuthMiddleware) (c : app.RequestContext) (w w' : World) (uid : option string) :
  enabled m = true ->
  default false (publicPaths !! (app.Method c +:+ ":" +:+ app.Path c)) = false ->
  Handle m c w = (Next uid, w') ->
  exists t : Token Claims,
    app.Cookie c jwtcookie.AccessTokenCookieKey = Compact t /\
    uid = Some (UserID (jwtparse.Claims t)) /\
    is_HMAC (Method t) = true /\
    signed_with t = secret (jwtManager m) /\
    TokenType (jwtparse.Claims t) = TokenTypeAccess /\
    expired (clock w) (Registered (jwtparse.Claims t)) = false /\
    redis_down w (tick w) = false /\
    match redis.peek (clock w) (rdb w)
            (blacklistKey (ID (Registered (jwtparse.Claims t)))) with
    | Some e => e_val e <> "1"
    | None => True
    end /\
    w' = emit (EvRedis [GET (blacklistKey (ID (Registered (jwtparse.Claims t))))] true) w.
Proof.
  intros He Hp. rewrite (Handle_guarded m c w He Hp).
  destruct (app.is_empty _); [discriminate|].
  destruct (fst (ParseToken _ _ _ w)) as [[claims|] [e|]] eqn:HP; try discriminate.
  destruct (jwt_facts.ParseToken_Some _ _ _ _ _ HP) as (t & Hc & <- & Hm & Hs & Hx & Hty).
  destruct (IsTokenBlacklisted _ _ w) as [[[|] [e|]] w1] eqn:HB; try discriminate.
  intros [= <- <-].
  destruct (IsTokenBlacklisted_answer _ _ _ _ _ HB) as (Hup & -> & Hb).
  exists t. repeat split; try done.
  destruct (redis.peek _ _ _) as [e|]; [|done].
  intros Heq. rewrite Heq in Hb. discriminate.
Qed.
End auth_sound.

Module auth_fail_closed.
Import jwtlib jwtparse jwt middleware refresh_facts middleware_facts.

(** The middleware fails closed: when the access token of a guarded
    request parses but the blacklist lookup cannot reach Redis, the request
    is aborted with the system error CacheError; it is not handed on. *)
Theorem Handle_aborts_when_lookup_fails
    (m : AuthMiddleware) (c : app.RequestContext) (w : World) (claims : Claims) :
  enabled m = true ->
  default false (publicPaths !! (app.Method c +:+ ":" +:+ app.Path c)) = false ->
  fst (ParseToken (jwtManager m) (app.Cookie c jwtcookie.AccessTokenCookieKey)
         TokenTypeAccess w) = (Some claims, None) ->
  redis_down w (tick w) = true ->
  Handle m c w =
    (Abort (response_ext.mkJSON response_ext.StatusOK response.CodeCacheError "系统错误"),
     emit (EvRedis [GET (blacklistKey (ID (Registered claims)))] false) w) /\
  response.IsSystemError response.CodeCacheError = true.
Proof.
  intros He Hp HP Hd. split; [|reflexivity]. rewrite (Handle_guarded m c w He Hp), HP.
  destruct (jwt_facts.ParseToken_Some _ _ _ _ _ HP) as (t & Hc & _).
  rewrite Hc. cbn [app.is_empty].
  rewrite IsTokenBlacklisted_run, (redis_facts.Get_down _ _ Hd). reflexivity.
Qed.
End auth_fail_closed.

Module auth_round_trip.
Import jwtlib jwtparse jwt middleware refresh_facts middleware_facts.

(** The access token of a minted pair opens the guarded paths until it
    expires and no longer: presented before the expiry instant (the mint
    instant plus the access lifetime, cut to the second), over a Redis that
    answers and holds no live entry for its id, it is admitted with the user
    id it was minted for; presented at or after that instant it is refused
    with TokenInvalid before Redis is asked. *)
Theorem minted_access_token_is_admitted_until_expiry
    (m : AuthMiddleware) (c : app.RequestContext) (userID : string)
    (pair : TokenPair) (w w' : World) :
  let exp := time.Truncate (clock w + accessExpire (jwtManager m)) time.Second in
  let key := blacklistKey (uuid_src w (tick w)) in
  enabled m = true ->
  default false (publicPaths !! (app.Method c +:+ ":" +:+ app.Path c)) = false ->
  fst (GenerateTokenPair (jwtManager m) userID w) = (Some pair, None) ->
  app.Cookie c jwtcookie.AccessTokenCookieKey = AccessToken pair ->
  (clock w' < exp ->
   redis_down w' (tick w') = false ->
   redis.peek (clock w') (rdb w') key = None ->
   Handle m c w' = (Next (Some userID), emit (EvRedis [GET key] true) w')) /\
  (exp <= clock w' ->
   Handle m c w' =
     (Abort (response_ext.mkJSON response_ext.StatusOK response.CodeTokenInvalid
               "登录已失效"), w')).
Proof.
  intros exp key He Hp Hgen Hcookie.
  rewrite GenerateTokenPair_run in Hgen. cbn [fst] in Hgen. injection Hgen as <-.
  cbn [AccessToken] in Hcookie.
  rewrite (Handle_guarded m c w' He Hp), Hcookie. cbn [app.is_empty].
  split.
  - intros Hlt Hup Hpeek.
    rewrite (ParseToken_signed (jwtManager m) _ TokenTypeAccess w').
    cbn [expired ExpiresAt Registered NewNumericDate TokenType UserID ID]. fold exp.
    destruct (Z.ltb_spec (clock w') exp); [|lia]. cbn [negb].
    change (String.eqb TokenTypeAccess TokenTypeAccess) with true. cbv beta iota.
    cbn [negb ID Registered UserID].
    rewrite IsTokenBlacklisted_run, (redis_facts.Get_up _ _ Hup). fold key.
    rewrite Hpeek. reflexivity.
  - intros Hge.
    rewrite (ParseToken_signed (jwtManager m) _ TokenTypeAccess w').
    cbn [expired ExpiresAt Registered NewNumericDate TokenType UserID ID]. fold exp.
    destruct (Z.ltb_spec (clock w') exp); [lia|]. reflexivity.
Qed.
End auth_round_trip.

Module auth_round_trip_examples.
Import jwtlib jwtparse jwt middleware scenario scenario_web.

Lemma minted_access_token_is_admitted_until_expiry_witness :
  Handle guard request later =
    (Next (Some "u-1001"),
     emit (EvRedis [GET (blacklistKey (uuid_src world0 (tick world0)))] true) later) /\
  Handle guard request next_day =
    (Abort (response_ext.mkJSON response_ext.StatusOK response.CodeTokenInvalid
              "登录已失效"), next_day).
Proof.
  split.
  - apply (proj1 (auth_round_trip.minted_access_token_is_admitted_until_expiry
                    guard request "u-1001" tokenPair world0 later
                    eq_refl eq_refl eq_refl eq_refl)).
    + vm_compute. reflexivity.
    + vm_compute. reflexivity.
    + vm_compute. reflexivity.
  - apply (proj2 (auth_round_trip.minted_access_token_is_admitted_until_expiry
                    guard request "u-1001" tokenPair world0 next_day
                    eq_refl eq_refl eq_refl eq_refl)).
    vm_compute. discriminate.
Defined.

Example admitted_then_refused :
  fst (Handle guard request later) = Next (Some "u-1001") /\
  fst (Handle guard request next_day) =
    Abort (response_ext.mkJSON 200 100103 "登录已失效").
Proof. split; vm_compute; reflexivity. Qed.
End auth_round_trip_examples.

Module logout_facts.
Import jwtlib jwtparse jwt userservice refresh_facts.

(** [Logout] answers [nil] whatever happens. *)
Lemma Logout_nil s a r w : fst (Logout s a r w) = None.
Proof.
  unfold Logout, bind.
  destruct (negb (String.eqb a "")), (negb (String.eqb r "")); cbn [ret];
    repeat match goal with
           | |- context [AddTokenToBlacklist ?m ?j ?e ?x] =>
               destruct (AddTokenToBlacklist m j e x)
           | |- context [RevokeRefreshToken ?m ?j ?x] =>
               destruct (RevokeRefreshToken m j x)
           end; reflexivity.
Qed.

(** One write to the blacklist over a connection that may be down. *)
Lemma AddTokenToBlacklist_run m jti ex w :
  AddTokenToBlacklist m jti ex w =
    if redis_down w (tick w)
    then (Some redis.ErrPoolTimeout, emit (EvRedis [SET (blacklistKey jti) "1" ex] false) w)
    else (None, emit (EvRedis [SET (blacklistKey jti) "1" ex] true)
                  (set_rdb (<[blacklistKey jti := Entry "1" (redis.deadline_of (clock w) ex)]>
                              (rdb w)) w)).
Proof.
  unfold AddTokenToBlacklist. destruct (redis_down w (tick w)) eqn:Hd.
  - by rewrite redis_facts.Set_down.
  - by rewrite redis_facts.Set_up.
Qed.

(** What [Logout] leaves under the key of the access token's id, over a
    Redis that answers. *)
Lemma Logout_access_entry s a r w :
  redis_up w -> a <> "" -> r <> a ->
  rdb (snd (Logout s a r w)) !! blacklistKey a =
    Some (Entry "1" (redis.deadline_of (clock w) (accessExpire (jwtManager s)))) /\
  clock (snd (Logout s a r w)) = clock w /\
  redis_down (snd (Logout s a r w)) = redis_down w.
Proof.
  intros Hr Ha Hne. unfold Logout, bind, ret, GetAccessExpire, RevokeRefreshToken.
  destruct (String.eqb_spec a "") as [|_]; [done|]. cbn [negb].
  rewrite AddTokenToBlacklist_run, (Hr _).
  destruct (String.eqb_spec r "") as [|_]; cbn [negb snd].
  - cbn [rdb clock redis_down emit set_rdb]. by rewrite lookup_insert_eq.
  - rewrite AddTokenToBlacklist_run. cbn [redis_down emit set_rdb]. rewrite (Hr _).
    cbn [snd rdb clock redis_down emit set_rdb].
    rewrite lookup_insert_ne
      by (intros Heq; apply jwt_facts.blacklistKey_inj in Heq; congruence).
    by rewrite lookup_insert_eq.
Qed.

End logout_facts.

Module logout_locks.
Import jwtlib jwtparse jwt userservice middleware refresh_facts middleware_facts logout_facts.

(** Logging out locks the access token out: after [Logout] ran over a
    Redis that answers with the id of an access token (and a different id,
    or none, for the refresh token), a guarded request that presents this
    token within the access lifetime is aborted with TokenInvalid, although
    the token itself still parses. *)
Theorem Logout_locks_out_access_token
    (s : service) (m : AuthMiddleware) (c : app.RequestContext)
    (claims : Claims) (refreshJTI : string) (w : World) (d : Z) :
  let accessJTI := ID (Registered claims) in
  let w1 := elapse d (snd (Logout s accessJTI refreshJTI w)) in
  middleware.jwtManager m = userservice.jwtManager s ->
  enabled m = true ->
  default false (publicPaths !! (app.Method c +:+ ":" +:+ app.Path c)) = false ->
  redis_up w ->
  accessJTI <> "" -> refreshJTI <> accessJTI ->
  0 <= d < accessExpire (userservice.jwtManager s) ->
  fst (ParseToken (middleware.jwtManager m) (app.Cookie c jwtcookie.AccessTokenCookieKey)
         TokenTypeAccess w1) = (Some claims, None) ->
  fst (Logout s accessJTI refreshJTI w) = None /\
  fst (Handle m c w1) =
    Abort (response_ext.mkJSON response_ext.StatusOK response.CodeTokenInvalid "登录已失效").
Proof.
  intros accessJTI w1 Hm He Hp Hr Ha Hne Hd HP. split; [apply Logout_nil|].
  rewrite (Handle_guarded m c w1 He Hp), HP.
  destruct (jwt_facts.ParseToken_Some _ _ _ _ _ HP) as (t & Hc & _).
  rewrite Hc. cbn [app.is_empty].
  destruct (Logout_access_entry s accessJTI refreshJTI w Hr Ha Hne) as (Hkey & Hclock & Hdown).
  rewrite IsTokenBlacklisted_run.
  rewrite redis_facts.Get_up by (unfold w1; cbn [redis_down tick elapse]; rewrite Hdown; apply Hr).
  fold accessJTI. unfold redis.peek, w1. cbn [rdb clock elapse]. rewrite Hkey, Hclock.
  unfold redis.live, redis.deadline_of. cbn [e_deadline].
  destruct (Z.ltb_spec 0 (accessExpire (userservice.jwtManager s))); [|lia].
  destruct (Z.ltb_spec (clock w + d) (clock w + accessExpire (userservice.jwtManager s)));
    [|lia].
  reflexivity.
Qed.
End logout_locks.

Module logout_locks_examples.
Import jwtlib jwtparse jwt userservice middleware scenario scenario_web.

Lemma Logout_locks_out_access_token_witness :
  fst (Logout svc "uuid-0" "uuid-1" logged_in) = None /\
  fst (Handle guard request
         (elapse (5 * time.Minute) (snd (Logout svc "uuid-0" "uuid-1" logged_in)))) =
    Abort (response_ext.mkJSON response_ext.StatusOK response.CodeTokenInvalid "登录已失效").
Proof.
  apply (logout_locks.Logout_locks_out_access_token svc guard request accessClaims
           "uuid-1" logged_in (5 * time.Minute)).
  - reflexivity.
  - reflexivity.
  - vm_compute. reflexivity.
  - intros n. reflexivity.
  - discriminate.
  - discriminate.
  - vm_compute. split; [discriminate|reflexivity].
  - vm_compute. reflexivity.
Defined.
End logout_locks_examples.

Module logout_outage.
Import jwtlib jwtparse jwt userservice refresh_facts logout_facts.

(** [Logout] reports success also when it revoked nothing: if both
    writes to the blacklist fail to reach Redis, it still answers [nil];
    both writes were attempted, in the order access id, refresh id, and the
    keyspace is as before, so neither token is revoked. *)
Theorem Logout_swallows_write_failures
    (s : service) (accessJTI refreshJTI : string) (w : World) :
  let m := jwtManager s in
  accessJTI <> "" -> refreshJTI <> "" ->
  redis_down w (tick w) = true -> redis_down w (S (tick w)) = true ->
  Logout s accessJTI refreshJTI w =
    (None,
     emit (EvRedis [SET (blacklistKey refreshJTI) "1" (refreshExpire m)] false)
       (emit (EvRedis [SET (blacklistKey accessJTI) "1" (accessExpire m)] false) w)) /\
  rdb (snd (Logout s accessJTI refreshJTI w)) = rdb w.
Proof.
  intros m Ha Hr Hd0 Hd1.
  assert (Hrun : Logout s accessJTI refreshJTI w =
    (None,
     emit (EvRedis [SET (blacklistKey refreshJTI) "1" (refreshExpire m)] false)
       (emit (EvRedis [SET (blacklistKey accessJTI) "1" (accessExpire m)] false) w))).
  { unfold Logout, bind, ret, GetAccessExpire, RevokeRefreshToken. fold m.
    destruct (String.eqb_spec accessJTI "") as [|_]; [done|].
    destruct (String.eqb_spec refreshJTI "") as [|_]; [done|]. cbn [negb].
    rewrite AddTokenToBlacklist_run, Hd0.
    rewrite AddTokenToBlacklist_run. cbn [redis_down tick emit]. by rewrite Hd1. }
  by rewrite Hrun.
Qed.
End logout_outage.

Module logout_outage_examples.
Import jwtlib jwtparse jwt userservice scenario scenario_web.

Lemma Logout_swallows_write_failures_witness :
  Logout svc "uuid-0" "uuid-1" (outage later) =
    (None,
     emit (EvRedis [SET (blacklistKey "uuid-1") "1" (refreshExpire (jwtManager svc))] false)
       (emit (EvRedis [SET (blacklistKey "uuid-0") "1" (accessExpire (jwtManager svc))] false)
          (outage later))) /\
  rdb (snd (Logout svc "uuid-0" "uuid-1" (outage later))) = rdb (outage later).
Proof.
  apply (logout_outage.Logout_swallows_write_failures svc "uuid-0" "uuid-1" (outage later)).
  - discriminate.
  - discriminate.
  - reflexivity.
  - reflexivity.
Defined.
End logout_outage_examples.

Module lookup_failures.
Import jwtlib jwtparse jwt userservice userservice_ext refresh_facts.

(** [RefreshToken] does not tell a failed query from a missing user: if
    the token parses and is not revoked but the user query fails, the answer
    is UserNotFound, which is not a system error; nothing was written, so
    the token is not revoked and no token was minted. *)
Theorem RefreshToken_reports_database_failure_as_missing_user
    (s : service) (tok : tokenString) (claims : Claims) (w w1 : World) :
  let m := jwtManager s in
  let jti := ID (Registered claims) in
  fst (ParseToken m tok TokenTypeRefresh w) = (Some claims, None) ->
  IsTokenBlacklisted m jti w = ((false, None), w1) ->
  db_down w1 (tick w1) = true ->
  RefreshToken s tok w =
    ((None, Some (response.Err response.CodeUserNotFound "用户不存在")),
     emit (EvFindByUserID (UserID claims)) (emit (EvRedis [GET (blacklistKey jti)] true) w)) /\
  response.IsSystemError response.CodeUserNotFound = false /\
  fst (GetUserByID s (UserID claims) w1) =
    (None, Some (response.Err response.CodeDatabaseError "查询用户失败")).
Proof.
  intros m jti HP HB Hdb.
  destruct (IsTokenBlacklisted_answer _ _ _ _ _ HB) as (_ & Hw1 & _).
  split; [|split; [done|]].
  - apply ParseToken_run in HP. unfold RefreshToken, bind. fold m. rewrite HP.
    fold jti. rewrite HB. unfold userrepo.FindByUserID. rewrite Hdb. by rewrite Hw1.
  - unfold GetUserByID, bind, userrepo.FindByUserID. by rewrite Hdb.
Qed.
End lookup_failures.

Module lookup_failures_examples.
Import jwtlib jwtparse jwt userservice userservice_ext scenario scenario_web.

Lemma RefreshToken_reports_database_failure_as_missing_user_witness :
  RefreshToken svc refreshToken (db_outage next_day) =
    ((None, Some (response.Err response.CodeUserNotFound "用户不存在")),
     emit (EvFindByUserID "u-1001")
       (emit (EvRedis [GET (blacklistKey "uuid-1")] true) (db_outage next_day))) /\
  response.IsSystemError response.CodeUserNotFound = false /\
  fst (GetUserByID svc "u-1001"
         (emit (EvRedis [GET (blacklistKey "uuid-1")] true) (db_outage next_day))) =
    (None, Some (response.Err response.CodeDatabaseError "查询用户失败")).
Proof.
  apply (lookup_failures.RefreshToken_reports_database_failure_as_missing_user
           svc refreshToken refreshClaims (db_outage next_day)
           (emit (EvRedis [GET (blacklistKey "uuid-1")] true) (db_outage next_day))).
  - vm_compute. reflexivity.
  - vm_compute. reflexivity.
  - reflexivity.
Defined.
End lookup_failures_examples.

Module refresh_outcomes.
Import jwtlib jwtparse jwt userservice refresh_facts.

(** Whatever the token string and the state of the collaborators,
    [RefreshToken] answers in one of two ways: a token pair and no error, or
    no pair and a business error whose code is TokenInvalid, CacheError or
    UserNotFound.  It never returns a pair together with an error, nor an
    error that is not a business result; the branch for a failed minting is
    never taken, since signing with the HMAC secret does not fail. *)
Theorem RefreshToken_outcomes (s : service) (tok : tokenString) (w : World) :
  (exists pair, fst (RefreshToken s tok w) = (Some pair, None)) \/
  (exists code message,
     fst (RefreshToken s tok w) = (None, Some (response.Err code message)) /\
     (code = response.CodeTokenInvalid \/ code = response.CodeCacheError \/
      code = response.CodeUserNotFound)).
Proof.
  unfold RefreshToken, bind.
  destruct (ParseToken (jwtManager s) tok TokenTypeRefresh w) as [[[claims|] [e|]] w0];
    try (right; eexists _, _; split; [reflexivity|by left]).
  destruct (IsTokenBlacklisted _ _ w0) as [[b [e|]] w1];
    [right; eexists _, _; split; [reflexivity|by right; left]|].
  destruct b; [right; eexists _, _; split; [reflexivity|by left]|].
  destruct (userrepo.FindByUserID _ w1) as [[u [e|]] w2];
    [right; eexists _, _; split; [reflexivity|by right; right]|].
  destruct (RevokeRefreshToken _ _ w2) as [[e|] w3];
    [right; eexists _, _; split; [reflexivity|by right; left]|].
  rewrite GenerateTokenPair_run. left. eexists. reflexivity.
Qed.
End refresh_outcomes.

(** ** Verification codes, arch3: sending *)

Module send_run.
Import redis smsrepo volcengine smsrepo_facts verify_facts lockout_facts send_facts.

Lemma generateCode_value w :
  fst (generateCode w) = fmt.Sprintf_06d (code_number w (tick w)).
Proof.
  unfold generateCode, bind, rand.Int, now, ret, code_number.
  by destruct (rand_src w (tick w)).
Qed.

Section WithRedisRepository.
Variable cfg : sms.Config.
Let c : Client := New cfg NewCacheRepository.

(** What a send that returns [nil] over a live Redis went through. *)
Lemma Send_nil_inv t p w :
  redis_up w ->
  fst (Send c t p w) = None ->
  exists tpl,
    sms.Templates cfg !! t = Some tpl /\
    fst (checkSendLimit c t p w) = None /\
    sms_gateway w (4 + tick w)%nat = None.
Proof.
  intros Hr. subst c. unfold Send. cbn [New config].
  destruct (sms.Templates cfg !! t) as [tpl|]; [|discriminate].
  unfold bind.
  destruct (fst (checkSendLimit _ t p w)) as [e|] eqn:Hpass.
  - rewrite (surjective_pairing (checkSendLimit _ t p w)), Hpass. discriminate.
  - rewrite (surjective_pairing (checkSendLimit _ t p w)), Hpass.
    rewrite (checkSendLimit_pass cfg t p w Hr Hpass).
    match goal with
    | |- context [generateCode ?x] =>
        pose proof (generateCode_run x) as HG; destruct (generateCode x) as [code w2]
    end.
    cbn [snd] in HG. subst w2.
    cbn [New repo sms.StoreCode sms.DeleteCode sms.IncrSendCount
                    sms.ResetVerifyFailCount NewCacheRepository].
    unfold StoreCode.
    rewrite redis_facts.Set_up by (cbn [redis_down emit]; apply Hr).
    unfold sendSMS, bind, volcsms.DefaultInstance_Send.
    cbn [sms_gateway tick emit set_rdb].
    replace (S (S (S (S (tick w))))) with (4 + tick w)%nat by reflexivity.
    destruct (sms_gateway w (4 + tick w)%nat) as [[text status]|]; unfold ret; cbv beta iota.
    + unfold DeleteCode.
      rewrite redis_facts.Del_up by (cbn [redis_down emit set_rdb]; apply Hr).
      discriminate.
    + intros _. by exists tpl.
Qed.

(** The world a delivered send leaves. *)
Lemma Send_delivered t p w tpl :
  redis_up w ->
  sms.Templates cfg !! t = Some tpl ->
  fst (checkSendLimit c t p w) = None ->
  sms_gateway w (4 + tick w)%nat = None ->
  let code := fmt.Sprintf_06d (code_number w (2 + tick w)) in
  let stored := <[codeKey t p := Entry code (Some (clock w + codeTTL))]> (rdb w) in
  fst (Send c t p w) = None /\
  trace (snd (Send c t p w)) = trace w ++ send_events t p tpl code /\
  rdb (snd (Send c t p w)) =
    delete (verifyFailKey t p) (snd (run (clock w) (count_send t p) stored)) /\
  clock (snd (Send c t p w)) = clock w /\
  redis_down (snd (Send c t p w)) = redis_down w.
Proof.
  intros Hr Htpl Hpass Hgw code stored. subst c. unfold Send. cbn [New config].
  rewrite Htpl. unfold bind.
  rewrite (surjective_pairing (checkSendLimit _ t p w)), Hpass.
  rewrite (checkSendLimit_pass cfg t p w Hr Hpass).
  match goal with
  | |- context [generateCode ?x] =>
      pose proof (generateCode_run x) as HG; pose proof (generateCode_value x) as HV;
      destruct (generateCode x) as [code' w2]
  end.
  cbn [fst snd] in HG, HV. subst w2.
  unfold code_number in HV. cbn [rand_src clock tick emit] in HV.
  change (S (S (tick w))) with (2 + tick w)%nat in HV.
  fold (code_number w (2 + tick w)) in HV. fold code in HV. subst code'.
  cbn [New repo sms.StoreCode sms.DeleteCode sms.IncrSendCount
                  sms.ResetVerifyFailCount NewCacheRepository].
  unfold StoreCode.
  rewrite redis_facts.Set_up by (cbn [redis_down emit]; apply Hr).
  unfold sendSMS, bind, volcsms.DefaultInstance_Send.
  cbn [sms_gateway tick emit set_rdb].
  replace (S (S (S (S (tick w))))) with (4 + tick w)%nat by reflexivity.
  rewrite Hgw. unfold ret. cbv beta iota.
  unfold IncrSendCount.
  rewrite Pipeline_Exec_up by (cbn [redis_down emit set_rdb]; apply Hr).
  unfold ResetVerifyFailCount.
  rewrite redis_facts.Del_up by (cbn [redis_down emit set_rdb]; apply Hr).
  cbn [fst snd rdb clock redis_down trace emit set_rdb is_Some_b negb].
  unfold deadline_of. destruct (Z.ltb_spec 0 codeTTL) as [_|H]; [|by destruct H].
  repeat split. by rewrite <- !app_assoc.
Qed.
End WithRedisRepository.
End send_run.

Module send_counters.
Import redis smsrepo volcengine smsrepo_facts verify_facts lockout_facts send_facts send_run.

Lemma Atoi_range s n :
  strconv.Atoi s = (n, None) -> strconv.MinInt64 <= n <= strconv.MaxInt64.
Proof.
  unfold strconv.Atoi. destruct (strconv.parse s) as [m|]; [|discriminate].
  destruct (Z.ltb_spec m strconv.MinInt64); [discriminate|].
  destruct (Z.ltb_spec strconv.MaxInt64 m); [discriminate|].
  intros [= <-]. lia.
Qed.

Lemma run_app t l1 l2 db :
  snd (run t (l1 ++ l2) db) = snd (run t l2 (snd (run t l1 db))).
Proof.
  revert db. induction l1 as [|c1 l1 IH]; intros db; [done|].
  cbn [app run]. destruct (exec t c1 db) as [r db1].
  specialize (IH db1). destruct (run t (l1 ++ l2) db1) as [rs db2].
  destruct (run t l1 db1) as [rs1 db3]. cbn [snd] in *. exact IH.
Qed.

(** Counting once: the counter goes up by one and its window starts anew. *)
Lemma bump_counter t k ttl db n :
  0 < ttl ->
  match peek t db k with
  | None => n = 0
  | Some e => strconv.Atoi (e_val e) = (n, None)
  end ->
  n < strconv.MaxInt64 ->
  snd (run t [INCR k; EXPIRE k ttl] db) =
    <[k := Entry (strconv.Itoa (n + 1)) (Some (t + ttl))]> db.
Proof.
  intros Httl Hread Hmax. destruct (peek t db k) as [e|] eqn:Hp.
  - pose proof (Atoi_range _ _ Hread) as Hrange.
    apply (bump_held t k ttl db e n Httl Hp (strconv_facts.Atoi_ok _ _ Hread)). lia.
  - subst n. by apply bump_fresh.
Qed.

(** What the limit check read when it let the send through. *)
Lemma checkSendLimit_counts cfg t p w :
  redis_up w ->
  fst (checkSendLimit (New cfg NewCacheRepository) t p w) = None ->
  exists mc dc,
    counter_reads w (minuteKey t p) mc /\ counter_reads w (dayKey t p) dc /\
    mc < maxPerMin /\ dc < maxPerDay.
Proof.
  intros Hr. unfold checkSendLimit, bind.
  cbn [New repo sms.GetSendCount NewCacheRepository].
  rewrite (GetSendCount_run t p w Hr). unfold counter_reads.
  pose proof (Atoi_not_Nil) as HNil.
  destruct (peek (clock w) (rdb w) (minuteKey t p)) as [em|];
    destruct (peek (clock w) (rdb w) (dayKey t p)) as [ed|]; cbn [fst snd].
  - specialize (HNil (e_val em)) as Hm. pose proof (Atoi_not_Nil (e_val ed)) as Hd.
    destruct (strconv.Atoi (e_val em)) as [mc [e|]]; cbn [fst snd is_Some_b andb] in *.
    + rewrite Hm. cbn. discriminate.
    + destruct (strconv.Atoi (e_val ed)) as [dc [e|]]; cbn [fst snd is_Some_b andb] in *.
      * rewrite Hd. cbn. discriminate.
      * unfold ret. cbn [fst].
        destruct (Z.leb_spec maxPerMin mc); [discriminate|].
        destruct (Z.leb_spec maxPerDay dc); [discriminate|].
        intros _. by exists mc, dc.
  - specialize (HNil (e_val em)) as Hm.
    destruct (strconv.Atoi (e_val em)) as [mc [e|]]; cbn [fst snd is_Some_b andb] in *.
    + rewrite Hm. cbn. discriminate.
    + unfold ret. cbn.
      destruct (Z.leb_spec maxPerMin mc); [discriminate|].
      intros _. exists mc, 0. by repeat split.
  - pose proof (Atoi_not_Nil (e_val ed)) as Hd.
    cbn.
    destruct (strconv.Atoi (e_val ed)) as [dc [e|]]; cbn [fst snd is_Some_b andb] in *.
    + rewrite Hd. cbn. discriminate.
    + unfold ret. cbn.
      destruct (Z.leb_spec maxPerDay dc); [discriminate|].
      intros _. exists 0, dc. by repeat split.
  - cbn. intros _. exists 0, 0. by repeat split.
Qed.
End send_counters.

Module send_after.
Import redis smsrepo volcengine smsrepo_facts verify_facts lockout_facts send_facts
       send_run send_counters.

Lemma count_send_split t p :
  count_send t p =
    [INCR (minuteKey t p); EXPIRE (minuteKey t p) time.Minute]
    ++ [INCR (dayKey t p); EXPIRE (dayKey t p) (24 * time.Hour)].
Proof. reflexivity. Qed.

(** The keyspace after a send that went through: the code, both counters one
    up with their windows started anew, and no failure counter. *)
Lemma Send_keyspace cfg t p w :
  redis_up w ->
  fst (Send (New cfg NewCacheRepository) t p w) = None ->
  let after := snd (Send (New cfg NewCacheRepository) t p w) in
  exists tpl mc dc,
    sms.Templates cfg !! t = Some tpl /\
    counter_reads w (minuteKey t p) mc /\ counter_reads w (dayKey t p) dc /\
    mc < maxPerMin /\ dc < maxPerDay /\
    trace after =
      trace w ++ send_events t p tpl (fmt.Sprintf_06d (code_number w (2 + tick w))) /\
    rdb after !! codeKey t p =
      Some (Entry (fmt.Sprintf_06d (code_number w (2 + tick w))) (Some (clock w + codeTTL))) /\
    rdb after !! verifyFailKey t p = None /\
    rdb after !! minuteKey t p =
      Some (Entry (strconv.Itoa (mc + 1)) (Some (clock w + time.Minute))) /\
    rdb after !! dayKey t p =
      Some (Entry (strconv.Itoa (dc + 1)) (Some (clock w + 24 * time.Hour))) /\
    clock after = clock w /\ redis_down after = redis_down w.
Proof.
  intros Hr Hnil after.
  destruct (Send_nil_inv cfg t p w Hr Hnil) as (tpl & Htpl & Hpass & Hgw).
  destruct (checkSendLimit_counts cfg t p w Hr Hpass) as (mc & dc & Hmc & Hdc & Hm & Hd).
  destruct (Send_delivered cfg t p w tpl Hr Htpl Hpass Hgw)
    as (_ & Htrace & Hrdb & Hclock & Hdown).
  exists tpl, mc, dc. fold after in Htrace, Hrdb, Hclock, Hdown.
  set (code := fmt.Sprintf_06d (code_number w (2 + tick w))) in *.
  set (stored := <[codeKey t p := Entry code (Some (clock w + codeTTL))]> (rdb w)) in *.
  assert (Hpm : peek (clock w) stored (minuteKey t p) = peek (clock w) (rdb w) (minuteKey t p)).
  { unfold peek, stored. by rewrite lookup_insert_ne by apply codeKey_minuteKey. }
  assert (Hstep1 : snd (run (clock w) [INCR (minuteKey t p); EXPIRE (minuteKey t p) time.Minute]
                          stored) =
                   <[minuteKey t p := Entry (strconv.Itoa (mc + 1))
                                        (Some (clock w + time.Minute))]> stored).
  { apply bump_counter; [reflexivity| |unfold maxPerMin, strconv.MaxInt64 in *; lia].
    rewrite Hpm. exact Hmc. }
  assert (Hpd : peek (clock w)
                  (<[minuteKey t p := Entry (strconv.Itoa (mc + 1))
                                        (Some (clock w + time.Minute))]> stored) (dayKey t p)
                = peek (clock w) (rdb w) (dayKey t p)).
  { unfold peek, stored. rewrite lookup_insert_ne by apply minuteKey_dayKey.
    by rewrite lookup_insert_ne by apply codeKey_dayKey. }
  assert (Hstep2 : snd (run (clock w) (count_send t p) stored) =
                   <[dayKey t p := Entry (strconv.Itoa (dc + 1))
                                     (Some (clock w + 24 * time.Hour))]>
                     (<[minuteKey t p := Entry (strconv.Itoa (mc + 1))
                                           (Some (clock w + time.Minute))]> stored)).
  { rewrite count_send_split, run_app, Hstep1.
    apply bump_counter; [reflexivity| |unfold maxPerDay, strconv.MaxInt64 in *; lia].
    rewrite Hpd. exact Hdc. }
  rewrite Hrdb, Hstep2. repeat split; try done.
  - rewrite lookup_delete_ne by (apply not_eq_sym, codeKey_verifyFailKey).
    rewrite lookup_insert_ne by (apply not_eq_sym, codeKey_dayKey).
    rewrite lookup_insert_ne by (apply not_eq_sym, codeKey_minuteKey).
    unfold stored. by rewrite lookup_insert_eq.
  - by rewrite lookup_delete_eq.
  - rewrite lookup_delete_ne by apply verifyFailKey_minuteKey.
    rewrite lookup_insert_ne by (apply not_eq_sym, minuteKey_dayKey).
    by rewrite lookup_insert_eq.
  - rewrite lookup_delete_ne by apply verifyFailKey_dayKey.
    by rewrite lookup_insert_eq.
Qed.

(** With no failure counter and no live code, every candidate is refused
    and nothing is written. *)
Lemma Verify_nothing_stored cfg t p code w :
  redis_up w ->
  peek (clock w) (rdb w) (verifyFailKey t p) = None ->
  peek (clock w) (rdb w) (codeKey t p) = None ->
  Verify (New cfg NewCacheRepository) t p code w =
    (Some sms.ErrCodeInvalid,
     emit (EvRedis [GET (codeKey t p)] true)
       (emit (EvRedis [GET (verifyFailKey t p)] true) w)).
Proof.
  intros Hr Hf Hc.
  apply (Verify_absent cfg t p code w 0); try apply Hr; try done.
  by rewrite (GetVerifyFailCount_up _ _ _ (Hr _)), Hf.
Qed.
End send_after.

Module code_use.
Import redis smsrepo volcengine smsrepo_facts verify_facts lockout_facts send_facts
       send_run send_counters send_after.

(** The code a send delivers is the code it stores, and it can be used
    once.  A send that returns [nil] over a Redis that answers handed the
    gateway, for the configured template, the six-character rendering of the
    number drawn; it stored the same string for five minutes; within that
    time [Verify] accepts it; and after that acceptance every candidate, the
    code included, is refused with [ErrCodeInvalid], at any later time. *)
Theorem sent_code_verifies_once (cfg : sms.Config) (t p : string) (w : World) :
  let c := New cfg NewCacheRepository in
  let sent := snd (Send c t p w) in
  let code := fmt.Sprintf_06d (code_number w (2 + tick w)) in
  redis_up w ->
  fst (Send c t p w) = None ->
  (exists tpl,
     sms.Templates cfg !! t = Some tpl /\
     trace sent = trace w ++ send_events t p tpl code) /\
  rdb sent !! codeKey t p = Some (Entry code (Some (clock w + codeTTL))) /\
  forall d, 0 <= d < codeTTL ->
    let used := snd (Verify c t p code (elapse d sent)) in
    fst (Verify c t p code (elapse d sent)) = None /\
    forall d' code', 0 <= d' ->
      fst (Verify c t p code' (elapse d' used)) = Some sms.ErrCodeInvalid.
Proof.
  intros c sent code Hr Hnil.
  destruct (Send_keyspace cfg t p w Hr Hnil)
    as (tpl & mc & dc & Htpl & _ & _ & _ & _ & Htrace & Hcode & Hfail & _ & _ & Hclock & Hdown).
  fold c sent code in Htrace, Hcode, Hfail, Hclock, Hdown.
  split; [by exists tpl|]. split; [exact Hcode|].
  intros d Hd used.
  assert (Hup : redis_up (elapse d sent)).
  { intros k. cbn [redis_down elapse]. rewrite Hdown. apply Hr. }
  assert (Hread : fst (GetVerifyFailCount t p (elapse d sent)) = (0, None)).
  { rewrite (GetVerifyFailCount_up _ _ _ (Hup _)). unfold peek. cbn [fst rdb elapse].
    by rewrite Hfail. }
  assert (Hpeek : peek (clock (elapse d sent)) (rdb (elapse d sent)) (codeKey t p) =
                  Some (Entry code (Some (clock w + codeTTL)))).
  { apply peek_live; [exact Hcode|]. unfold live. cbn [e_deadline clock elapse].
    rewrite Hclock. apply Z.ltb_lt. lia. }
  destruct (Verify_right cfg t p code (elapse d sent) 0 (Entry code (Some (clock w + codeTTL)))
              (Hup _) (Hup _) (Hup _) (Hup _) Hread) as [Hok Hrdb]; try done.
  fold c in Hok, Hrdb. fold used in Hrdb.
  split; [exact Hok|]. intros d' code' Hd'.
  assert (Hdown' : redis_down used = redis_down (elapse d sent)).
  { unfold used, c, Verify, bind.
    cbn [New repo sms.GetVerifyFailCount sms.GetCode sms.DeleteCode
           sms.ResetVerifyFailCount sms.IncrVerifyFailCount NewCacheRepository].
    rewrite (surjective_pairing (GetVerifyFailCount t p (elapse d sent))), Hread.
    rewrite (GetVerifyFailCount_up _ _ _ (Hup _)). cbn [snd].
    destruct (Z.leb_spec maxVerifyFails 0) as [H|_]; [unfold maxVerifyFails in H; lia|].
    rewrite GetCode_up by apply Hup. cbn [clock rdb emit]. rewrite Hpeek.
    cbn [e_val]. rewrite String.eqb_refl. cbn [negb].
    unfold DeleteCode, ResetVerifyFailCount.
    rewrite redis_facts.Del_up by apply Hup.
    rewrite redis_facts.Del_up by apply Hup. reflexivity. }
  assert (Hup' : redis_up (elapse d' used)).
  { intros k. cbn [redis_down elapse]. rewrite Hdown'. apply Hup. }
  unfold c. rewrite Verify_nothing_stored; [done|exact Hup'| |].
  - unfold peek. cbn [rdb elapse]. rewrite Hrdb. by rewrite lookup_delete_eq.
  - unfold peek. cbn [rdb elapse]. rewrite Hrdb.
    rewrite lookup_delete_ne by (apply not_eq_sym, codeKey_verifyFailKey).
    by rewrite lookup_delete_eq.
Qed.
End code_use.

Module code_use_examples.
Import redis smsrepo volcengine scenario.

Lemma sent_code_verifies_once_witness :
  (exists tpl,
     sms.Templates smsConfig !! "login" = Some tpl /\
     trace sent = trace world0 ++ send_events "login" phone tpl "482913") /\
  rdb sent !! codeKey "login" phone = Some stored /\
  forall d, 0 <= d < codeTTL ->
    let used := snd (Verify client "login" phone "482913" (elapse d sent)) in
    fst (Verify client "login" phone "482913" (elapse d sent)) = None /\
    forall d' code', 0 <= d' ->
      fst (Verify client "login" phone code' (elapse d' used)) = Some sms.ErrCodeInvalid.
Proof.
  apply (code_use.sent_code_verifies_once smsConfig "login" phone world0).
  - intros n. reflexivity.
  - vm_compute. reflexivity.
Defined.
End code_use_examples.

Module code_expiry.
Import redis smsrepo volcengine smsrepo_facts verify_facts lockout_facts send_facts
       send_run send_counters send_after.

(** A code is good for five minutes and no longer.  From five minutes
    after a send that went through, every candidate, the code sent included,
    is refused with [ErrCodeInvalid]; the refusal takes two reads and writes
    nothing, so it does not count as a failed attempt. *)
Theorem sent_code_expires (cfg : sms.Config) (t p code : string) (w : World) (d : Z) :
  let c := New cfg NewCacheRepository in
  let late := elapse d (snd (Send c t p w)) in
  redis_up w ->
  fst (Send c t p w) = None ->
  codeTTL <= d ->
  Verify c t p code late =
    (Some sms.ErrCodeInvalid,
     emit (EvRedis [GET (codeKey t p)] true)
       (emit (EvRedis [GET (verifyFailKey t p)] true) late)).
Proof.
  intros c late Hr Hnil Hd.
  destruct (Send_keyspace cfg t p w Hr Hnil)
    as (tpl & mc & dc & _ & _ & _ & _ & _ & _ & Hcode & Hfail & _ & _ & Hclock & Hdown).
  fold c in Hcode, Hfail, Hclock, Hdown.
  apply Verify_nothing_stored.
  - intros k. unfold late. cbn [redis_down elapse]. rewrite Hdown. apply Hr.
  - unfold peek, late. cbn [rdb elapse]. by rewrite Hfail.
  - unfold peek, late. cbn [rdb clock elapse]. rewrite Hcode, Hclock.
    unfold live. cbn [e_deadline].
    by destruct (Z.ltb_spec (clock w + d) (clock w + codeTTL)); [lia|].
Qed.
End code_expiry.

Module code_expiry_examples.
Import redis smsrepo volcengine scenario.

Lemma sent_code_expires_witness :
  Verify client "login" phone "482913" (elapse codeTTL sent) =
    (Some sms.ErrCodeInvalid,
     emit (EvRedis [GET (codeKey "login" phone)] true)
       (emit (EvRedis [GET (verifyFailKey "login" phone)] true) (elapse codeTTL sent))).
Proof.
  apply (code_expiry.sent_code_expires smsConfig "login" phone "482913" world0 codeTTL).
  - intros n. reflexivity.
  - vm_compute. reflexivity.
  - vm_compute. discriminate.
Defined.
End code_expiry_examples.

Module send_limits.
Import redis smsrepo volcengine smsrepo_facts verify_facts lockout_facts send_facts
       send_run send_counters send_after.

(** What the limit check answers, read off the two counters. *)
Lemma checkSendLimit_by_counts cfg t p w mc dc :
  redis_up w ->
  counter_reads w (minuteKey t p) mc -> counter_reads w (dayKey t p) dc ->
  checkSendLimit (New cfg NewCacheRepository) t p w =
    (if maxPerMin <=? mc then Some sms.ErrSendTooFrequent
     else if maxPerDay <=? dc then Some sms.ErrDailyLimitExceeded
     else None,
     emit (EvRedis [GET (dayKey t p)] true) (emit (EvRedis [GET (minuteKey t p)] true) w)).
Proof.
  intros Hr Hmc Hdc. unfold checkSendLimit, bind.
  cbn [New repo sms.GetSendCount NewCacheRepository].
  rewrite (GetSendCount_run t p w Hr). unfold counter_reads in *.
  destruct (peek (clock w) (rdb w) (minuteKey t p)) as [em|];
    destruct (peek (clock w) (rdb w) (dayKey t p)) as [ed|];
    rewrite ?Hmc, ?Hdc; subst; cbn; reflexivity.
Qed.

(** A refused send changes nothing in the keyspace and sends nothing. *)
Lemma Send_refused cfg t p w tpl e :
  sms.Templates cfg !! t = Some tpl ->
  checkSendLimit (New cfg NewCacheRepository) t p w =
    (Some e, emit (EvRedis [GET (dayKey t p)] true)
               (emit (EvRedis [GET (minuteKey t p)] true) w)) ->
  Send (New cfg NewCacheRepository) t p w =
    (Some e, emit (EvRedis [GET (dayKey t p)] true)
               (emit (EvRedis [GET (minuteKey t p)] true) w)).
Proof.
  intros Htpl Hchk. unfold Send. cbn [New config]. rewrite Htpl. unfold bind.
  change (checkSendLimit {| config := cfg; repo := NewCacheRepository |} t p w)
    with (checkSendLimit (New cfg NewCacheRepository) t p w).
  by rewrite Hchk.
Qed.

Lemma counter_reads_entry w key n deadline :
  rdb w !! key = Some (Entry (strconv.Itoa n) (Some deadline)) ->
  clock w < deadline ->
  strconv.MinInt64 <= n <= strconv.MaxInt64 ->
  counter_reads w key n.
Proof.
  intros He Hlive Hrange. unfold counter_reads.
  erewrite peek_live; [|exact He|].
  - cbn [e_val]. by apply strconv_facts.Atoi_Itoa.
  - unfold live. cbn [e_deadline]. by apply Z.ltb_lt.
Qed.

Lemma counter_reads_expired w key e deadline :
  rdb w !! key = Some e -> e_deadline e = Some deadline -> deadline <= clock w ->
  counter_reads w key 0.
Proof.
  intros He Hd Hle. unfold counter_reads, peek. rewrite He. unfold live. rewrite Hd.
  by destruct (Z.ltb_spec (clock w) deadline); [lia|].
Qed.

Lemma counter_reads_range w key n :
  counter_reads w key n -> strconv.MinInt64 <= n <= strconv.MaxInt64.
Proof.
  unfold counter_reads. destruct (peek _ _ _); [apply Atoi_range|].
  intros ->. unfold strconv.MinInt64, strconv.MaxInt64. lia.
Qed.
End send_limits.

Module minute_limit.
Import redis smsrepo volcengine smsrepo_facts verify_facts lockout_facts send_facts
       send_run send_counters send_after send_limits.

(** One send a minute.  After a send that went through at a moment when
    the minute counter held no live entry, a further send for the same
    purpose and phone within the next sixty seconds is refused with
    [ErrSendTooFrequent] after the two counter reads: no code is drawn or
    stored, the gateway is not called, and the code sent before stays as it
    was. *)
Theorem second_send_within_a_minute_is_refused
    (cfg : sms.Config) (t p : string) (w : World) (d : Z) :
  let c := New cfg NewCacheRepository in
  let again := elapse d (snd (Send c t p w)) in
  redis_up w ->
  fst (Send c t p w) = None ->
  peek (clock w) (rdb w) (minuteKey t p) = None ->
  0 <= d < time.Minute ->
  Send c t p again =
    (Some sms.ErrSendTooFrequent,
     emit (EvRedis [GET (dayKey t p)] true)
       (emit (EvRedis [GET (minuteKey t p)] true) again)).
Proof.
  intros c again Hr Hnil Hmin Hd.
  destruct (Send_keyspace cfg t p w Hr Hnil)
    as (tpl & mc & dc & Htpl & Hmc & Hdc & _ & Hdlt & _ & _ & _ & Hmk & Hdk & Hclock & Hdown).
  fold c in Hmk, Hdk, Hclock, Hdown.
  unfold counter_reads in Hmc. rewrite Hmin in Hmc. subst mc.
  pose proof (counter_reads_range _ _ _ Hdc) as Hdr.
  assert (Hup : redis_up again).
  { intros k. unfold again. cbn [redis_down elapse]. rewrite Hdown. apply Hr. }
  apply (Send_refused cfg t p again tpl); [done|].
  rewrite (checkSendLimit_by_counts cfg t p again 1 (dc + 1) Hup).
  - reflexivity.
  - apply (counter_reads_entry again _ 1 (clock w + time.Minute)).
    + exact Hmk.
    + unfold again. cbn [clock elapse]. lia.
    + unfold strconv.MinInt64, strconv.MaxInt64. lia.
  - apply (counter_reads_entry again _ (dc + 1) (clock w + 24 * time.Hour)).
    + exact Hdk.
    + unfold again. cbn [clock elapse]. unfold time.Minute, time.Hour, time.Minute in *. lia.
    + unfold maxPerDay, strconv.MinInt64, strconv.MaxInt64 in *. lia.
Qed.
End minute_limit.

Module minute_limit_examples.
Import redis smsrepo volcengine scenario.

Lemma second_send_within_a_minute_is_refused_witness :
  Send client "login" phone (elapse (30 * time.Second) sent) =
    (Some sms.ErrSendTooFrequent,
     emit (EvRedis [GET (dayKey "login" phone)] true)
       (emit (EvRedis [GET (minuteKey "login" phone)] true)
          (elapse (30 * time.Second) sent))).
Proof.
  apply (minute_limit.second_send_within_a_minute_is_refused
           smsConfig "login" phone world0 (30 * time.Second)).
  - intros n. reflexivity.
  - vm_compute. reflexivity.
  - vm_compute. reflexivity.
  - vm_compute. split; [discriminate|reflexivity].
Defined.
End minute_limit_examples.

Module day_limit_facts.
Import redis smsrepo volcengine smsrepo_facts verify_facts lockout_facts send_facts
       send_run send_counters send_after send_limits.

Section WithRedisRepository.
Variable cfg : sms.Config.
Let c : Client := New cfg NewCacheRepository.

Lemma send_step t p w k d :
  0 <= k ->
  redis_up w ->
  0 <= d < 24 * time.Hour ->
  (k = 0 /\ rdb w !! dayKey t p = None) \/ counted k t p w ->
  fst (Send c t p (elapse d w)) = None ->
  counted (k + 1) t p (snd (Send c t p (elapse d w))) /\
  redis_down (snd (Send c t p (elapse d w))) = redis_down w /\
  exists tpl, sms.Templates cfg !! t = Some tpl.
Proof.
  intros Hk Hr Hd Hinv Hnil. subst c.
  assert (Hr' : redis_up (elapse d w)) by exact Hr.
  destruct (Send_keyspace cfg t p (elapse d w) Hr' Hnil)
    as (tpl & mc & dc & Htpl & Hmc & Hdc & Hmlt & Hdlt & _ & _ & _ & Hmk & Hdk & Hclock & Hdown).
  pose proof (counter_reads_range _ _ _ Hmc) as Hmr.
  split; [|split; [exact Hdown|by exists tpl]].
  assert (Hge : k <= dc).
  { destruct Hinv as [[-> Hnone]|[(n & Hn & He) _]].
    - unfold counter_reads, peek in Hdc. cbn [rdb elapse] in Hdc. rewrite Hnone in Hdc. lia.
    - unfold counter_reads, peek in Hdc. cbn [rdb clock elapse] in Hdc. rewrite He in Hdc.
      unfold live in Hdc. cbn [e_deadline e_val] in Hdc.
      assert (Hl : (clock w + d <? clock w + 24 * time.Hour) = true) by (apply Z.ltb_lt; lia).
      rewrite Hl in Hdc. cbn [e_val] in Hdc.
      rewrite strconv_facts.Atoi_Itoa in Hdc
        by (unfold maxPerDay, strconv.MinInt64, strconv.MaxInt64 in *; lia).
      injection Hdc as <-. lia. }
  split.
  - exists (dc + 1). split; [lia|]. by rewrite Hdk, Hclock.
  - exists (mc + 1). split; [lia|]. by rewrite Hmk, Hclock.
Qed.

Lemma sends_run t p delays :
  forall w k,
    0 <= k ->
    redis_up w ->
    Forall (fun d => 0 <= d < 24 * time.Hour) delays ->
    (k = 0 /\ rdb w !! dayKey t p = None) \/ counted k t p w ->
    Forall (fun r => r = None) (fst (send_each c t p delays w)) ->
    delays <> [] ->
    counted (k + Z.of_nat (length delays)) t p (snd (send_each c t p delays w)) /\
    redis_down (snd (send_each c t p delays w)) = redis_down w /\
    exists tpl, sms.Templates cfg !! t = Some tpl.
Proof.
  induction delays as [|d rest IH]; intros w k Hk Hr Hall Hinv Hres Hne; [done|].
  inversion Hall as [|? ? Hd Hrest]; subst.
  cbn [send_each] in *.
  pose proof (send_step t p w k d Hk Hr Hd Hinv) as Hstep.
  destruct (Send c t p (elapse d w)) as [r w1]. cbn [fst snd] in Hstep.
  destruct (send_each c t p rest w1) as [rs w2] eqn:Hrun. cbn [fst snd] in *.
  inversion Hres as [|? ? Hr1 Hrs]; subst.
  destruct (Hstep eq_refl) as (Hcnt & Hdown & Htpl).
  destruct rest as [|d2 rest'].
  - cbn in Hrun. injection Hrun as <- <-. cbn [length]. split; [|done].
    by replace (k + Z.of_nat 1) with (k + 1) by lia.
  - destruct (IH w1 (k + 1)) as (Hcnt2 & Hdown2 & _); try done.
    + lia.
    + intros n. rewrite Hdown. apply Hr.
    + by right.
    + by rewrite Hrun.
    + rewrite Hrun in Hcnt2, Hdown2. cbn [snd] in *.
      split; [|split; [congruence|done]].
      replace (k + Z.of_nat (length (d :: d2 :: rest')))
        with (k + 1 + Z.of_nat (length (d2 :: rest'))) by (cbn [length]; lia).
      exact Hcnt2.
Qed.
End WithRedisRepository.
End day_limit_facts.

Module day_limit.
Import redis smsrepo volcengine smsrepo_facts verify_facts lockout_facts send_facts
       send_run send_counters send_after send_limits day_limit_facts.

(** Six sends a day, counted in a window that slides.  Starting with no
    day counter, after six sends that all went through, each less than 24
    hours after the one before, every further send within 24 hours of the
    sixth is refused, with [ErrSendTooFrequent] or [ErrDailyLimitExceeded],
    and from one minute after the sixth on with [ErrDailyLimitExceeded];
    the refusal makes the two counter reads and nothing else. *)
Theorem seventh_send_is_refused
    (cfg : sms.Config) (t p : string) (delays : list Z) (w : World) (d : Z) :
  let c := New cfg NewCacheRepository in
  let w6 := snd (send_each c t p delays w) in
  let reads w' :=
    emit (EvRedis [GET (dayKey t p)] true) (emit (EvRedis [GET (minuteKey t p)] true) w') in
  redis_up w ->
  rdb w !! dayKey t p = None ->
  length delays = 6%nat ->
  Forall (fun d => 0 <= d < 24 * time.Hour) delays ->
  Forall (fun r => r = None) (fst (send_each c t p delays w)) ->
  0 <= d < 24 * time.Hour ->
  (Send c t p (elapse d w6) = (Some sms.ErrSendTooFrequent, reads (elapse d w6)) \/
   Send c t p (elapse d w6) = (Some sms.ErrDailyLimitExceeded, reads (elapse d w6))) /\
  (time.Minute <= d ->
   Send c t p (elapse d w6) = (Some sms.ErrDailyLimitExceeded, reads (elapse d w6))).
Proof.
  intros c w6 reads Hr Hfresh Hlen Hall Hres Hd.
  destruct (sends_run cfg t p delays w 0) as (Hcnt & Hdown & tpl & Htpl); try done.
  { by left. }
  { intros ->. discriminate. }
  fold c w6 in Hcnt, Hdown. rewrite Hlen in Hcnt.
  destruct Hcnt as [(n & Hn & Hdk) (m & Hm & Hmk)].
  assert (n = 6) as -> by (unfold maxPerDay in Hn; lia).
  assert (Hup : redis_up (elapse d w6)).
  { intros k. cbn [redis_down elapse]. rewrite Hdown. apply Hr. }
  assert (Hday : counter_reads (elapse d w6) (dayKey t p) 6).
  { apply (counter_reads_entry _ _ 6 (clock w6 + 24 * time.Hour)).
    - exact Hdk.
    - cbn [clock elapse]. lia.
    - unfold strconv.MinInt64, strconv.MaxInt64. lia. }
  assert (Hlate : time.Minute <= d ->
                  Send c t p (elapse d w6) =
                    (Some sms.ErrDailyLimitExceeded, reads (elapse d w6))).
  { intros Hmin. apply (Send_refused cfg t p _ tpl _ Htpl).
    rewrite (checkSendLimit_by_counts cfg t p _ 0 6 Hup); [reflexivity| |exact Hday].
    apply (counter_reads_expired (elapse d w6) _ _ (clock w6 + time.Minute) Hmk); [done|].
    cbn [clock elapse]. lia. }
  split; [|exact Hlate].
  destruct (Z.lt_ge_cases d time.Minute) as [Hlt|Hge]; [|right; by apply Hlate].
  assert (Hminute : counter_reads (elapse d w6) (minuteKey t p) m).
  { apply (counter_reads_entry _ _ m (clock w6 + time.Minute)).
    - exact Hmk.
    - cbn [clock elapse]. lia.
    - unfold maxPerMin, strconv.MinInt64, strconv.MaxInt64 in *. lia. }
  pose proof (checkSendLimit_by_counts cfg t p _ m 6 Hup Hminute Hday) as Hchk.
  destruct (Z.leb_spec maxPerMin m).
  - left. by apply (Send_refused cfg t p _ tpl _ Htpl).
  - right. by apply (Send_refused cfg t p _ tpl _ Htpl).
Qed.
End day_limit.

Module day_limit_examples.
Import redis smsrepo volcengine scenario.

(** Six sends, 61 seconds apart, and a seventh two minutes later. *)
Lemma seventh_send_is_refused_witness :
  let w6 := snd (send_each client "login" phone (repeat (61 * time.Second) 6) world0) in
  Send client "login" phone (elapse (2 * time.Minute) w6) =
    (Some sms.ErrDailyLimitExceeded,
     emit (EvRedis [GET (dayKey "login" phone)] true)
       (emit (EvRedis [GET (minuteKey "login" phone)] true) (elapse (2 * time.Minute) w6))).
Proof.
  refine (proj2 (day_limit.seventh_send_is_refused smsConfig "login" phone
                   (repeat (61 * time.Second) 6) world0 (2 * time.Minute) _ _ _ _ _ _) _).
  - intros n. reflexivity.
  - reflexivity.
  - reflexivity.
  - repeat constructor; vm_compute; discriminate.
  - vm_compute. repeat constructor.
  - vm_compute. split; [discriminate|reflexivity].
  - vm_compute. discriminate.
Defined.
End day_limit_examples.

(** ** The shape of a code *)

Module digits_facts.
Import strings_facts.

Lemma string_of_uint_length d :
  String.length (NilEmpty.string_of_uint d) = Decimal.nb_digits d.
Proof. induction d; cbn; congruence. Qed.

Lemma string_of_uint_digits d : all_digits (NilEmpty.string_of_uint d) = true.
Proof. induction d; cbn; try done. Qed.

Lemma usize_nb_digits d :
  DecimalPos.Unsigned.usize d = N.of_nat (Decimal.nb_digits d).
Proof. induction d; cbn [DecimalPos.Unsigned.usize Decimal.nb_digits]; lia. Qed.

(** A numeral without leading zero is at least the power of ten of its
    length less one. *)
Lemma of_lu_rev_lower d d' :
  Decimal.nzhead d = d -> d <> Decimal.Nil ->
  d' = DecimalPos.Unsigned.tl d ->
  (10 ^ DecimalPos.Unsigned.usize d' <= DecimalPos.Unsigned.of_lu (Decimal.rev d))%N.
Proof.
  intros Hnz Hne ->.
  assert (H0 : forall u, Decimal.nzhead (Decimal.D0 u) <> Decimal.D0 u).
  { intros u Heq. cbn in Heq. pose proof (nb_digits_nzhead u) as Hle.
    rewrite Heq in Hle. cbn in Hle. lia. }
  destruct d as [|u|u|u|u|u|u|u|u|u|u]; try done; try (by destruct (H0 u));
    unfold Decimal.rev; cbn [Decimal.revapp DecimalPos.Unsigned.tl];
    rewrite DecimalPos.Unsigned.of_lu_revapp; cbn [DecimalPos.Unsigned.of_lu]; nia.
Qed.

Lemma to_uint_digits p :
  Z.pos p < 1000000 -> (Decimal.nb_digits (Pos.to_uint p) <= 6)%nat.
Proof.
  intros Hlt.
  pose proof (DecimalPos.Unsigned.of_to p) as Hof.
  pose proof (DecimalPos.Unsigned.to_of (Pos.to_uint p)) as Hto.
  rewrite Hof in Hto. cbn [N.to_uint] in Hto.
  pose proof (DecimalPos.Unsigned.to_uint_nonzero p) as Hnz.
  pose proof (DecimalPos.Unsigned.to_uint_nonnil p) as Hnn.
  assert (Hhead : Decimal.nzhead (Pos.to_uint p) = Pos.to_uint p).
  { unfold Decimal.unorm in Hto.
    destruct (Decimal.nzhead (Pos.to_uint p)) eqn:Hh; done. }
  pose proof (of_lu_rev_lower (Pos.to_uint p) _ Hhead Hnn eq_refl) as Hlow.
  rewrite <- DecimalPos.Unsigned.of_uint_alt, Hof in Hlow.
  rewrite usize_nb_digits in Hlow.
  assert (Hpow : (10 ^ N.of_nat (Decimal.nb_digits (DecimalPos.Unsigned.tl (Pos.to_uint p)))
                  < 10 ^ 6)%N) by (change (10 ^ 6)%N with 1000000%N; lia).
  apply N.pow_lt_mono_r_iff in Hpow; [|lia].
  destruct (Pos.to_uint p); cbn [DecimalPos.Unsigned.tl Decimal.nb_digits] in *; lia.
Qed.

(** A number below a million prints in at most six digits. *)
Lemma Itoa_digits n :
  0 <= n < 1000000 ->
  (String.length (strconv.Itoa n) <= 6)%nat /\ all_digits (strconv.Itoa n) = true.
Proof.
  intros Hn. unfold strconv.Itoa. destruct n as [|p|p]; [split; [cbn; lia|reflexivity]| |lia].
  cbn [Z.to_int NilZero.string_of_int]. unfold NilZero.string_of_uint.
  pose proof (DecimalPos.Unsigned.to_uint_nonnil p) as Hnn.
  pose proof (to_uint_digits p (proj2 Hn)) as Hlen.
  rewrite <- string_of_uint_length in Hlen.
  pose proof (string_of_uint_digits (Pos.to_uint p)) as Hd.
  destruct (Pos.to_uint p); [done|..]; by split.
Qed.

Lemma zeros_length k : String.length (fmt.zeros k) = k.
Proof. induction k; cbn; congruence. Qed.

Lemma all_digits_app s t : all_digits (s +:+ t) = all_digits s && all_digits t.
Proof.
  induction s as [|a s IH]; [done|]. rewrite app_cons. cbn [all_digits].
  by rewrite IH, andb_assoc.
Qed.

Lemma zeros_digits k : all_digits (fmt.zeros k) = true.
Proof. induction k; [done|]. cbn [fmt.zeros all_digits]. by rewrite IHk. Qed.

(** [%06d] of a number below a million: six digits. *)
Lemma Sprintf_06d_digits n :
  0 <= n < 1000000 ->
  String.length (fmt.Sprintf_06d n) = 6%nat /\ all_digits (fmt.Sprintf_06d n) = true.
Proof.
  intros Hn. destruct (Itoa_digits n Hn) as [Hlen Hd].
  unfold fmt.Sprintf_06d. destruct (Z.ltb_spec n 0); [lia|]. unfold fmt.pad0. split.
  - rewrite mask_facts.length_app, zeros_length. lia.
  - by rewrite all_digits_app, zeros_digits, Hd.
Qed.
End digits_facts.

Module code_format.
Import volcengine digits_facts.

(** Every code is six decimal digits.  Whatever the random source draws,
    and also when it fails and the clock (not before the epoch) stands in,
    [generateCode] returns a string of exactly six characters, each a digit
    from 0 to 9. *)
Theorem generateCode_six_digits (w : World) :
  0 <= clock w ->
  String.length (fst (generateCode w)) = 6%nat /\
  all_digits (fst (generateCode w)) = true.
Proof.
  intros Hclock. rewrite send_run.generateCode_value. apply Sprintf_06d_digits.
  unfold code_number. destruct (rand_src w (tick w)) as [n|].
  - apply Z.mod_pos_bound. lia.
  - pose proof (Z.rem_bound_pos (clock w) 1000000). lia.
Qed.
End code_format.

Module code_format_examples.
Import volcengine scenario.

Lemma generateCode_six_digits_witness :
  String.length (fst (generateCode world0)) = 6%nat /\
  all_digits (fst (generateCode world0)) = true.
Proof. apply (code_format.generateCode_six_digits world0). vm_compute. discriminate. Defined.

(** A small draw is padded with zeros. *)
Example padded :
  fst (generateCode (mkWorld 0 ∅ ∅ 0 [] (fun _ => false) (fun _ => false)
                       (fun _ => None) (fun _ => "") (fun _ => Some 42))) = "000042".
Proof. vm_compute. reflexivity. Qed.
End code_format_examples.

(** ** Login by verification code *)

Module login_facts.
Import redis smsrepo volcengine smsrepo_facts verify_facts lockout_facts send_after.
Import userlogin.

(** What an accepted code leaves: the code and the failure counter are
    gone. *)
Lemma Verify_nil_inv cfg t p code w :
  redis_up w ->
  fst (Verify (New cfg NewCacheRepository) t p code w) = None ->
  rdb (snd (Verify (New cfg NewCacheRepository) t p code w)) =
    delete (verifyFailKey t p) (delete (codeKey t p) (rdb w)) /\
  clock (snd (Verify (New cfg NewCacheRepository) t p code w)) = clock w /\
  redis_down (snd (Verify (New cfg NewCacheRepository) t p code w)) = redis_down w.
Proof.
  intros Hr. unfold Verify, bind.
  cbn [New repo sms.GetVerifyFailCount sms.GetCode sms.DeleteCode
         sms.ResetVerifyFailCount sms.IncrVerifyFailCount NewCacheRepository].
  rewrite (GetVerifyFailCount_up _ _ _ (Hr _)).
  destruct (match peek (clock w) (rdb w) (verifyFailKey t p) with
            | Some e => strconv.Atoi (e_val e)
            | None => (0, None)
            end) as [n [e|]]; [discriminate|].
  destruct (maxVerifyFails <=? n); [discriminate|].
  rewrite GetCode_up by apply Hr. cbn [clock rdb emit].
  destruct (peek (clock w) (rdb w) (codeKey t p)) as [ce|]; [|discriminate].
  destruct (String.eqb (e_val ce) code); cbn [negb].
  - unfold DeleteCode, ResetVerifyFailCount.
    rewrite redis_facts.Del_up by apply Hr.
    rewrite redis_facts.Del_up by apply Hr. done.
  - unfold IncrVerifyFailCount. rewrite Pipeline_Exec_up by apply Hr. discriminate.
Qed.

Lemma GenerateTokenPair_quiet m userID : leaves_redis_alone (jwt.GenerateTokenPair m userID).
Proof. intros w. by rewrite refresh_facts.GenerateTokenPair_run. Qed.

Lemma login_as_quiet s u isNew : leaves_redis_alone (login_as s u isNew).
Proof.
  intros w. unfold login_as, ret. destruct u as [u|]; [|done]. unfold bind.
  pose proof (GenerateTokenPair_quiet (userservice.jwtManager s) (domain.UserID u) w) as H.
  destruct (jwt.GenerateTokenPair _ _ w) as [[pair [e|]] w1]; exact H.
Qed.

Lemma registerUserByPhone_quiet userRepo ulid_New phone :
  leaves_redis_alone ulid_New ->
  (forall u, leaves_redis_alone (Create userRepo u)) ->
  leaves_redis_alone (registerUserByPhone userRepo ulid_New phone).
Proof.
  intros Hu Hc w. unfold registerUserByPhone, bind, ret.
  pose proof (Hu w) as H1. destruct (ulid_New w) as [[id [e|]] w1]; [exact H1|].
  destruct (_ <? 0); [exact H1|]. cbn [snd] in H1.
  match goal with
  | |- context [Create userRepo ?u w1] =>
      pose proof (Hc u w1) as H2; destruct (Create userRepo u w1) as [[e|] w2]
  end; cbn [snd] in *; destruct H1 as (? & ? & ?), H2 as (? & ? & ?);
    repeat split; congruence.
Qed.

(** What follows the verification in [SMSLogin] leaves Redis alone when the
    repository and the id generator do. *)
Ltac chain_quiet :=
  cbn [snd] in *;
  repeat match goal with H : _ /\ _ |- _ => destruct H end;
  repeat split; congruence.

Lemma SMSLogin_after_Verify s userRepo ulid_New phone code w :
  leaves_redis_alone ulid_New ->
  (forall p, leaves_redis_alone (FindByPhoneNumber userRepo p)) ->
  (forall u, leaves_redis_alone (Create userRepo u)) ->
  let verified :=
    snd (userservice.Verify (userservice.smsClient s) userservice.SMSTypeLogin phone code w) in
  let after := snd (SMSLogin s userRepo ulid_New phone code w) in
  rdb after = rdb verified /\ clock after = clock verified /\
  redis_down after = redis_down verified.
Proof.
  intros Hu Hf Hc verified after. unfold after, verified, SMSLogin, bind, ret.
  destruct (userservice.Verify (userservice.smsClient s) userservice.SMSTypeLogin phone code w)
    as [[e|] w1]; [done|].
  cbn [snd].
  pose proof (Hf phone w1) as H1.
  destruct (FindByPhoneNumber userRepo phone w1) as [[u [e|]] w2].
  - destruct (errors_Is _ _); [|exact H1].
    pose proof (registerUserByPhone_quiet userRepo ulid_New phone Hu Hc w2) as H2.
    destruct (registerUserByPhone userRepo ulid_New phone w2) as [[[u' [e'|]]|reason] w3].
    + chain_quiet.
    + pose proof (login_as_quiet s u' true w3) as H3.
      destruct (login_as s u' true w3) as [r w4]. chain_quiet.
    + chain_quiet.
  - pose proof (login_as_quiet s u false w2) as H3.
    destruct (login_as s u false w2) as [r w4]. chain_quiet.
Qed.
End login_facts.

Module login_spends_code.
Import redis smsrepo volcengine smsrepo_facts verify_facts lockout_facts send_after.
Import userlogin login_facts.

(** A code accepted by [SMSLogin] is spent, however the login ends.  With
    the Redis-backed client over a Redis that answers, and a repository and
    id generator that leave Redis alone: if the verification inside
    [SMSLogin] accepts the code, then, whether the call returns a login, an
    error of the database, or panics, every later [SMSLogin] with that phone
    and any code is refused with SMSCodeInvalid until a new code is sent. *)
Theorem SMSLogin_spends_the_code
    (cfg : sms.Config) (s : userservice.service) (userRepo : Repository)
    (ulid_New : IO (string * option error)) (phone code code' : string)
    (w : World) (d : Z) :
  userservice.smsClient s = as_SMSClient (New cfg NewCacheRepository) ->
  redis_up w ->
  leaves_redis_alone ulid_New ->
  (forall p, leaves_redis_alone (FindByPhoneNumber userRepo p)) ->
  (forall u, leaves_redis_alone (Create userRepo u)) ->
  fst (userservice.Verify (userservice.smsClient s) userservice.SMSTypeLogin phone code w) = None ->
  0 <= d ->
  fst (SMSLogin s userRepo ulid_New phone code'
         (elapse d (snd (SMSLogin s userRepo ulid_New phone code w)))) =
    Returns (None, Some (response.Err response.CodeSMSCodeInvalid "验证码错误或已过期")).
Proof.
  intros Hclient Hr Hu Hf Hc Hok Hd.
  destruct (SMSLogin_after_Verify s userRepo ulid_New phone code w Hu Hf Hc)
    as (Hrdb & Hclock & Hdown).
  rewrite Hclient in Hok, Hrdb, Hclock, Hdown. cbn [as_SMSClient userservice.Verify] in *.
  destruct (Verify_nil_inv cfg _ _ _ _ Hr Hok) as (Hrdb1 & Hclock1 & Hdown1).
  set (after := snd (SMSLogin s userRepo ulid_New phone code w)) in *.
  assert (Hup : redis_up (elapse d after)).
  { intros k. cbn [redis_down elapse]. rewrite Hdown, Hdown1. apply Hr. }
  unfold SMSLogin at 1. unfold bind. rewrite Hclient. cbn [as_SMSClient userservice.Verify].
  rewrite Verify_nothing_stored; [reflexivity|exact Hup| |].
  - unfold peek. cbn [rdb elapse]. rewrite Hrdb, Hrdb1. by rewrite lookup_delete_eq.
  - unfold peek. cbn [rdb elapse]. rewrite Hrdb, Hrdb1.
    rewrite lookup_delete_ne by (apply not_eq_sym, codeKey_verifyFailKey).
    by rewrite lookup_delete_eq.
Qed.
End login_spends_code.

Module login_spends_code_examples.
Import redis smsrepo volcengine scenario scenario_login userlogin.

Lemma table_quiet :
  leaves_redis_alone ulid_New /\
  (forall p, leaves_redis_alone (FindByPhoneNumber table p)) /\
  (forall u, leaves_redis_alone (Create table u)).
Proof. by repeat split. Qed.

Lemma SMSLogin_spends_the_code_witness :
  fst (SMSLogin svc table ulid_New phone "482913"
         (elapse (10 * time.Second)
            (snd (SMSLogin svc table ulid_New phone "482913" sent)))) =
    Returns (None, Some (response.Err response.CodeSMSCodeInvalid "验证码错误或已过期")).
Proof.
  apply (login_spends_code.SMSLogin_spends_the_code smsConfig svc table ulid_New
           phone "482913" "482913" sent (10 * time.Second)).
  - reflexivity.
  - intros n. reflexivity.
  - apply table_quiet.
  - apply table_quiet.
  - apply table_quiet.
  - vm_compute. reflexivity.
  - vm_compute. discriminate.
Defined.

(** Alice logs in with the code she was sent. *)
Example alice_logs_in :
  exists pair,
    fst (SMSLogin svc table ulid_New phone "482913" sent) =
      Returns (Some (mkLoginResult alice (Some pair) false), None).
Proof. eexists. vm_compute. reflexivity. Qed.
End login_spends_code_examples.

Module login_registers.
Import userlogin login_facts.

(** A verified phone the repository does not know is registered on the
    spot, if it has at least four bytes.  When the code is accepted, the
    lookup by phone answers [ErrUserNotFound] and the id generator yields an
    id: for a phone of four bytes or more the new row carries that id, the
    name made of the fixed prefix and the last four bytes of the phone, the
    phone and the status [real_name_unverified]; if the repository takes the
    row, the login succeeds as a new user with tokens minted for that id,
    and if it refuses, the answer is DatabaseError.  For a shorter phone the
    call panics on the slice, after the id was drawn and before anything is
    created. *)
Theorem SMSLogin_registers_unknown_phone
    (s : userservice.service) (userRepo : Repository)
    (ulid_New : IO (string * option error)) (phone code userID : string)
    (found : option domain.User) (w w1 w2 w3 : World) (e : error) :
  let newUser :=
    domain.mkUser userID
      ("用户_" +:+ strings.slice_from phone (String.length phone - 4)) phone
      "real_name_unverified" in
  userservice.Verify (userservice.smsClient s) userservice.SMSTypeLogin phone code w
    = (None, w1) ->
  FindByPhoneNumber userRepo phone w1 = ((found, Some e), w2) ->
  chain_has e domain.ErrUserNotFound = true ->
  ulid_New w2 = ((userID, None), w3) ->
  (4 <= strings.len phone ->
   forall w4,
     (Create userRepo newUser w3 = (None, w4) ->
      SMSLogin s userRepo ulid_New phone code w =
        (let (minted, w5) := jwt.GenerateTokenPair (userservice.jwtManager s) userID w4 in
         (Returns (Some (mkLoginResult newUser (fst minted) true), None), w5))) /\
     (forall failure,
        Create userRepo newUser w3 = (Some failure, w4) ->
        SMSLogin s userRepo ulid_New phone code w =
          (Returns (None, Some (response.Err response.CodeDatabaseError "注册失败")), w4))) /\
  (strings.len phone < 4 ->
   SMSLogin s userRepo ulid_New phone code w = (Panics slice_out_of_range, w3)).
Proof.
  intros newUser HV HF He HU.
  assert (Hrun : SMSLogin s userRepo ulid_New phone code w =
      (let (registered, wr) := registerUserByPhone userRepo ulid_New phone w2 in
       match registered with
       | Panics reason => (Panics reason, wr)
       | Returns (_, Some _) =>
           (Returns (None, Some (response.Err response.CodeDatabaseError "注册失败")), wr)
       | Returns (u, None) => login_as s u true wr
       end)).
  { unfold SMSLogin, bind, ret. rewrite HV, HF. cbn [errors_Is]. rewrite He.
    destruct (registerUserByPhone userRepo ulid_New phone w2) as [[[u [e'|]]|reason] wr];
      reflexivity. }
  rewrite Hrun. unfold registerUserByPhone, bind, ret. rewrite HU.
  split.
  - intros Hlen w4.
    destruct (Z.ltb_spec (strings.len phone - 4) 0); [lia|].
    replace (Z.to_nat (strings.len phone - 4)) with (String.length phone - 4)%nat
      by (unfold strings.len; lia).
    fold newUser. split.
    + intros HC. rewrite HC. unfold login_as, bind, ret.
      rewrite refresh_facts.GenerateTokenPair_run. reflexivity.
    + intros failure HC. by rewrite HC.
  - intros Hlen. by destruct (Z.ltb_spec (strings.len phone - 4) 0); [|lia].
Qed.
End login_registers.

Module login_registers_examples.
Import redis smsrepo volcengine scenario scenario_login userlogin.

Lemma SMSLogin_registers_unknown_phone_witness :
  exists w3 w4,
    Create table newcomer w3 = (None, w4) /\
    SMSLogin svc table ulid_New stranger "482913" sent_to_stranger =
      (let (minted, w5) :=
         jwt.GenerateTokenPair (userservice.jwtManager svc) "01HF7YAT31000000000000000A" w4 in
       (Returns (Some (mkLoginResult newcomer (fst minted) true), None), w5)).
Proof.
  eexists _, _. split; [reflexivity|].
  refine (proj1 (proj1 (login_registers.SMSLogin_registers_unknown_phone
            svc table ulid_New stranger "482913" "01HF7YAT31000000000000000A"
            None sent_to_stranger _ _ _ domain.ErrUserNotFound _ _ _ _) _ _) _).
  - vm_compute. reflexivity.
  - vm_compute. reflexivity.
  - vm_compute. reflexivity.
  - reflexivity.
  - vm_compute. discriminate.
  - reflexivity.
Defined.
End login_registers_examples.

(** ** Outages, guesses against archv2, and conversions *)

Module mask_short_examples.
Import strings smsv2_ext.

Lemma maskPhone_discloses_short_witness :
  (len "1234567" < 7 -> maskPhone "1234567" = "1234567") /\
  (len "1234567" = 7 ->
   slice_to (maskPhone "1234567") 3 +:+ slice_from (maskPhone "1234567") 7 = "1234567").
Proof. apply (mask_short.maskPhone_discloses_short "1234567"). vm_compute. discriminate. Defined.

Example seven_bytes : maskPhone "1234567" = "123****4567".
Proof. vm_compute. reflexivity. Qed.
End mask_short_examples.

Module auth_sound_examples.
Import jwtlib jwtparse jwt middleware scenario scenario_web.

Lemma Handle_admits_only_valid_tokens_witness :
  exists t : Token Claims,
    app.Cookie request jwtcookie.AccessTokenCookieKey = Compact t /\
    Some "u-1001" = Some (UserID (jwtparse.Claims t)) /\
    is_HMAC (Method t) = true /\
    signed_with t = secret (middleware.jwtManager guard) /\
    TokenType (jwtparse.Claims t) = TokenTypeAccess /\
    expired (clock later) (Registered (jwtparse.Claims t)) = false /\
    redis_down later (tick later) = false /\
    match redis.peek (clock later) (rdb later)
            (blacklistKey (ID (Registered (jwtparse.Claims t)))) with
    | Some e => e_val e <> "1"
    | None => True
    end /\
    emit (EvRedis [GET (blacklistKey "uuid-0")] true) later =
      emit (EvRedis [GET (blacklistKey (ID (Registered (jwtparse.Claims t))))] true) later.
Proof.
  apply (auth_sound.Handle_admits_only_valid_tokens guard request later
           (emit (EvRedis [GET (blacklistKey "uuid-0")] true) later) (Some "u-1001")).
  - reflexivity.
  - vm_compute. reflexivity.
  - vm_compute. reflexivity.
Defined.
End auth_sound_examples.

Module auth_fail_closed_examples.
Import jwtlib jwtparse jwt middleware scenario scenario_web.

Lemma Handle_aborts_when_lookup_fails_witness :
  Handle guard request (outage later) =
    (Abort (response_ext.mkJSON response_ext.StatusOK response.CodeCacheError "系统错误"),
     emit (EvRedis [GET (blacklistKey (ID (Registered accessClaims)))] false) (outage later)) /\
  response.IsSystemError response.CodeCacheError = true.
Proof.
  apply (auth_fail_closed.Handle_aborts_when_lookup_fails guard request (outage later)
           accessClaims).
  - reflexivity.
  - vm_compute. reflexivity.
  - vm_compute. reflexivity.
  - reflexivity.
Defined.
End auth_fail_closed_examples.

Module outage_facts.
Import redis smsrepo volcengine.

Lemma Send_outage cfg t p tpl w :
  sms.Templates cfg !! t = Some tpl ->
  redis_down w (tick w) = true ->
  Send (New cfg NewCacheRepository) t p w =
    (Some ErrPoolTimeout, emit (EvRedis [GET (minuteKey t p)] false) w).
Proof.
  intros Htpl Hdown. unfold Send. cbn [New config]. rewrite Htpl.
  unfold bind, checkSendLimit, bind.
  cbn [New repo sms.GetSendCount NewCacheRepository].
  unfold GetSendCount, bind, Get_Int, bind. by rewrite (redis_facts.Get_down _ _ Hdown).
Qed.

Lemma Verify_outage cfg t p code w :
  redis_down w (tick w) = true ->
  Verify (New cfg NewCacheRepository) t p code w =
    (Some ErrPoolTimeout, emit (EvRedis [GET (verifyFailKey t p)] false) w).
Proof.
  intros Hdown. unfold Verify, bind.
  cbn [New repo sms.GetVerifyFailCount NewCacheRepository].
  unfold GetVerifyFailCount, bind, Get_Int, bind. by rewrite (redis_facts.Get_down _ _ Hdown).
Qed.
End outage_facts.

Module outage_report.
Import redis smsrepo volcengine userlogin outage_facts.

(** A Redis outage reaches the caller as a failed send.  With the
    Redis-backed client and Redis unreachable at the first round trip,
    [SendSMS] for a purpose that has a template and [SMSLogin] both stop
    after that one round trip (the read of the minute counter, or of the
    failure counter) and answer with the code SMSSendFailed, which is not a
    system error, and with the text of the Redis error as the message for
    the client; no message is sent and no user is looked up. *)
Theorem redis_outage_is_reported_as_send_failure
    (cfg : sms.Config) (s : userservice.service) (userRepo : Repository)
    (ulid_New : IO (string * option error)) (phone smsType code tpl : string) (w : World) :
  userservice.smsClient s = as_SMSClient (New cfg NewCacheRepository) ->
  sms.Templates cfg !! smsType = Some tpl ->
  redis_down w (tick w) = true ->
  userservice.SendSMS s phone smsType w =
    (Some (response.Err response.CodeSMSSendFailed (Error ErrPoolTimeout)),
     emit (EvRedis [GET (minuteKey smsType phone)] false) w) /\
  SMSLogin s userRepo ulid_New phone code w =
    (Returns (None, Some (response.Err response.CodeSMSSendFailed (Error ErrPoolTimeout))),
     emit (EvRedis [GET (verifyFailKey userservice.SMSTypeLogin phone)] false) w) /\
  response.IsSystemError response.CodeSMSSendFailed = false.
Proof.
  intros Hclient Htpl Hdown. split; [|split; [|reflexivity]].
  - unfold userservice.SendSMS, bind. rewrite Hclient.
    cbn [as_SMSClient userservice.Send]. by rewrite (Send_outage cfg _ _ tpl w Htpl Hdown).
  - unfold SMSLogin, bind. rewrite Hclient.
    cbn [as_SMSClient userservice.Verify]. by rewrite (Verify_outage cfg _ _ code w Hdown).
Qed.
End outage_report.

Module outage_report_examples.
Import redis smsrepo volcengine scenario scenario_login userlogin.

Lemma redis_outage_is_reported_as_send_failure_witness :
  userservice.SendSMS svc phone "login" (outage world0) =
    (Some (response.Err response.CodeSMSSendFailed (Error ErrPoolTimeout)),
     emit (EvRedis [GET (minuteKey "login" phone)] false) (outage world0)) /\
  SMSLogin svc table ulid_New phone "482913" (outage world0) =
    (Returns (None, Some (response.Err response.CodeSMSSendFailed (Error ErrPoolTimeout))),
     emit (EvRedis [GET (verifyFailKey userservice.SMSTypeLogin phone)] false)
       (outage world0)) /\
  response.IsSystemError response.CodeSMSSendFailed = false.
Proof.
  apply (outage_report.redis_outage_is_reported_as_send_failure smsConfig svc table ulid_New
           phone "login" "482913" "T-login" (outage world0)).
  - reflexivity.
  - vm_compute. reflexivity.
  - reflexivity.
Defined.

Example message_for_the_client :
  fst (userservice.SendSMS svc phone "login" (outage world0)) =
    Some (response_Result 300101 "redis: connection pool timeout").
Proof. vm_compute. reflexivity. Qed.
End outage_report_examples.

Module guesses_v2_facts.
Import redis.

(** A wrong guess against a live code: refused, after one read, with the
    keyspace as it was. *)
Lemma Verify_v2_wrong c t p guess w e :
  smsv2.rdb c = true ->
  redis_down w (tick w) = false ->
  peek (clock w) (rdb w) (smsv2.getRedisKey smsv2.logicalKeyFormat p t) = Some e ->
  guess <> e_val e -> guess <> "777777" ->
  smsv2.Verify c t p guess w =
    (Some (fmt.Errorf "验证码不正确" []),
     emit (EvRedis [GET (smsv2.getRedisKey smsv2.logicalKeyFormat p t)] true) w).
Proof.
  intros Hc Hup Hpeek Hne Hnt. unfold smsv2.Verify.
  destruct (String.eqb_spec guess "777777") as [|_]; [done|].
  rewrite Hc. cbn [negb]. unfold bind. rewrite (redis_facts.Get_up _ _ Hup), Hpeek.
  destruct (String.eqb_spec (e_val e) guess) as [Heq|_]; [by destruct Hne|]. reflexivity.
Qed.

Lemma live_earlier t t' e : t <= t' -> live t' e = true -> live t e = true.
Proof.
  unfold live. destruct (e_deadline e) as [d|]; [|done].
  intros Hle Hl. apply Z.ltb_lt in Hl. apply Z.ltb_lt. lia.
Qed.
End guesses_v2_facts.

Module guesses_v2.
Import redis guesses_v2_facts.

(** The archv2 client never locks a phone out.  Over a Redis that
    answers, while a code is stored and live, any run of wrong guesses (none
    of them the test code) is refused guess by guess with the error for an
    incorrect code, each after one read; the keyspace stays as it was, so
    the stored code is still accepted afterwards.  Nothing counts the
    failures. *)
Theorem wrong_guesses_never_lock_out
    (c : smsv2.VolcengineClient) (t p : string) (tries : list (Z * string))
    (w : World) (e : entry) (d : Z) :
  let key := smsv2.getRedisKey smsv2.logicalKeyFormat p t in
  let after := snd (verify_each_v2 c t p tries w) in
  smsv2.rdb c = true ->
  redis_up w ->
  rdb w !! key = Some e ->
  Forall (wrong_guess (e_val e)) tries ->
  0 <= d ->
  live (clock w + total_delay tries + d) e = true ->
  Forall (fun r => r = Some (fmt.Errorf "验证码不正确" [])) (fst (verify_each_v2 c t p tries w)) /\
  length (fst (verify_each_v2 c t p tries w)) = length tries /\
  rdb after = rdb w /\
  (e_val e <> "777777" ->
   smsv2.Verify c t p (e_val e) (elapse d after) =
     (None,
      emit (EvRedis [DEL key] true)
        (set_rdb (delete key (rdb w))
           (emit (EvRedis [GET key] true) (elapse d after))))).
Proof.
  intros key after Hc Hup Hkey Htries Hd Hlive.
  assert (Hrun : forall tries w,
    redis_up w -> rdb w !! key = Some e ->
    Forall (wrong_guess (e_val e)) tries ->
    live (clock w + total_delay tries) e = true ->
    let after := snd (verify_each_v2 c t p tries w) in
    Forall (fun r => r = Some (fmt.Errorf "验证码不正确" []))
      (fst (verify_each_v2 c t p tries w)) /\
    length (fst (verify_each_v2 c t p tries w)) = length tries /\
    rdb after = rdb w /\
    clock after = clock w + total_delay tries /\
    redis_down after = redis_down w).
  { clear -Hc. intros tries. induction tries as [|[d1 guess] rest IH]; intros w Hup Hkey Htries Hlive.
    - cbn. repeat split; [constructor|lia].
    - inversion Htries as [|? ? [Hd1 [Hne Hnt]] Hrest]; subst. cbn [fst snd] in *.
      unfold total_delay in *. cbn [foldr fst] in *. fold (total_delay rest) in *.
      assert (Hrest_nonneg : 0 <= total_delay rest).
      { clear -Hrest. induction Hrest as [|x l [Hx _] _ IHl]; [done|].
        unfold total_delay in *. cbn [foldr]. lia. }
      cbn [verify_each_v2].
      assert (Hpeek : peek (clock (elapse d1 w)) (rdb (elapse d1 w)) key = Some e).
      { unfold peek. cbn [rdb clock elapse]. rewrite Hkey.
        by rewrite (live_earlier (clock w + d1) (clock w + (d1 + total_delay rest)) e)
          by (done || lia). }
      rewrite (Verify_v2_wrong c t p guess (elapse d1 w) e Hc (Hup _) Hpeek Hne Hnt).
      specialize (IH (emit (EvRedis [GET key] true) (elapse d1 w))). fold key.
      destruct (verify_each_v2 c t p rest _) as [rs w2]. cbn [fst snd] in *.
      destruct IH as (Hall & Hlen & Hrdb & Hclock & Hdown); try done.
      { cbn [clock emit elapse].
        by replace (clock w + d1 + total_delay rest)
          with (clock w + (d1 + total_delay rest)) by lia. }
      repeat split; [by constructor|cbn [length]; by rewrite Hlen|done|
                     rewrite Hclock; cbn [clock emit elapse]; lia|done]. }
  assert (Hnonneg : 0 <= total_delay tries).
  { clear -Htries. induction Htries as [|x l [Hx _] _ IHl]; [done|].
    unfold total_delay in *. cbn [foldr]. lia. }
  destruct (Hrun tries w Hup Hkey Htries) as (Hall & Hlen & Hrdb & Hclock & Hdown).
  { apply (live_earlier _ (clock w + total_delay tries + d)); [lia|done]. }
  fold after in Hrdb, Hclock, Hdown.
  repeat split; try done.
  intros Hnt. unfold smsv2.Verify.
  destruct (String.eqb_spec (e_val e) "777777") as [|_]; [done|].
  rewrite Hc. cbn [negb]. unfold bind. fold key.
  rewrite redis_facts.Get_up by (cbn [redis_down tick elapse]; rewrite Hdown; apply Hup).
  unfold peek. cbn [rdb clock elapse]. rewrite Hrdb, Hkey, Hclock, Hlive.
  cbn [e_val]. rewrite String.eqb_refl. cbn [negb].
  rewrite redis_facts.Del_up by (cbn [redis_down tick emit elapse]; rewrite Hdown; apply Hup).
  cbn [rdb emit elapse]. by rewrite Hrdb.
Qed.
End guesses_v2.

Module guesses_v2_examples.
Import redis scenario.

(** A hundred wrong guesses, one second apart, and then the code. *)
Lemma wrong_guesses_never_lock_out_witness :
  let key := smsv2.getRedisKey smsv2.logicalKeyFormat phone "login" in
  let tries := repeat (time.Second, "000000") 100 in
  let after := snd (verify_each_v2 client2 "login" phone tries sent2) in
  Forall (fun r => r = Some (fmt.Errorf "验证码不正确" []))
    (fst (verify_each_v2 client2 "login" phone tries sent2)) /\
  length (fst (verify_each_v2 client2 "login" phone tries sent2)) = length tries /\
  rdb after = rdb sent2 /\
  smsv2.Verify client2 "login" phone "482913" (elapse time.Second after) =
    (None,
     emit (EvRedis [DEL key] true)
       (set_rdb (delete key (rdb sent2))
          (emit (EvRedis [GET key] true) (elapse time.Second after)))).
Proof.
  pose proof (guesses_v2.wrong_guesses_never_lock_out client2 "login" phone
                (repeat (time.Second, "000000") 100) sent2
                (Entry "482913" (Some (clock world0 + 5 * time.Minute))) time.Second) as H.
  cbv zeta in H. cbv zeta.
  destruct H as (H1 & H2 & H3 & H4).
  - reflexivity.
  - intros n. reflexivity.
  - vm_compute. reflexivity.
  - apply Forall_forall. intros x Hx. apply list_elem_of_In, repeat_spec in Hx. subst x.
    split; [vm_compute; discriminate|split; discriminate].
  - vm_compute. discriminate.
  - vm_compute. reflexivity.
  - exact (conj H1 (conj H2 (conj H3 (H4 ltac:(discriminate))))).
Defined.
End guesses_v2_examples.

Module null_strings.

(** Pointers survive the trip through [sql.NullString], and a
    [NullString] survives the trip through a pointer exactly when it is
    valid or already the zero value: an invalid one that still carries a
    string comes back with the string dropped. *)
Theorem NullString_round_trip (s : option string) (ns : sql.NullString) :
  sqlx.NullStringToPtr (sqlx.PtrToNullString s) = s /\
  (sqlx.PtrToNullString (sqlx.NullStringToPtr ns) = ns <->
   sql.Valid ns = true \/ sql.String_ ns = "") /\
  sql.Valid (sqlx.PtrToNullString (sqlx.NullStringToPtr ns)) = sql.Valid ns.
Proof.
  split; [by destruct s|]. destruct ns as [str [|]]; cbn; (split; [|done]).
  - split; [by left|done].
  - split.
    + intros [= <-]. by right.
    + intros [H| ->]; done.
Qed.
End null_strings.

Module auth_refusals.
Import jwtlib jwtparse jwt middleware refresh_facts middleware_facts response_ext.

(** Whatever the middleware refuses, it answers with HTTP status 200 and
    one of three codes.  Unauthorized (no cookie) and TokenInvalid (a token
    that does not parse, or is revoked) are authentication errors, which
    tell the client to log in again; CacheError is a system error, does not
    ask for a new login, and is sent only when Redis was unreachable at the
    lookup. *)
Theorem Handle_refusal_codes
    (m : AuthMiddleware) (c : app.RequestContext) (w w' : World) (body : JSON) :
  Handle m c w = (Abort body, w') ->
  status body = StatusOK /\
  ((code body = CodeUnauthorized \/ code body = response.CodeTokenInvalid) /\
   NeedsRelogin (code body) = true
   \/
   code body = response.CodeCacheError /\
   redis_down w (tick w) = true /\
   NeedsRelogin (code body) = false /\ response.IsSystemError (code body) = true).
Proof.
  destruct (enabled m) eqn:He; [|unfold Handle; rewrite He; discriminate].
  destruct (default false (publicPaths !! (app.Method c +:+ ":" +:+ app.Path c))) eqn:Hp;
    [unfold Handle; rewrite He, Hp; discriminate|].
  rewrite (Handle_guarded m c w He Hp).
  destruct (app.is_empty _); [intros [= <- <-]; split; [done|left; split; [by left|done]]|].
  destruct (fst (ParseToken _ _ _ w)) as [[claims|] [e|]];
    try (intros [= <- <-]; split; [done|left; split; [by right|done]]).
  rewrite IsTokenBlacklisted_run.
  destruct (redis_down w (tick w)) eqn:Hd.
  - rewrite (redis_facts.Get_down _ _ Hd). cbn [fst snd chain_has].
    intros [= <- <-]. split; [done|by right].
  - rewrite (redis_facts.Get_up _ _ Hd).
    destruct (redis.peek _ _ _) as [e|]; cbn [fst snd].
    + destruct (String.eqb (e_val e) "1"); [|discriminate].
      intros [= <- <-]. split; [done|left; split; [by right|done]].
    + discriminate.
Qed.

(** The classes of codes do not overlap: a code is an authentication,
    permission, client, user, business or system error, or none of them,
    but never two at once; and a new login is asked for exactly the
    authentication errors. *)
Theorem code_classes_are_disjoint (code : Z) :
  Z.b2z (IsAuthError code) + Z.b2z (IsPermissionError code) + Z.b2z (IsClientError code)
  + Z.b2z (IsUserError code) + Z.b2z (IsBizError code)
  + Z.b2z (response.IsSystemError code) <= 1 /\
  NeedsRelogin code = IsAuthError code.
Proof.
  split; [|done].
  unfold IsAuthError, IsPermissionError, IsClientError, IsUserError, IsBizError,
    response.IsSystemError.
  repeat (match goal with
          | |- context [?a <=? ?b] => destruct (Z.leb_spec a b)
          | |- context [?a <? ?b] => destruct (Z.ltb_spec a b)
          end; try lia); cbn; lia.
Qed.
End auth_refusals.

Module auth_refusals_examples.
Import jwtlib jwtparse jwt middleware scenario scenario_web response_ext.

Lemma Handle_refusal_codes_witness :
  let body := mkJSON StatusOK response.CodeTokenInvalid "登录已失效" in
  status body = StatusOK /\
  ((code body = CodeUnauthorized \/ code body = response.CodeTokenInvalid) /\
   NeedsRelogin (code body) = true
   \/
   code body = response.CodeCacheError /\
   redis_down next_day (tick next_day) = true /\
   NeedsRelogin (code body) = false /\ response.IsSystemError (code body) = true).
Proof.
  apply (auth_refusals.Handle_refusal_codes guard request next_day next_day).
  vm_compute. reflexivity.
Defined.
End auth_refusals_examples.
